(** * git-forge: the provider normalization layer

    A shallow embedding of [src/errors.ts], [src/types.ts],
    [src/providers/gitlab.ts], [src/providers/github.ts] and
    [src/providers/azure-devops.ts], followed by the properties of the
    adapters that the specification states.

    The backend clients (Octokit, Gitbeaker, azure-devops-node-api) are
    external: an adapter is modelled as a program that issues requests to
    a [World], which answers each request by a value or by a rejection.
    Every request is recorded in a trace, so that statements such as
    "no request is made" can be read off the run. *)

From Stdlib Require Import String Ascii List ZArith Bool Lia DecimalString.
Import ListNotations.
Open Scope Z_scope.
Open Scope string_scope.

Set Implicit Arguments.

(* ------------------------------------------------------------------ *)
(** * JavaScript builtins used by the adapters *)

Module Js.

(** [a ?? b] on a possibly-undefined value. *)
Definition nullish {A} (o : option A) (d : A) : A :=
  match o with Some a => a | None => d end.

(** Truthiness of a string: every string but the empty one. *)
Definition truthy (s : string) : bool :=
  match s with EmptyString => false | String _ _ => true end.

Definition lowerChar (c : ascii) : ascii :=
  let n := nat_of_ascii c in
  if (Nat.leb 65 n && Nat.leb n 90)%bool then ascii_of_nat (n + 32) else c.

(** [String.prototype.toLowerCase], on the ASCII letters: the patterns
    the adapters look for are ASCII, and lower-casing a non-ASCII
    character never yields one of their characters. *)
Fixpoint toLowerCase (s : string) : string :=
  match s with
  | EmptyString => EmptyString
  | String c s' => String (lowerChar c) (toLowerCase s')
  end.

(** [s.includes(needle)]. *)
Fixpoint includes (s needle : string) : bool :=
  (String.prefix needle s ||
   match s with
   | EmptyString => false
   | String _ s' => includes s' needle
   end)%bool.

Fixpoint dropChars (n : nat) (s : string) : string :=
  match n, s with
  | S n', String _ s' => dropChars n' s'
  | _, _ => s
  end.

(** [s.replace(/^prefix/, "")] for a literal prefix. *)
Definition replacePrefix (prefix s : string) : string :=
  if String.prefix prefix s then dropChars (String.length prefix) s else s.

Definition isHexDigit (c : ascii) : bool :=
  let n := nat_of_ascii c in
  ((Nat.leb 48 n && Nat.leb n 57) ||
   (Nat.leb 97 n && Nat.leb n 102) ||
   (Nat.leb 65 n && Nat.leb n 70))%bool.

Fixpoint allChars (p : ascii -> bool) (s : string) : bool :=
  match s with
  | EmptyString => true
  | String c s' => (p c && allChars p s')%bool
  end.

(** [/^[0-9a-f]{40}$/i.test(s)]. *)
Definition testSha (s : string) : bool :=
  (Nat.eqb (String.length s) 40 && allChars isHexDigit s)%bool.

(** The decimal digits of an integer. *)
Definition decimal (n : Z) : string := NilZero.string_of_int (Z.to_int n).

Definition countDigits (n : Z) : Z := Z.of_nat (String.length (decimal n)).

(** The Number that a positive integer [m] denotes: [m] itself below
    [2^53]; from there on the 53 leading bits of [m], rounded to
    nearest, ties to even. [None] stands for [Infinity]. *)
Definition toNumber (m : Z) : option Z :=
  (if m <? 2 ^ 53 then Some m
   else
     let e := Z.log2 m - 52 in
     let q := Z.shiftr m e in
     let r := m - Z.shiftl q e in
     let half := Z.shiftl 1 (e - 1) in
     let q' := if ((half <? r) || ((r =? half) && Z.odd q))%bool then q + 1 else q in
     let x := Z.shiftl q' e in
     if 2 ^ 1024 <=? x then None else Some x)%Z.

(** The [k] digits [s], read as [s * 10^(n - k)], denote the Number [x]. *)
Definition denotes (x k : Z) (c : Z * Z) : bool :=
  let (s, n) := c in
  ((10 ^ (k - 1) <=? s)%Z && (s <? 10 ^ k)%Z &&
   match toNumber (s * 10 ^ (n - k)) with
   | Some y => (y =? x)%Z
   | None => false
   end)%bool.

(** The [k]-digit decimals next to [x] that denote [x]. *)
Definition candidates (x k : Z) : list (Z * Z) :=
  filter (denotes x k)
    (flat_map (fun n => let s := (x / 10 ^ (n - k))%Z in [(s, n); ((s + 1)%Z, n)])
       [countDigits x; (countDigits x + 1)%Z]).

Definition distance (x k : Z) (c : Z * Z) : Z :=
  Z.abs (fst c * 10 ^ (snd c - k) - x).

Definition closer (x k : Z) (a b : Z * Z) : Z * Z :=
  if (distance x k b <? distance x k a)%Z then b
  else if ((distance x k b =? distance x k a)%Z && Z.even (fst b))%bool then b
  else a.

Definition closest (x k : Z) (cs : list (Z * Z)) : option (Z * Z) :=
  match cs with
  | [] => None
  | c :: cs' => Some (fold_left (closer x k) cs' c)
  end.

(** The digits [s] and the exponent [n] of Number::toString: the
    fewest digits that denote [x], and among those the decimal closest
    to [x]. Seventeen digits tell any two Numbers apart, so the search
    ends before the fuel does. *)
Fixpoint shortest (x k : Z) (fuel : nat) : Z * Z :=
  match fuel with
  | O => (x, countDigits x)
  | S fuel' =>
      match closest x k (candidates x k) with
      | Some c => c
      | None => shortest x (k + 1) fuel'
      end
  end.

Definition zeros (n : Z) : string := string_of_list_ascii (repeat "0"%char (Z.to_nat n)).

(** [d.ddd...e+x]. *)
Definition exponential (s n : Z) : string :=
  match decimal s with
  | String c EmptyString => String c ("e+" ++ decimal (n - 1))
  | String c rest => String c ("." ++ rest ++ "e+" ++ decimal (n - 1))
  | EmptyString => EmptyString
  end.

(** [String(n)] for an integral Number [n], which is Number::toString
    of ECMAScript at radix 10. Below [2^53] in magnitude these are the
    decimal digits of [n]. From there on they are the fewest digits
    that denote the same Number, followed by zeros as long as the
    number has at most 21 digits, and written with an exponent beyond:
    [String(2 ** 64)] is ["18446744073709552000"] and [String(1e21)] is
    ["1e+21"]. An integer that is no Number stands for the Number
    nearest to it. Pull request numbers are integers; a fractional
    number and [NaN] have no counterpart here. *)
Definition String_ (z : Z) : string :=
  if (z =? 0)%Z then "0"
  else
    (if (z <? 0)%Z then "-" else EmptyString) ++
    let m := Z.abs z in
    if (m <? 2 ^ 53)%Z then decimal m
    else
      match toNumber m with
      | None => "Infinity"
      | Some x =>
          let (s, n) := shortest x 1 17 in
          if (n <=? 21)%Z then decimal s ++ zeros (n - countDigits s) else exponential s n
      end.

Arguments String_ : simpl never.

(** [`${v}`] for a possibly-undefined number. *)
Definition template (o : option Z) : string :=
  match o with Some n => String_ n | None => "undefined" end.

(** [xs[0]]. *)
Definition first {A} (xs : list A) : option A := List.hd_error xs.

(** A [Date] is either parsed from a backend timestamp
    ([new Date(text)]), or a reading of the clock ([new Date()]), or a
    value the backend client already delivered as a date. *)
Inductive Date : Type :=
| DateOf (text : string)
| DateNow (reading : Z)
| DateValue (millis : Z).

(** The result of [parseInt(text, radix)], kept symbolic. *)
Inductive Number : Type :=
| parseInt (text : string) (radix : Z).

End Js.

Notation "a ?? b" := (Js.nullish a b) (at level 45, right associativity).

(* ------------------------------------------------------------------ *)
(** * errors.ts *)

Inductive Provider : Type := github | gitlab | azure_devops.

Module Resource.
Inductive t : Type := repository | branch | pull_request.
End Resource.

(** What a [catch] clause may receive: an [Error] of the backend client
    (with the [status] and the [retry-after] header when it carries
    them), any other thrown value (by its [String(...)] form), or one of
    the tagged errors below, which all extend [Error]. *)
Inductive Thrown : Type :=
| JsError (message : string) (status : option Z) (retryAfterHeader : option string)
| JsValue (text : string)
| Tagged (e : ForgeError)
with ForgeError : Type :=
| GitForgeError (provider : Provider) (operation message : string) (cause : Thrown)
| AuthenticationError (provider : Provider) (message : string)
| NotFoundError (provider : Provider) (resource : Resource.t) (identifier : string)
| RateLimitError (provider : Provider) (retryAfter : option Js.Number)
| ValidationError (provider : Provider) (message : string) (field : option string).

(** [e.message] of a tagged error: the [message] argument it was built
    with, or the empty string when it has none. *)
Definition forgeMessage (e : ForgeError) : string :=
  match e with
  | GitForgeError _ _ m _ => m
  | AuthenticationError _ m => m
  | NotFoundError _ _ _ => ""
  | RateLimitError _ _ => ""
  | ValidationError _ m _ => m
  end.

(** [error instanceof Error ? Some error.message : None]. *)
Definition errorMessage (t : Thrown) : option string :=
  match t with
  | JsError m _ _ => Some m
  | JsValue _ => None
  | Tagged e => Some (forgeMessage e)
  end.

(** [error instanceof Error ? error.message : String(error)]. *)
Definition messageOrString (t : Thrown) : string :=
  match t with
  | JsError m _ _ => m
  | JsValue text => text
  | Tagged e => forgeMessage e
  end.

Definition isNotFoundError (t : Thrown) : bool :=
  match t with Tagged (NotFoundError _ _ _) => true | _ => false end.

Definition isValidationError (t : Thrown) : bool :=
  match t with Tagged (ValidationError _ _ _) => true | _ => false end.

(* ------------------------------------------------------------------ *)
(** * types.ts *)

Module Repository.
Record t : Type := make {
  provider : Provider;
  owner : string;
  repo : string;
  project : option string
}.
End Repository.

Module Branch.
Record t : Type := make {
  name : string;
  sha : string;
  isDefault : bool;
  protected : bool
}.
End Branch.

Module PullRequestState.
Inductive t : Type := open | closed | merged.
End PullRequestState.

Module PullRequest.
Record t : Type := make {
  id : Z;
  number : Z;
  title : string;
  description : option string;
  state : PullRequestState.t;
  sourceBranch : string;
  targetBranch : string;
  author : string;
  url : string;
  draft : bool;
  createdAt : Js.Date;
  updatedAt : Js.Date
}.
End PullRequest.

Module CreateBranchInput.
Record t : Type := make { name : string; fromRef : string }.
End CreateBranchInput.

Module CreatePullRequestInput.
Record t : Type := make {
  title : string;
  description : option string;
  sourceBranch : string;
  targetBranch : string;
  draft : option bool
}.
End CreatePullRequestInput.

Inductive StateFilter : Type := filter_open | filter_closed | filter_all.

Module ListPullRequestsOptions.
Record t : Type := make { state : option StateFilter; limit : option Z }.
End ListPullRequestsOptions.

(** [options?.state] and [options?.limit]. *)
Definition optionsState (o : option ListPullRequestsOptions.t) : option StateFilter :=
  match o with Some x => ListPullRequestsOptions.state x | None => None end.

Definition optionsLimit (o : option ListPullRequestsOptions.t) : option Z :=
  match o with Some x => ListPullRequestsOptions.limit x | None => None end.

(** Modelled from the spec: [CommitFileInput] is imported from
    [types.js] by the providers but its declaration is not part of the
    sources at hand; the fields are those the providers read
    ([{path, content, message, branch}]). *)
Module CommitFileInput.
Record t : Type := make {
  path : string;
  content : string;
  message : string;
  branch : string
}.
End CommitFileInput.

(** Modelled from the spec: [CommitResult] is [{sha, message}], the
    result of a single file create-or-update. *)
Module CommitResult.
Record t : Type := make { sha : string; message : string }.
End CommitResult.

(* ------------------------------------------------------------------ *)
(** * The runtime: promises, [Effect.tryPromise], [Effect.gen] *)

(** How a backend request settles. *)
Inductive Outcome (T : Type) : Type :=
| Resolved (value : T)
| Rejected (reason : Thrown).
Arguments Rejected {T} reason.

(** How the body of an [async] function completes. *)
Inductive Completion (A : Type) : Type :=
| Returned (value : A)
| Threw (reason : Thrown).
Arguments Threw {A} reason.

(** How an [Effect] exits: with a value, with a typed failure, or with a
    defect (an exception thrown outside of [tryPromise]). *)
Inductive Exit (A : Type) : Type :=
| Success (value : A)
| Failure (error : ForgeError)
| Die (defect : Thrown).
Arguments Failure {A} error.
Arguments Die {A} defect.

Section Runtime.

(** The requests of one backend client, indexed by what they resolve to. *)
Variable E : Type -> Type.

Definition Request : Type := { T : Type & E T }.
Definition request {T} (c : E T) : Request := existT E T c.
Definition Trace : Type := list Request.

(** The world answers a request knowing the requests issued before it
    (oldest first); it decides which of two rejected concurrent
    requests settles first; and it gives the successive readings of
    the clock. *)
Record World : Type := {
  respond : Trace -> forall T, E T -> Outcome T;
  firstSettlesFirst : Trace -> bool;
  clock : nat -> Z
}.

Record State : Type := { trace : Trace; reads : nat }.

Definition initial : State := {| trace := []; reads := 0 |}.

Definition issue {T} (c : E T) (s : State) : State :=
  {| trace := (trace s ++ [request c])%list; reads := reads s |}.

Definition Async (A : Type) : Type := World -> State -> Completion A * State.

Definition ret {A} (a : A) : Async A := fun _ s => (Returned a, s).

Definition throw {A} (t : Thrown) : Async A := fun _ s => (Threw t, s).

Definition bind {A B} (m : Async A) (k : A -> Async B) : Async B :=
  fun w s =>
    match m w s with
    | (Returned a, s') => k a w s'
    | (Threw t, s') => (Threw t, s')
    end.

(** [try { body } catch { handler }]. *)
Definition tryCatch {A} (body : Async A) (handler : Thrown -> Async A) : Async A :=
  fun w s =>
    match body w s with
    | (Returned a, s') => (Returned a, s')
    | (Threw t, s') => handler t w s'
    end.

(** [await c]. *)
Definition await {T} (c : E T) : Async T :=
  fun w s =>
    match respond w (trace s) c with
    | Resolved v => (Returned v, issue c s)
    | Rejected t => (Threw t, issue c s)
    end.

(** [await Promise.all([c1, c2])]: both requests are issued; the first
    rejection to settle is the one thrown. *)
Definition awaitAll {T1 T2} (c1 : E T1) (c2 : E T2) : Async (T1 * T2) :=
  fun w s =>
    let s1 := issue c1 s in
    let s2 := issue c2 s1 in
    match respond w (trace s) c1, respond w (trace s1) c2 with
    | Resolved v1, Resolved v2 => (Returned (v1, v2), s2)
    | Rejected t, Resolved _ => (Threw t, s2)
    | Resolved _, Rejected t => (Threw t, s2)
    | Rejected t1, Rejected t2 =>
        (Threw (if firstSettlesFirst w (trace s) then t1 else t2), s2)
    end.

(** [new Date()]. *)
Definition now : Async Js.Date :=
  fun w s =>
    (Returned (Js.DateNow (clock w (reads s))),
     {| trace := trace s; reads := S (reads s) |}).

(** [xs.map(f)] for an [f] that may read the clock. *)
Fixpoint mapAsync {A B} (f : A -> Async B) (xs : list A) : Async (list B) :=
  match xs with
  | [] => ret []
  | x :: xs' =>
      bind (f x) (fun y => bind (mapAsync f xs') (fun ys => ret (y :: ys)))
  end.

Definition Effect (A : Type) : Type := World -> State -> Exit A * State.

(** [Effect.tryPromise({ try, catch })]. *)
Definition tryPromise {A} (try_ : Async A) (catch_ : Thrown -> ForgeError) : Effect A :=
  fun w s =>
    match try_ w s with
    | (Returned a, s') => (Success a, s')
    | (Threw t, s') => (Failure (catch_ t), s')
    end.

Definition succeed {A} (a : A) : Effect A := fun _ s => (Success a, s).

Definition die {A} (t : Thrown) : Effect A := fun _ s => (Die t, s).

(** [yield*] inside [Effect.gen]. *)
Definition andThen {A B} (m : Effect A) (k : A -> Effect B) : Effect B :=
  fun w s =>
    match m w s with
    | (Success a, s') => k a w s'
    | (Failure e, s') => (Failure e, s')
    | (Die t, s') => (Die t, s')
    end.

(** [Effect.catchAll]: recovers from typed failures, not from defects. *)
Definition catchAll {A} (m : Effect A) (handler : ForgeError -> Effect A) : Effect A :=
  fun w s =>
    match m w s with
    | (Failure e, s') => handler e w s'
    | other => other
    end.

(** A synchronous call that may throw, made in the body of
    [Effect.gen]: the exception becomes a defect. *)
Definition sync {A} (c : Completion A) : Effect A :=
  match c with
  | Returned a => succeed a
  | Threw t => die t
  end.

(** The same call made inside an [async] body. *)
Definition lift {A} (c : Completion A) : Async A :=
  match c with
  | Returned a => ret a
  | Threw t => throw t
  end.

(** Running an effect from a fresh state: its exit and the requests it
    issued, oldest first. *)
Definition run {A} (m : Effect A) (w : World) : Exit A * Trace :=
  let (x, s) := m w initial in (x, trace s).

End Runtime.

Arguments respond {E} w history {T} c : rename.
Arguments request {E T} c.
Arguments ret {E A} a.
Arguments throw {E A} t.
Arguments now {E}.
Arguments succeed {E A} a.
Arguments die {E A} t.
Arguments sync {E A} c.
Arguments lift {E A} c.
Arguments initial {E}.

Declare Scope async_scope.
Delimit Scope async_scope with async.
Notation "x <- m ;; k" := (bind m (fun x => k))
  (at level 61, m at next level, right associativity) : async_scope.
Notation "m ;; k" := (bind m (fun _ => k))
  (at level 61, right associativity) : async_scope.

Declare Scope effect_scope.
Delimit Scope effect_scope with effect.
Notation "x <- m ;; k" := (andThen m (fun x => k))
  (at level 61, m at next level, right associativity) : effect_scope.

(* ------------------------------------------------------------------ *)
(** * providers/gitlab.ts *)

Module GitLab.

Definition PROVIDER : Provider := gitlab.

(** The fields of Gitbeaker's responses that the adapter reads;
    [commit_id] stands for [commit.id]. *)
Record BranchSchema : Type := {
  name : string;
  commit_id : string;
  protected : bool
}.

Record ProjectSchema : Type := { default_branch : string }.

Record UserSchema : Type := { username : string }.

Record MergeRequestSchema : Type := {
  id : Z;
  iid : Z;
  title : string;
  description : option string;
  state : string;
  source_branch : string;
  target_branch : string;
  author : option UserSchema;
  web_url : string;
  draft : option bool;
  work_in_progress : option bool;
  created_at : string;
  updated_at : string
}.

(** The requests the adapter sends through the Gitbeaker client. The
    options object of [MergeRequests.create] is [{description}] or
    [undefined]; the one of [MergeRequests.all] holds an optional
    [state] and [perPage]. *)
Inductive Call : Type -> Type :=
| Branches_create (projectId branchName ref : string) : Call BranchSchema
| Branches_show (projectId branchName : string) : Call BranchSchema
| Branches_all (projectId : string) (perPage : Z) : Call (list BranchSchema)
| Projects_show (projectId : string) : Call ProjectSchema
| RepositoryFiles_show (projectId path ref : string) : Call unit
| RepositoryFiles_edit (projectId path branchName content message : string) : Call unit
| RepositoryFiles_create (projectId path branchName content message : string) : Call unit
| MergeRequests_create (projectId sourceBranch targetBranch title : string)
    (description : option string) : Call MergeRequestSchema
| MergeRequests_show (projectId : string) (mergerequestIId : Z) : Call MergeRequestSchema
| MergeRequests_all (projectId : string) (state : option string) (perPage : Z)
    : Call (list MergeRequestSchema).

Definition mapError (error : Thrown) (operation : string) : ForgeError :=
  let generic := GitForgeError PROVIDER operation (messageOrString error) error in
  match errorMessage error with
  | Some error_message =>
      let message := Js.toLowerCase error_message in
      if (Js.includes message "401" || Js.includes message "unauthorized")%bool then
        AuthenticationError PROVIDER error_message
      else if (Js.includes message "404" || Js.includes message "not found")%bool then
        NotFoundError PROVIDER Resource.repository "unknown"
      else if (Js.includes message "422" || Js.includes message "invalid")%bool then
        ValidationError PROVIDER error_message None
      else if (Js.includes message "429" || Js.includes message "rate limit")%bool then
        RateLimitError PROVIDER None
      else generic
  | None => generic
  end.

Definition mapMrState (state : string) : PullRequestState.t :=
  if state =? "merged" then PullRequestState.merged
  else if state =? "opened" then PullRequestState.open
  else PullRequestState.closed.

Definition getProjectId (owner repo : string) : string := owner ++ "/" ++ repo.

(** [e instanceof Error && e.message.toLowerCase().includes("not found")],
    the test of the [catch] clauses of [getBranch] and [getPullRequest]. *)
Definition saysNotFound (e : Thrown) : bool :=
  match errorMessage e with
  | Some m => Js.includes (Js.toLowerCase m) "not found"
  | None => false
  end.

(** The object literal that [createBranch], [getBranch] and
    [listBranches] each build from a branch and the project. *)
Definition toBranch (b : BranchSchema) (project : ProjectSchema) : Branch.t :=
  {| Branch.name := name b;
     Branch.sha := commit_id b;
     Branch.isDefault := default_branch project =? name b;
     Branch.protected := protected b |}.

(** The object literal that [createPullRequest], [getPullRequest] and
    [listPullRequests] each build from a merge request. *)
Definition toPullRequest (mr : MergeRequestSchema) : PullRequest.t :=
  {| PullRequest.id := id mr;
     PullRequest.number := iid mr;
     PullRequest.title := title mr;
     PullRequest.description := description mr;
     PullRequest.state := mapMrState (state mr);
     PullRequest.sourceBranch := source_branch mr;
     PullRequest.targetBranch := target_branch mr;
     PullRequest.author := option_map username (author mr) ?? "unknown";
     PullRequest.url := web_url mr;
     PullRequest.draft := draft mr ?? work_in_progress mr ?? false;
     PullRequest.createdAt := Js.DateOf (created_at mr);
     PullRequest.updatedAt := Js.DateOf (updated_at mr) |}.

Local Open Scope async_scope.

Definition createBranch (repo : Repository.t) (input : CreateBranchInput.t)
  : Effect Call Branch.t :=
  tryPromise
    (let projectId := getProjectId (Repository.owner repo) (Repository.repo repo) in
     branch <- await (Branches_create projectId (CreateBranchInput.name input)
                        (CreateBranchInput.fromRef input)) ;;
     project <- await (Projects_show projectId) ;;
     ret (toBranch branch project))
    (fun e => mapError e "createBranch").

Definition getBranch (repo : Repository.t) (name : string) : Effect Call Branch.t :=
  tryPromise
    (let projectId := getProjectId (Repository.owner repo) (Repository.repo repo) in
     both <- awaitAll (Branches_show projectId name) (Projects_show projectId) ;;
     ret (toBranch (fst both) (snd both)))
    (fun e =>
       if saysNotFound e then NotFoundError PROVIDER Resource.branch name
       else mapError e "getBranch").

Definition listBranches (repo : Repository.t) : Effect Call (list Branch.t) :=
  tryPromise
    (let projectId := getProjectId (Repository.owner repo) (Repository.repo repo) in
     both <- awaitAll (Branches_all projectId 100) (Projects_show projectId) ;;
     ret (map (fun b => toBranch b (snd both)) (fst both)))
    (fun e => mapError e "listBranches").

Definition commitFile (repo : Repository.t) (input : CommitFileInput.t)
  : Effect Call CommitResult.t :=
  tryPromise
    (let projectId := getProjectId (Repository.owner repo) (Repository.repo repo) in
     fileExists <-
       tryCatch
         (await (RepositoryFiles_show projectId (CommitFileInput.path input)
                   (CommitFileInput.branch input)) ;;
          ret true)
         (fun _ => ret false) ;;
     (if fileExists then
             await (RepositoryFiles_edit projectId (CommitFileInput.path input)
                      (CommitFileInput.branch input) (CommitFileInput.content input)
                      (CommitFileInput.message input))
           else
             await (RepositoryFiles_create projectId (CommitFileInput.path input)
                      (CommitFileInput.branch input) (CommitFileInput.content input)
                      (CommitFileInput.message input))) ;;
     branch <- await (Branches_show projectId (CommitFileInput.branch input)) ;;
     ret {| CommitResult.sha := commit_id branch;
            CommitResult.message := CommitFileInput.message input |})
    (fun e => mapError e "commitFile").

Definition createPullRequest (repo : Repository.t) (input : CreatePullRequestInput.t)
  : Effect Call PullRequest.t :=
  tryPromise
    (let projectId := getProjectId (Repository.owner repo) (Repository.repo repo) in
     let title :=
       if CreatePullRequestInput.draft input ?? false
       then "Draft: " ++ CreatePullRequestInput.title input
       else CreatePullRequestInput.title input in
     mr <- await (MergeRequests_create projectId
                    (CreatePullRequestInput.sourceBranch input)
                    (CreatePullRequestInput.targetBranch input)
                    title
                    (CreatePullRequestInput.description input)) ;;
     ret (toPullRequest mr))
    (fun e => mapError e "createPullRequest").

Definition getPullRequest (repo : Repository.t) (number : Z) : Effect Call PullRequest.t :=
  tryPromise
    (let projectId := getProjectId (Repository.owner repo) (Repository.repo repo) in
     mr <- await (MergeRequests_show projectId number) ;;
     ret (toPullRequest mr))
    (fun e =>
       if saysNotFound e then NotFoundError PROVIDER Resource.pull_request (Js.String_ number)
       else mapError e "getPullRequest").

Definition listPullRequests (repo : Repository.t) (options : option ListPullRequestsOptions.t)
  : Effect Call (list PullRequest.t) :=
  tryPromise
    (let projectId := getProjectId (Repository.owner repo) (Repository.repo repo) in
     let state :=
       match optionsState options with
       | Some filter_all => None
       | Some filter_closed => Some "closed"
       | _ => Some "opened"
       end in
     mrs <- await (MergeRequests_all projectId state (optionsLimit options ?? 30)) ;;
     ret (map toPullRequest mrs))
    (fun e => mapError e "listPullRequests").

End GitLab.

(* ------------------------------------------------------------------ *)
(** * providers/github.ts *)

Module GitHub.

Definition PROVIDER : Provider := github.

(** The fields of Octokit's response data that the adapter reads;
    [object_sha] stands for [object.sha], [commit_sha] for
    [commit.sha], [head_ref] for [head.ref], [base_ref] for [base.ref]. *)
Record GitRefSchema : Type := { object_sha : string }.

Record RepoSchema : Type := { default_branch : string }.

Record BranchSchema : Type := {
  name : string;
  commit_sha : string;
  protected : bool
}.

Record UserSchema : Type := { login : string }.

(** A pull request as [pulls.create] and [pulls.get] return it (with
    [merged]) and as [pulls.list] returns it (with [merged_at], [null]
    being [None]). *)
Record PullSchema : Type := {
  id : Z;
  number : Z;
  title : string;
  body : option string;
  state : string;
  merged : option bool;
  merged_at : option string;
  head_ref : string;
  base_ref : string;
  user : option UserSchema;
  html_url : string;
  draft : option bool;
  created_at : string;
  updated_at : string
}.

Inductive Call : Type -> Type :=
| git_getRef (owner repo ref : string) : Call GitRefSchema
| git_createRef (owner repo ref sha : string) : Call unit
| repos_get (owner repo : string) : Call RepoSchema
| repos_getBranch (owner repo branchName : string) : Call BranchSchema
| repos_listBranches (owner repo : string) (per_page : Z) : Call (list BranchSchema)
| pulls_create (owner repo title : string) (body : option string)
    (head base : string) (draft : bool) : Call PullSchema
| pulls_get (owner repo : string) (pull_number : Z) : Call PullSchema
| pulls_list (owner repo state : string) (per_page : Z) : Call (list PullSchema).

Definition mapError (error : Thrown) (operation : string) : ForgeError :=
  let generic := GitForgeError PROVIDER operation (messageOrString error) error in
  match error with
  | JsError error_message (Some status) retryAfterHeader =>
      if ((status =? 401) || (status =? 403))%Z%bool then
        AuthenticationError PROVIDER error_message
      else if (status =? 404)%Z then
        NotFoundError PROVIDER Resource.repository "unknown"
      else if (status =? 422)%Z then
        ValidationError PROVIDER error_message None
      else if (status =? 429)%Z then
        let retryAfter :=
          match retryAfterHeader with
          | Some header => if Js.truthy header then Some (Js.parseInt header 10) else None
          | None => None
          end in
        RateLimitError PROVIDER retryAfter
      else generic
  | _ => generic
  end.

Definition mapPrState (state : string) (merged : bool) : PullRequestState.t :=
  if merged then PullRequestState.merged
  else if state =? "open" then PullRequestState.open
  else PullRequestState.closed.

(** [e instanceof Error && "status" in e && e.status === 404], the
    test of the [catch] clauses of [getBranch] and [getPullRequest]. *)
Definition hasStatus404 (e : Thrown) : bool :=
  match e with
  | JsError _ (Some status) _ => (status =? 404)%Z
  | _ => false
  end.

(** The object literal of [createPullRequest] and [getPullRequest]. *)
Definition toPullRequest (data : PullSchema) : PullRequest.t :=
  {| PullRequest.id := id data;
     PullRequest.number := number data;
     PullRequest.title := title data;
     PullRequest.description := body data;
     PullRequest.state := mapPrState (state data) (merged data ?? false);
     PullRequest.sourceBranch := head_ref data;
     PullRequest.targetBranch := base_ref data;
     PullRequest.author := option_map login (user data) ?? "unknown";
     PullRequest.url := html_url data;
     PullRequest.draft := draft data ?? false;
     PullRequest.createdAt := Js.DateOf (created_at data);
     PullRequest.updatedAt := Js.DateOf (updated_at data) |}.

(** The object literal of [listPullRequests]. *)
Definition toListedPullRequest (pr : PullSchema) : PullRequest.t :=
  {| PullRequest.id := id pr;
     PullRequest.number := number pr;
     PullRequest.title := title pr;
     PullRequest.description := body pr;
     PullRequest.state :=
       mapPrState (state pr) (match merged_at pr with Some _ => true | None => false end);
     PullRequest.sourceBranch := head_ref pr;
     PullRequest.targetBranch := base_ref pr;
     PullRequest.author := option_map login (user pr) ?? "unknown";
     PullRequest.url := html_url pr;
     PullRequest.draft := draft pr ?? false;
     PullRequest.createdAt := Js.DateOf (created_at pr);
     PullRequest.updatedAt := Js.DateOf (updated_at pr) |}.

Local Open Scope async_scope.

Definition createBranch (repo : Repository.t) (input : CreateBranchInput.t)
  : Effect Call Branch.t :=
  tryPromise
    (sha <- (if Js.testSha (CreateBranchInput.fromRef input) then
               ret (CreateBranchInput.fromRef input)
             else
               ref <- await (git_getRef (Repository.owner repo) (Repository.repo repo)
                               ("heads/" ++ CreateBranchInput.fromRef input)) ;;
               ret (object_sha ref)) ;;
     await (git_createRef (Repository.owner repo) (Repository.repo repo)
              ("refs/heads/" ++ CreateBranchInput.name input) sha) ;;
     repoData <- await (repos_get (Repository.owner repo) (Repository.repo repo)) ;;
     ret {| Branch.name := CreateBranchInput.name input;
            Branch.sha := sha;
            Branch.isDefault := default_branch repoData =? CreateBranchInput.name input;
            Branch.protected := false |})
    (fun e => mapError e "createBranch").

Definition getBranch (repo : Repository.t) (name : string) : Effect Call Branch.t :=
  tryPromise
    (both <- awaitAll
               (repos_getBranch (Repository.owner repo) (Repository.repo repo) name)
               (repos_get (Repository.owner repo) (Repository.repo repo)) ;;
     ret {| Branch.name := GitHub.name (fst both);
            Branch.sha := commit_sha (fst both);
            Branch.isDefault := default_branch (snd both) =? name;
            Branch.protected := protected (fst both) |})
    (fun e =>
       if hasStatus404 e then NotFoundError PROVIDER Resource.branch name
       else mapError e "getBranch").

Definition listBranches (repo : Repository.t) : Effect Call (list Branch.t) :=
  tryPromise
    (both <- awaitAll
               (repos_listBranches (Repository.owner repo) (Repository.repo repo) 100)
               (repos_get (Repository.owner repo) (Repository.repo repo)) ;;
     ret (map (fun b =>
                 {| Branch.name := GitHub.name b;
                    Branch.sha := commit_sha b;
                    Branch.isDefault := default_branch (snd both) =? GitHub.name b;
                    Branch.protected := protected b |})
              (fst both)))
    (fun e => mapError e "listBranches").

Definition createPullRequest (repo : Repository.t) (input : CreatePullRequestInput.t)
  : Effect Call PullRequest.t :=
  tryPromise
    (data <- await (pulls_create (Repository.owner repo) (Repository.repo repo)
                      (CreatePullRequestInput.title input)
                      (CreatePullRequestInput.description input)
                      (CreatePullRequestInput.sourceBranch input)
                      (CreatePullRequestInput.targetBranch input)
                      (CreatePullRequestInput.draft input ?? false)) ;;
     ret (toPullRequest data))
    (fun e => mapError e "createPullRequest").

Definition getPullRequest (repo : Repository.t) (number : Z) : Effect Call PullRequest.t :=
  tryPromise
    (data <- await (pulls_get (Repository.owner repo) (Repository.repo repo) number) ;;
     ret (toPullRequest data))
    (fun e =>
       if hasStatus404 e then NotFoundError PROVIDER Resource.pull_request (Js.String_ number)
       else mapError e "getPullRequest").

Definition listPullRequests (repo : Repository.t) (options : option ListPullRequestsOptions.t)
  : Effect Call (list PullRequest.t) :=
  tryPromise
    (let state :=
       match optionsState options with
       | Some filter_all => "all"
       | Some filter_closed => "closed"
       | _ => "open"
       end in
     data <- await (pulls_list (Repository.owner repo) (Repository.repo repo) state
                      (optionsLimit options ?? 30)) ;;
     ret (map toListedPullRequest data))
    (fun e => mapError e "listPullRequests").

End GitHub.

(* ------------------------------------------------------------------ *)
(** * providers/azure-devops.ts *)

Module Azure.

Definition PROVIDER : Provider := azure_devops.

(** The interfaces of azure-devops-node-api, every field optional. *)
Record GitRef : Type := {
  name : option string;
  objectId : option string;
  isLocked : option bool
}.

Record GitRefUpdate : Type := {
  update_name : string;
  oldObjectId : string;
  newObjectId : string
}.

Record GitRefUpdateResult : Type := {
  success : option bool;
  customMessage : option string
}.

Record TeamProjectReference : Type := { project_name : option string }.

Record GitRepository : Type := {
  repository_name : option string;
  project : option TeamProjectReference;
  defaultBranch : option string
}.

Record IdentityRef : Type := {
  displayName : option string;
  uniqueName : option string
}.

Record GitPullRequest : Type := {
  pullRequestId : option Z;
  title : option string;
  description : option string;
  status : option Z;
  sourceRefName : option string;
  targetRefName : option string;
  createdBy : option IdentityRef;
  isDraft : option bool;
  creationDate : option Js.Date;
  repository : option GitRepository
}.

(** The pull request that [createPullRequest] submits. *)
Record GitPullRequestToCreate : Type := {
  new_title : string;
  new_description : option string;
  new_sourceRefName : string;
  new_targetRefName : string;
  new_isDraft : bool
}.

Record GitPullRequestSearchCriteria : Type := {
  repositoryId : string;
  criteria_status : Z
}.

(** The push of [commitFile]: one ref update, one commit, one change. *)
Record GitPush : Type := {
  refUpdate_name : string;
  refUpdate_oldObjectId : string;
  comment : string;
  changeType : Z;
  item_path : string;
  newContent_content : string;
  newContent_contentType : Z
}.

Record GitCommitRef : Type := { commitId : option string }.

Record GitPushResult : Type := { commits : option (list GitCommitRef) }.

(** [connection.getGitApi()] and the methods of the Git API that the
    adapter calls. *)
Inductive Call : Type -> Type :=
| connection_getGitApi : Call unit
| gitApi_getRefs (repositoryId project filter : string) : Call (list GitRef)
| gitApi_updateRefs (refUpdates : list GitRefUpdate) (repositoryId project : string)
    : Call (list GitRefUpdateResult)
| gitApi_getRepository (repositoryId project : string) : Call GitRepository
| gitApi_createPush (push : GitPush) (repositoryId project : string) : Call GitPushResult
| gitApi_createPullRequest (pr : GitPullRequestToCreate) (repositoryId project : string)
    : Call GitPullRequest
| gitApi_getPullRequest (repositoryId : string) (pullRequestId : Z) (project : string)
    : Call (option GitPullRequest)
| gitApi_getPullRequests (repositoryId : string) (searchCriteria : GitPullRequestSearchCriteria)
    (project : string) (top : Z) : Call (list GitPullRequest).

Definition mapError (error : Thrown) (operation : string) : ForgeError :=
  let generic := GitForgeError PROVIDER operation (messageOrString error) error in
  match errorMessage error with
  | Some error_message =>
      let message := Js.toLowerCase error_message in
      if (Js.includes message "401" || Js.includes message "unauthorized")%bool then
        AuthenticationError PROVIDER error_message
      else if (Js.includes message "404" || Js.includes message "not found")%bool then
        NotFoundError PROVIDER Resource.repository "unknown"
      else if (Js.includes message "400" || Js.includes message "invalid")%bool then
        ValidationError PROVIDER error_message None
      else if (Js.includes message "429" || Js.includes message "rate limit")%bool then
        RateLimitError PROVIDER None
      else generic
  | None => generic
  end.

Definition mapPrState (status : option Z) : PullRequestState.t :=
  match status with
  | Some 1%Z => PullRequestState.open
  | Some 3%Z => PullRequestState.merged
  | _ => PullRequestState.closed
  end.

Definition extractBranchName (ref : option string) : string :=
  match ref with
  | Some r => if Js.truthy r then Js.replacePrefix "refs/heads/" r else "unknown"
  | None => "unknown"
  end.

(** [date ?? new Date()]: the clock is read only when [date] is absent. *)
Definition orNow (date : option Js.Date) : Async Call Js.Date :=
  match date with
  | Some d => ret d
  | None => now
  end.

Local Open Scope async_scope.

Definition mapPullRequest (pr : GitPullRequest) (baseUrl : string)
  : Async Call PullRequest.t :=
  let repoName := match repository pr with Some r => repository_name r | None => None end
                  ?? "unknown" in
  let project :=
    match repository pr with
    | Some r => match Azure.project r with Some p => project_name p | None => None end
    | None => None
    end ?? "unknown" in
  let prUrl := baseUrl ++ "/" ++ project ++ "/_git/" ++ repoName ++ "/pullrequest/"
               ++ Js.template (pullRequestId pr) in
  createdAt <- orNow (creationDate pr) ;;
  updatedAt <- orNow (creationDate pr) ;;
  ret {| PullRequest.id := pullRequestId pr ?? 0;
         PullRequest.number := pullRequestId pr ?? 0;
         PullRequest.title := title pr ?? "";
         PullRequest.description := description pr;
         PullRequest.state := mapPrState (status pr);
         PullRequest.sourceBranch := extractBranchName (sourceRefName pr);
         PullRequest.targetBranch := extractBranchName (targetRefName pr);
         PullRequest.author :=
           match createdBy pr with
           | Some who =>
               match displayName who with
               | Some n => n
               | None => uniqueName who ?? "unknown"
               end
           | None => "unknown"
           end;
         PullRequest.url := prUrl;
         PullRequest.draft := isDraft pr ?? false;
         PullRequest.createdAt := createdAt;
         PullRequest.updatedAt := updatedAt |}.

(** The error that [getProject] throws. *)
Definition projectRequired : ForgeError :=
  ValidationError PROVIDER
    "Azure DevOps requires a project name. Set repo.project to the Azure DevOps project name."
    (Some "project").

Definition getProject (repo : Repository.t) : Completion string :=
  match Repository.project repo with
  | Some p => if Js.truthy p then Returned p else Threw (Tagged projectRequired)
  | None => Threw (Tagged projectRequired)
  end.

(** [ref?.objectId] when it is truthy. *)
Definition truthyObjectId (ref : option GitRef) : option string :=
  match ref with
  | Some r =>
      match objectId r with
      | Some oid => if Js.truthy oid then Some oid else None
      | None => None
      end
  | None => None
  end.

Definition zeroObjectId : string := "0000000000000000000000000000000000000000".

Definition createBranch (repo : Repository.t) (input : CreateBranchInput.t)
  : Effect Call Branch.t :=
  tryPromise
    (project <- lift (getProject repo) ;;
     await connection_getGitApi ;;
     sha <- (if Js.testSha (CreateBranchInput.fromRef input) then
               ret (CreateBranchInput.fromRef input)
             else
               refs <- await (gitApi_getRefs (Repository.repo repo) project
                                ("heads/" ++ CreateBranchInput.fromRef input)) ;;
               match truthyObjectId (Js.first refs) with
               | None => throw (Tagged (NotFoundError PROVIDER Resource.branch
                                          (CreateBranchInput.fromRef input)))
               | Some oid => ret oid
               end) ;;
     let refUpdate :=
       {| update_name := "refs/heads/" ++ CreateBranchInput.name input;
          oldObjectId := zeroObjectId;
          newObjectId := sha |} in
     results <- await (gitApi_updateRefs [refUpdate] (Repository.repo repo) project) ;;
     let result := Js.first results in
     (if (match result with Some r => success r | None => None end) ?? false then
        ret tt
      else
        throw (Tagged (ValidationError PROVIDER
                 ("Failed to create branch: "
                  ++ (match result with Some r => customMessage r | None => None end
                      ?? "unknown error"))
                 None))) ;;
     repoInfo <- await (gitApi_getRepository (Repository.repo repo) project) ;;
     let defaultBranch := extractBranchName (Azure.defaultBranch repoInfo) in
     ret {| Branch.name := CreateBranchInput.name input;
            Branch.sha := sha;
            Branch.isDefault := defaultBranch =? CreateBranchInput.name input;
            Branch.protected := false |})
    (fun e =>
       match e with
       | Tagged (ValidationError _ _ _ as own) => own
       | Tagged (NotFoundError _ _ _ as own) => own
       | _ => mapError e "createBranch"
       end).

Definition getBranch (repo : Repository.t) (name : string) : Effect Call Branch.t :=
  tryPromise
    (project <- lift (getProject repo) ;;
     await connection_getGitApi ;;
     refs <- await (gitApi_getRefs (Repository.repo repo) project ("heads/" ++ name)) ;;
     match Js.first refs with
     | None => throw (Tagged (NotFoundError PROVIDER Resource.branch name))
     | Some ref =>
         repoInfo <- await (gitApi_getRepository (Repository.repo repo) project) ;;
         let defaultBranch := extractBranchName (Azure.defaultBranch repoInfo) in
         ret {| Branch.name := name;
                Branch.sha := objectId ref ?? "";
                Branch.isDefault := defaultBranch =? name;
                Branch.protected := isLocked ref ?? false |}
     end)
    (fun e =>
       match e with
       | Tagged (NotFoundError _ _ _ as own) => own
       | _ => mapError e "getBranch"
       end).

Definition listBranches (repo : Repository.t) : Effect Call (list Branch.t) :=
  tryPromise
    (project <- lift (getProject repo) ;;
     await connection_getGitApi ;;
     both <- awaitAll (gitApi_getRefs (Repository.repo repo) project "heads/")
                      (gitApi_getRepository (Repository.repo repo) project) ;;
     let defaultBranch := extractBranchName (Azure.defaultBranch (snd both)) in
     ret (map (fun ref =>
                 {| Branch.name := extractBranchName (Azure.name ref);
                    Branch.sha := objectId ref ?? "";
                    Branch.isDefault := extractBranchName (Azure.name ref) =? defaultBranch;
                    Branch.protected := isLocked ref ?? false |})
              (fst both)))
    (fun e => mapError e "listBranches").

Definition getLatestRef (repoName project branchName : string) : Effect Call string :=
  tryPromise
    (refs <- await (gitApi_getRefs repoName project ("heads/" ++ branchName)) ;;
     match truthyObjectId (Js.first refs) with
     | None => throw (Tagged (NotFoundError PROVIDER Resource.branch branchName))
     | Some oid => ret oid
     end)
    (fun e =>
       match e with
       | Tagged (NotFoundError _ _ _ as own) => own
       | _ => mapError e "commitFile"
       end).

Definition pushFile (input : CommitFileInput.t) (repoName project branchName : string)
  (oldObjectId : string) (changeType : Z) : Effect Call GitPushResult :=
  tryPromise
    (await (gitApi_createPush
              {| refUpdate_name := "refs/heads/" ++ branchName;
                 refUpdate_oldObjectId := oldObjectId;
                 comment := CommitFileInput.message input;
                 Azure.changeType := changeType;
                 item_path := "/" ++ CommitFileInput.path input;
                 newContent_content := CommitFileInput.content input;
                 newContent_contentType := 0 |}
              repoName project))
    (fun e => mapError e "commitFile").

Definition commitFile (repo : Repository.t) (input : CommitFileInput.t)
  : Effect Call CommitResult.t :=
  (project <- sync (getProject repo) ;;
   gitApi <- tryPromise (await connection_getGitApi) (fun e => mapError e "commitFile") ;;
   objectId <- getLatestRef (Repository.repo repo) project (CommitFileInput.branch input) ;;
   push <- catchAll
             (pushFile input (Repository.repo repo) project (CommitFileInput.branch input)
                objectId 1)
             (fun _ =>
                pushFile input (Repository.repo repo) project (CommitFileInput.branch input)
                  objectId 2) ;;
   succeed
     {| CommitResult.sha :=
          match commits push with
          | Some (c :: _) => commitId c
          | _ => None
          end ?? "";
        CommitResult.message := CommitFileInput.message input |})%effect.

(** The pull-request operations read [config.orgUrl] of the provider
    they belong to; it is their first argument here. *)
Definition createPullRequest (orgUrl : string) (repo : Repository.t)
  (input : CreatePullRequestInput.t) : Effect Call PullRequest.t :=
  tryPromise
    (project <- lift (getProject repo) ;;
     await connection_getGitApi ;;
     pr <- await (gitApi_createPullRequest
                    {| new_title := CreatePullRequestInput.title input;
                       new_description := CreatePullRequestInput.description input;
                       new_sourceRefName :=
                         "refs/heads/" ++ CreatePullRequestInput.sourceBranch input;
                       new_targetRefName :=
                         "refs/heads/" ++ CreatePullRequestInput.targetBranch input;
                       new_isDraft := CreatePullRequestInput.draft input ?? false |}
                    (Repository.repo repo) project) ;;
     mapPullRequest pr orgUrl)
    (fun e => mapError e "createPullRequest").

Definition getPullRequest (orgUrl : string) (repo : Repository.t) (number : Z)
  : Effect Call PullRequest.t :=
  tryPromise
    (project <- lift (getProject repo) ;;
     await connection_getGitApi ;;
     found <- await (gitApi_getPullRequest (Repository.repo repo) number project) ;;
     match found with
     | None => throw (Tagged (NotFoundError PROVIDER Resource.pull_request (Js.String_ number)))
     | Some pr => mapPullRequest pr orgUrl
     end)
    (fun e =>
       match e with
       | Tagged (NotFoundError _ _ _ as own) => own
       | _ => mapError e "getPullRequest"
       end).

Definition isClosedStatus (pr : GitPullRequest) : bool :=
  match status pr with
  | Some n => ((n =? 2) || (n =? 3))%Z%bool
  | None => false
  end.

Definition listPullRequests (orgUrl : string) (repo : Repository.t)
  (options : option ListPullRequestsOptions.t) : Effect Call (list PullRequest.t) :=
  tryPromise
    (project <- lift (getProject repo) ;;
     await connection_getGitApi ;;
     let status :=
       match optionsState options with
       | Some filter_all => 4
       | Some filter_closed => 4
       | _ => 1
       end in
     let searchCriteria :=
       {| repositoryId := Repository.repo repo; criteria_status := status |} in
     fetched <- await (gitApi_getPullRequests (Repository.repo repo) searchCriteria project
                         (optionsLimit options ?? 30)) ;;
     let prs :=
       match optionsState options with
       | Some filter_closed => filter isClosedStatus fetched
       | _ => fetched
       end in
     mapAsync (fun pr => mapPullRequest pr orgUrl) prs)
    (fun e => mapError e "listPullRequests").

End Azure.

(* ------------------------------------------------------------------ *)
(** * config.ts *)

Module GitHubConfig.
Record t : Type := make { token : string; baseUrl : option string }.
End GitHubConfig.

Module GitLabConfig.
Record t : Type := make { token : string; baseUrl : option string }.
End GitLabConfig.

Module AzureDevOpsConfig.
Record t : Type := make { token : string; orgUrl : string }.
End AzureDevOpsConfig.

(** The union [ProviderConfig], discriminated by [type]. *)
Inductive ProviderConfig : Type :=
| github_config (config : GitHubConfig.t)
| gitlab_config (config : GitLabConfig.t)
| azure_devops_config (config : AzureDevOpsConfig.t).

(** [config.type]. *)
Definition configType (config : ProviderConfig) : Provider :=
  match config with
  | github_config _ => github
  | gitlab_config _ => gitlab
  | azure_devops_config _ => azure_devops
  end.

(* ------------------------------------------------------------------ *)
(** * GitForge.ts and the provider constructors *)

Module GitForge.

(** The service that every provider implements, over the requests [E]
    of its backend client: the six operations that [GitForgeService]
    declares, and [commitFile], which the objects of the GitLab and of
    the Azure DevOps provider carry besides. *)
Record Service (E : Type -> Type) : Type := {
  createBranch : Repository.t -> CreateBranchInput.t -> Effect E Branch.t;
  getBranch : Repository.t -> string -> Effect E Branch.t;
  listBranches : Repository.t -> Effect E (list Branch.t);
  createPullRequest : Repository.t -> CreatePullRequestInput.t -> Effect E PullRequest.t;
  getPullRequest : Repository.t -> Z -> Effect E PullRequest.t;
  listPullRequests :
    Repository.t -> option ListPullRequestsOptions.t -> Effect E (list PullRequest.t);
  commitFile : option (Repository.t -> CommitFileInput.t -> Effect E CommitResult.t)
}.

End GitForge.

(** The options each provider constructs its backend client with. The
    client itself is the [World]. *)
Record ClientOptions : Type := {
  client_token : string;
  client_url : string
}.

Definition octokitOptions (config : GitHubConfig.t) : ClientOptions :=
  {| client_token := GitHubConfig.token config;
     client_url := GitHubConfig.baseUrl config ?? "https://api.github.com" |}.

Definition gitlabOptions (config : GitLabConfig.t) : ClientOptions :=
  {| client_token := GitLabConfig.token config;
     client_url := GitLabConfig.baseUrl config ?? "https://gitlab.com" |}.

Definition connectionOptions (config : AzureDevOpsConfig.t) : ClientOptions :=
  {| client_token := AzureDevOpsConfig.token config;
     client_url := AzureDevOpsConfig.orgUrl config |}.

Definition createGitHubProvider (config : GitHubConfig.t) : GitForge.Service GitHub.Call :=
  {| GitForge.createBranch := GitHub.createBranch;
     GitForge.getBranch := GitHub.getBranch;
     GitForge.listBranches := GitHub.listBranches;
     GitForge.createPullRequest := GitHub.createPullRequest;
     GitForge.getPullRequest := GitHub.getPullRequest;
     GitForge.listPullRequests := GitHub.listPullRequests;
     GitForge.commitFile := None |}.

Definition createGitLabProvider (config : GitLabConfig.t) : GitForge.Service GitLab.Call :=
  {| GitForge.createBranch := GitLab.createBranch;
     GitForge.getBranch := GitLab.getBranch;
     GitForge.listBranches := GitLab.listBranches;
     GitForge.createPullRequest := GitLab.createPullRequest;
     GitForge.getPullRequest := GitLab.getPullRequest;
     GitForge.listPullRequests := GitLab.listPullRequests;
     GitForge.commitFile := Some GitLab.commitFile |}.

Definition createAzureDevOpsProvider (config : AzureDevOpsConfig.t)
  : GitForge.Service Azure.Call :=
  {| GitForge.createBranch := Azure.createBranch;
     GitForge.getBranch := Azure.getBranch;
     GitForge.listBranches := Azure.listBranches;
     GitForge.createPullRequest := Azure.createPullRequest (AzureDevOpsConfig.orgUrl config);
     GitForge.getPullRequest := Azure.getPullRequest (AzureDevOpsConfig.orgUrl config);
     GitForge.listPullRequests := Azure.listPullRequests (AzureDevOpsConfig.orgUrl config);
     GitForge.commitFile := Some Azure.commitFile |}.

(* ------------------------------------------------------------------ *)
(** * index.ts *)

(** The requests of the backend client that [createGitForge] picks. *)
Definition callsOf (config : ProviderConfig) : Type -> Type :=
  match config with
  | github_config _ => GitHub.Call
  | gitlab_config _ => GitLab.Call
  | azure_devops_config _ => Azure.Call
  end.

Definition createGitForge (config : ProviderConfig) : GitForge.Service (callsOf config) :=
  match config with
  | github_config c => createGitHubProvider c
  | gitlab_config c => createGitLabProvider c
  | azure_devops_config c => createAzureDevOpsProvider c
  end.

(* ------------------------------------------------------------------ *)
(** * Vocabulary of the statements *)

(** The characters that [/[0-9a-f]/i] accepts. *)
Definition hexDigits : list ascii := list_ascii_of_string "0123456789abcdefABCDEF".




(** The not-found rule of the classification table: status 404 where
    the backend client exposes a status (GitHub), a message containing
    ["404"] or ["not found"] where it does not (GitLab, Azure DevOps). *)
Definition notFoundClass (p : Provider) (t : Thrown) : bool :=
  match p with
  | github => GitHub.hasStatus404 t
  | gitlab | azure_devops =>
      match errorMessage t with
      | Some m =>
          (Js.includes (Js.toLowerCase m) "404"
           || Js.includes (Js.toLowerCase m) "not found")%bool
      | None => false
      end
  end.

(** [fails_with p op e]: some call of the operation named [op] of the
    adapter for [p] fails with [e], for some backend and some input. *)
Inductive fails_with : Provider -> string -> ForgeError -> Prop :=
| gitlab_createBranch_fails w repo input e tr :
    run (GitLab.createBranch repo input) w = (Failure e, tr) ->
    fails_with gitlab "createBranch" e
| gitlab_getBranch_fails w repo name e tr :
    run (GitLab.getBranch repo name) w = (Failure e, tr) ->
    fails_with gitlab "getBranch" e
| gitlab_listBranches_fails w repo e tr :
    run (GitLab.listBranches repo) w = (Failure e, tr) ->
    fails_with gitlab "listBranches" e
| gitlab_commitFile_fails w repo input e tr :
    run (GitLab.commitFile repo input) w = (Failure e, tr) ->
    fails_with gitlab "commitFile" e
| gitlab_createPullRequest_fails w repo input e tr :
    run (GitLab.createPullRequest repo input) w = (Failure e, tr) ->
    fails_with gitlab "createPullRequest" e
| gitlab_getPullRequest_fails w repo number e tr :
    run (GitLab.getPullRequest repo number) w = (Failure e, tr) ->
    fails_with gitlab "getPullRequest" e
| gitlab_listPullRequests_fails w repo options e tr :
    run (GitLab.listPullRequests repo options) w = (Failure e, tr) ->
    fails_with gitlab "listPullRequests" e
| github_createBranch_fails w repo input e tr :
    run (GitHub.createBranch repo input) w = (Failure e, tr) ->
    fails_with github "createBranch" e
| github_getBranch_fails w repo name e tr :
    run (GitHub.getBranch repo name) w = (Failure e, tr) ->
    fails_with github "getBranch" e
| github_listBranches_fails w repo e tr :
    run (GitHub.listBranches repo) w = (Failure e, tr) ->
    fails_with github "listBranches" e
| github_createPullRequest_fails w repo input e tr :
    run (GitHub.createPullRequest repo input) w = (Failure e, tr) ->
    fails_with github "createPullRequest" e
| github_getPullRequest_fails w repo number e tr :
    run (GitHub.getPullRequest repo number) w = (Failure e, tr) ->
    fails_with github "getPullRequest" e
| github_listPullRequests_fails w repo options e tr :
    run (GitHub.listPullRequests repo options) w = (Failure e, tr) ->
    fails_with github "listPullRequests" e
| azure_createBranch_fails w repo input e tr :
    run (Azure.createBranch repo input) w = (Failure e, tr) ->
    fails_with azure_devops "createBranch" e
| azure_getBranch_fails w repo name e tr :
    run (Azure.getBranch repo name) w = (Failure e, tr) ->
    fails_with azure_devops "getBranch" e
| azure_listBranches_fails w repo e tr :
    run (Azure.listBranches repo) w = (Failure e, tr) ->
    fails_with azure_devops "listBranches" e
| azure_commitFile_fails w repo input e tr :
    run (Azure.commitFile repo input) w = (Failure e, tr) ->
    fails_with azure_devops "commitFile" e
| azure_createPullRequest_fails w orgUrl repo input e tr :
    run (Azure.createPullRequest orgUrl repo input) w = (Failure e, tr) ->
    fails_with azure_devops "createPullRequest" e
| azure_getPullRequest_fails w orgUrl repo number e tr :
    run (Azure.getPullRequest orgUrl repo number) w = (Failure e, tr) ->
    fails_with azure_devops "getPullRequest" e
| azure_listPullRequests_fails w orgUrl repo options e tr :
    run (Azure.listPullRequests orgUrl repo options) w = (Failure e, tr) ->
    fails_with azure_devops "listPullRequests" e.

(** [normalized orgUrl pr r]: [r] is what [mapPullRequest] makes of the
    native pull request [pr], at some reading of the clock. *)
Definition normalized (orgUrl : string) (pr : Azure.GitPullRequest) (r : PullRequest.t)
  : Prop :=
  exists w s s', Azure.mapPullRequest pr orgUrl w s = (Returned r, s').

(** The pull requests that an Azure DevOps operation can return. *)
Inductive azure_produces : World Azure.Call -> PullRequest.t -> Prop :=
| produced_by_create w orgUrl repo input r tr :
    run (Azure.createPullRequest orgUrl repo input) w = (Success r, tr) ->
    azure_produces w r
| produced_by_get w orgUrl repo number r tr :
    run (Azure.getPullRequest orgUrl repo number) w = (Success r, tr) ->
    azure_produces w r
| produced_by_list w orgUrl repo options rs r tr :
    run (Azure.listPullRequests orgUrl repo options) w = (Success rs, tr) ->
    In r rs ->
    azure_produces w r.

(** Every pull request that the backend answers with carries its
    [creationDate]. *)
Definition always_dated (w : World Azure.Call) : Prop :=
  (forall history pr repositoryId project answer,
     respond w history (Azure.gitApi_createPullRequest pr repositoryId project)
     = Resolved answer ->
     Azure.creationDate answer <> None) /\
  (forall history repositoryId number project answer,
     respond w history (Azure.gitApi_getPullRequest repositoryId number project)
     = Resolved (Some answer) ->
     Azure.creationDate answer <> None) /\
  (forall history repositoryId criteria project top answer,
     respond w history (Azure.gitApi_getPullRequests repositoryId criteria project top)
     = Resolved answer ->
     Forall (fun pr => Azure.creationDate pr <> None) answer).

(** [stamped w pr r]: both timestamps of [r] are the [creationDate] of
    the native pull request [pr] when it has one; when it has none,
    they are two successive readings of the clock of [w], [createdAt]
    first. *)
Definition stamped (w : World Azure.Call) (pr : Azure.GitPullRequest) (r : PullRequest.t)
  : Prop :=
  match Azure.creationDate pr with
  | Some d => PullRequest.createdAt r = d /\ PullRequest.updatedAt r = d
  | None =>
      exists k,
        PullRequest.createdAt r = Js.DateNow (clock w k) /\
        PullRequest.updatedAt r = Js.DateNow (clock w (S k))
  end.

(** The native pull requests that the backend of [w] answers with. *)
Inductive azure_delivers (w : World Azure.Call) : Azure.GitPullRequest -> Prop :=
| delivered_to_create history new repositoryId project pr :
    respond w history (Azure.gitApi_createPullRequest new repositoryId project)
    = Resolved pr ->
    azure_delivers w pr
| delivered_to_get history repositoryId number project pr :
    respond w history (Azure.gitApi_getPullRequest repositoryId number project)
    = Resolved (Some pr) ->
    azure_delivers w pr
| delivered_to_list history repositoryId criteria project top prs pr :
    respond w history (Azure.gitApi_getPullRequests repositoryId criteria project top)
    = Resolved prs ->
    In pr prs ->
    azure_delivers w pr.

(** The [mapError] of the adapter for [p]. *)
Definition mapErrorOf (p : Provider) : Thrown -> string -> ForgeError :=
  match p with
  | github => GitHub.mapError
  | gitlab => GitLab.mapError
  | azure_devops => Azure.mapError
  end.

(** The substring tests of the [mapError] of GitLab and Azure DevOps, on
    the lower-cased message. *)
Definition mentions (m : string) (code phrase : string) : bool :=
  (Js.includes (Js.toLowerCase m) code || Js.includes (Js.toLowerCase m) phrase)%bool.

(* ------------------------------------------------------------------ *)
(** * Calls through the service *)

(** A call of one of the six operations that [GitForgeService] declares. *)
Inductive Invocation : Type :=
| CreateBranch (repo : Repository.t) (input : CreateBranchInput.t)
| GetBranch (repo : Repository.t) (name : string)
| ListBranches (repo : Repository.t)
| CreatePullRequest (repo : Repository.t) (input : CreatePullRequestInput.t)
| GetPullRequest (repo : Repository.t) (number : Z)
| ListPullRequests (repo : Repository.t) (options : option ListPullRequestsOptions.t).

Inductive Reply : Type :=
| ABranch (b : Branch.t)
| SomeBranches (bs : list Branch.t)
| APullRequest (pr : PullRequest.t)
| SomePullRequests (prs : list PullRequest.t).

Definition operationName (call : Invocation) : string :=
  match call with
  | CreateBranch _ _ => "createBranch"
  | GetBranch _ _ => "getBranch"
  | ListBranches _ => "listBranches"
  | CreatePullRequest _ _ => "createPullRequest"
  | GetPullRequest _ _ => "getPullRequest"
  | ListPullRequests _ _ => "listPullRequests"
  end.

Definition repositoryOf (call : Invocation) : Repository.t :=
  match call with
  | CreateBranch repo _ | GetBranch repo _ | ListBranches repo
  | CreatePullRequest repo _ | GetPullRequest repo _ | ListPullRequests repo _ => repo
  end.

(** The same call on the same repository, with another [project]. *)
Definition withProject (project : option string) (call : Invocation) : Invocation :=
  let move repo :=
    Repository.make (Repository.provider repo) (Repository.owner repo)
      (Repository.repo repo) project in
  match call with
  | CreateBranch repo input => CreateBranch (move repo) input
  | GetBranch repo name => GetBranch (move repo) name
  | ListBranches repo => ListBranches (move repo)
  | CreatePullRequest repo input => CreatePullRequest (move repo) input
  | GetPullRequest repo number => GetPullRequest (move repo) number
  | ListPullRequests repo options => ListPullRequests (move repo) options
  end.

Definition replyWith {E A} (wrap : A -> Reply) (m : Effect E A) : Effect E Reply :=
  fun w s =>
    match m w s with
    | (Success a, s') => (Success (wrap a), s')
    | (Failure e, s') => (Failure e, s')
    | (Die t, s') => (Die t, s')
    end.

(** The call made on a service. *)
Definition invoke {E} (forge : GitForge.Service E) (call : Invocation) : Effect E Reply :=
  match call with
  | CreateBranch repo input => replyWith ABranch (GitForge.createBranch forge repo input)
  | GetBranch repo name => replyWith ABranch (GitForge.getBranch forge repo name)
  | ListBranches repo => replyWith SomeBranches (GitForge.listBranches forge repo)
  | CreatePullRequest repo input =>
      replyWith APullRequest (GitForge.createPullRequest forge repo input)
  | GetPullRequest repo number =>
      replyWith APullRequest (GitForge.getPullRequest forge repo number)
  | ListPullRequests repo options =>
      replyWith SomePullRequests (GitForge.listPullRequests forge repo options)
  end.

(** The [provider] field of an error. *)
Definition errorProvider (e : ForgeError) : Provider :=
  match e with
  | GitForgeError p _ _ _ | AuthenticationError p _ | NotFoundError p _ _
  | RateLimitError p _ | ValidationError p _ _ => p
  end.

(** The backend client rejects with errors of its own, never with one
    of the tagged errors of [errors.ts]. *)
Definition rejects_natively {E} (w : World E) : Prop :=
  forall history T (c : E T) e, respond w history c <> Rejected (Tagged e).

(** [repo.project] is absent or empty. *)
Definition lacksProject (repo : Repository.t) : Prop :=
  Repository.project repo = None \/ Repository.project repo = Some "".

(** The options of [listPullRequests] with the defaults written out. *)
Definition withDefaults (options : option ListPullRequestsOptions.t)
  : option ListPullRequestsOptions.t :=
  Some (ListPullRequestsOptions.make
          (Some (optionsState options ?? filter_open))
          (Some (optionsLimit options ?? 30))).

(** The requests of [commitFile] on GitLab: the probe, the two ways of
    writing, and the read of the branch tip. *)
Definition gitlab_probe (repo : Repository.t) (input : CommitFileInput.t)
  : GitLab.Call unit :=
  GitLab.RepositoryFiles_show
    (GitLab.getProjectId (Repository.owner repo) (Repository.repo repo))
    (CommitFileInput.path input) (CommitFileInput.branch input).

Definition gitlab_edit (repo : Repository.t) (input : CommitFileInput.t)
  : GitLab.Call unit :=
  GitLab.RepositoryFiles_edit
    (GitLab.getProjectId (Repository.owner repo) (Repository.repo repo))
    (CommitFileInput.path input) (CommitFileInput.branch input)
    (CommitFileInput.content input) (CommitFileInput.message input).

Definition gitlab_create (repo : Repository.t) (input : CommitFileInput.t)
  : GitLab.Call unit :=
  GitLab.RepositoryFiles_create
    (GitLab.getProjectId (Repository.owner repo) (Repository.repo repo))
    (CommitFileInput.path input) (CommitFileInput.branch input)
    (CommitFileInput.content input) (CommitFileInput.message input).

Definition gitlab_tip (repo : Repository.t) (input : CommitFileInput.t)
  : GitLab.Call GitLab.BranchSchema :=
  GitLab.Branches_show
    (GitLab.getProjectId (Repository.owner repo) (Repository.repo repo))
    (CommitFileInput.branch input).

(** The requests of [commitFile] on Azure DevOps: the lookup of the
    branch tip, and the push of the file with a change type. *)
Definition azure_tip (repo : Repository.t) (project : string) (input : CommitFileInput.t)
  : Azure.Call (list Azure.GitRef) :=
  Azure.gitApi_getRefs (Repository.repo repo) project
    ("heads/" ++ CommitFileInput.branch input).

Definition azure_push (repo : Repository.t) (project : string) (input : CommitFileInput.t)
  (tip : string) (changeType : Z) : Azure.Call Azure.GitPushResult :=
  Azure.gitApi_createPush
    {| Azure.refUpdate_name := "refs/heads/" ++ CommitFileInput.branch input;
       Azure.refUpdate_oldObjectId := tip;
       Azure.comment := CommitFileInput.message input;
       Azure.changeType := changeType;
       Azure.item_path := "/" ++ CommitFileInput.path input;
       Azure.newContent_content := CommitFileInput.content input;
       Azure.newContent_contentType := 0 |}
    (Repository.repo repo) project.

(** The ref update of [createBranch] on Azure DevOps. *)
Definition azure_new_ref (repo : Repository.t) (project : string)
  (input : CreateBranchInput.t) (commit : string)
  : Azure.Call (list Azure.GitRefUpdateResult) :=
  Azure.gitApi_updateRefs
    [{| Azure.update_name := "refs/heads/" ++ CreateBranchInput.name input;
        Azure.oldObjectId := Azure.zeroObjectId;
        Azure.newObjectId := commit |}]
    (Repository.repo repo) project.

(** [results[0]?.success] is falsy. *)
Definition updateRefused (results : list Azure.GitRefUpdateResult) : Prop :=
  match Js.first results with
  | Some result => Azure.success result = None \/ Azure.success result = Some false
  | None => True
  end.

(** [results[0]?.customMessage ?? "unknown error"]. *)
Definition refusalMessage (results : list Azure.GitRefUpdateResult) : string :=
  match Js.first results with
  | Some result => Azure.customMessage result
  | None => None
  end ?? "unknown error".

(* ------------------------------------------------------------------ *)
(** * Fixtures: concrete backends and inputs *)

Module Fixture.

Definition shaA : string := "a1b2c3d4e5f60718293a4b5c6d7e8f9012345678".
Definition shaB : string := "0f1e2d3c4b5a69788796a5b4c3d2e1f001234567".

(** A backend that rejects every request with the same reason. *)
Definition rejecting (E : Type -> Type) (reason : Thrown) : World E :=
  {| respond := fun _ _ _ => Rejected reason;
     firstSettlesFirst := fun _ => true;
     clock := fun n => 1000 + Z.of_nat n |}.

Definition acme_widgets : Repository.t :=
  Repository.make gitlab "acme" "widgets" None.

Definition octo_repo : Repository.t :=
  Repository.make github "octokit" "octokit.js" None.

Definition azure_repo : Repository.t :=
  Repository.make azure_devops "myorg" "myrepo" (Some "MyProject").

Definition azure_repo_without_project : Repository.t :=
  Repository.make azure_devops "myorg" "myrepo" None.

Definition orgUrl : string := "https://dev.azure.com/myorg".

Definition new_feature : CreateBranchInput.t :=
  CreateBranchInput.make "feature-x" "main".

Definition new_feature_from_sha : CreateBranchInput.t :=
  CreateBranchInput.make "feature-x" shaB.

Definition shaB_upper : string := "0F1E2D3C4B5A69788796A5B4C3D2E1F001234567".

Definition new_feature_from_upper_sha : CreateBranchInput.t :=
  CreateBranchInput.make "feature-x" shaB_upper.

Definition draft_request : CreatePullRequestInput.t :=
  CreatePullRequestInput.make "Add feature" None "feature-x" "main" (Some true).

Definition closed_only : option ListPullRequestsOptions.t :=
  Some (ListPullRequestsOptions.make (Some filter_closed) None).

(** ** GitLab: project [acme/widgets] with branches [main] (default)
    and [feature-x]; a branch created from a commit identifier points
    to that commit, which the backend names in lower case; merge
    requests come back with the title they were given and without the
    [draft] and [work_in_progress] flags. *)

Definition gitlab_branch_at (n commit : string) : GitLab.BranchSchema :=
  {| GitLab.name := n; GitLab.commit_id := commit; GitLab.protected := (n =? "main") |}.

Definition gitlab_branch (n : string) : GitLab.BranchSchema := gitlab_branch_at n shaA.

Definition gitlab_mr (t : string) (d w : option bool) : GitLab.MergeRequestSchema :=
  {| GitLab.id := 9001; GitLab.iid := 7; GitLab.title := t;
     GitLab.description := None; GitLab.state := "opened";
     GitLab.source_branch := "feature-x"; GitLab.target_branch := "main";
     GitLab.author := Some {| GitLab.username := "dev" |};
     GitLab.web_url := "https://gitlab.com/acme/widgets/-/merge_requests/7";
     GitLab.draft := d; GitLab.work_in_progress := w;
     GitLab.created_at := "2024-01-01T00:00:00Z";
     GitLab.updated_at := "2024-01-02T00:00:00Z" |}.

Definition gitlab_respond (_ : Trace GitLab.Call) (T : Type) (c : GitLab.Call T)
  : Outcome T :=
  match c in GitLab.Call T return Outcome T with
  | GitLab.Branches_create _ n r =>
      Resolved (gitlab_branch_at n (if Js.testSha r then Js.toLowerCase r else shaA))
  | GitLab.Branches_show _ n => Resolved (gitlab_branch n)
  | GitLab.Branches_all _ _ => Resolved [gitlab_branch "main"; gitlab_branch "feature-x"]
  | GitLab.Projects_show _ => Resolved {| GitLab.default_branch := "main" |}
  | GitLab.RepositoryFiles_show _ _ _ => Rejected (JsError "401 Unauthorized" None None)
  | GitLab.RepositoryFiles_edit _ _ _ _ _ => Resolved tt
  | GitLab.RepositoryFiles_create _ _ _ _ _ => Resolved tt
  | GitLab.MergeRequests_create _ _ _ t _ => Resolved (gitlab_mr t None None)
  | GitLab.MergeRequests_show _ n =>
      if (n =? 8)%Z then Resolved (gitlab_mr "Fix typo" (Some false) (Some true))
      else Resolved (gitlab_mr "Draft: Add feature" None None)
  | GitLab.MergeRequests_all _ _ _ => Resolved [gitlab_mr "Draft: Add feature" None None]
  end.

Definition gitlab_world : World GitLab.Call :=
  {| respond := gitlab_respond;
     firstSettlesFirst := fun _ => true;
     clock := fun n => 1000 + Z.of_nat n |}.

(** ** GitHub *)

Definition github_branch (n : string) : GitHub.BranchSchema :=
  {| GitHub.name := n; GitHub.commit_sha := shaA; GitHub.protected := true |}.

Definition github_pull : GitHub.PullSchema :=
  {| GitHub.id := 5001; GitHub.number := 12; GitHub.title := "Add feature";
     GitHub.body := None; GitHub.state := "closed";
     GitHub.merged := Some true; GitHub.merged_at := Some "2024-01-03T00:00:00Z";
     GitHub.head_ref := "feature-x"; GitHub.base_ref := "main";
     GitHub.user := Some {| GitHub.login := "dev" |};
     GitHub.html_url := "https://github.com/octokit/octokit.js/pull/12";
     GitHub.draft := None;
     GitHub.created_at := "2024-01-01T00:00:00Z";
     GitHub.updated_at := "2024-01-02T00:00:00Z" |}.

Definition github_respond (_ : Trace GitHub.Call) (T : Type) (c : GitHub.Call T)
  : Outcome T :=
  match c in GitHub.Call T return Outcome T with
  | GitHub.git_getRef _ _ _ => Resolved {| GitHub.object_sha := shaA |}
  | GitHub.git_createRef _ _ _ _ => Resolved tt
  | GitHub.repos_get _ _ => Resolved {| GitHub.default_branch := "main" |}
  | GitHub.repos_getBranch _ _ n => Resolved (github_branch n)
  | GitHub.repos_listBranches _ _ _ => Resolved [github_branch "main"; github_branch "feature-x"]
  | GitHub.pulls_create _ _ _ _ _ _ _ => Resolved github_pull
  | GitHub.pulls_get _ _ _ => Resolved github_pull
  | GitHub.pulls_list _ _ _ _ => Resolved [github_pull]
  end.

Definition github_world : World GitHub.Call :=
  {| respond := github_respond;
     firstSettlesFirst := fun _ => true;
     clock := fun n => 1000 + Z.of_nat n |}.

(** ** Azure DevOps: branch [main] exists and [missing] does not; three
    pull requests, one of each native status, the third without a
    [creationDate]. *)

Definition azure_ref (n : string) : Azure.GitRef :=
  {| Azure.name := Some ("refs/heads/" ++ n);
     Azure.objectId := Some shaA;
     Azure.isLocked := Some true |}.

Definition azure_repository : Azure.GitRepository :=
  {| Azure.repository_name := Some "myrepo";
     Azure.project := Some {| Azure.project_name := Some "MyProject" |};
     Azure.defaultBranch := Some "refs/heads/main" |}.

Definition azure_pr (n st : Z) (created : option Js.Date) : Azure.GitPullRequest :=
  {| Azure.pullRequestId := Some n;
     Azure.title := Some "Add feature";
     Azure.description := None;
     Azure.status := Some st;
     Azure.sourceRefName := Some "refs/heads/feature-x";
     Azure.targetRefName := Some "refs/heads/main";
     Azure.createdBy := Some {| Azure.displayName := Some "Dev"; Azure.uniqueName := None |};
     Azure.isDraft := None;
     Azure.creationDate := created;
     Azure.repository := Some azure_repository |}.

Definition azure_pr1 : Azure.GitPullRequest := azure_pr 1 1 (Some (Js.DateValue 1700000000000)).
Definition azure_pr2 : Azure.GitPullRequest := azure_pr 2 2 (Some (Js.DateValue 1700000100000)).
Definition azure_pr3 : Azure.GitPullRequest := azure_pr 3 3 None.

Definition azure_pushed : Azure.GitPushResult :=
  {| Azure.commits := Some [{| Azure.commitId := Some shaB |}] |}.

Definition azure_respond (refs : string -> Outcome (list Azure.GitRef))
  (pushes : Z -> Outcome Azure.GitPushResult)
  (_ : Trace Azure.Call) (T : Type) (c : Azure.Call T) : Outcome T :=
  match c in Azure.Call T return Outcome T with
  | Azure.connection_getGitApi => Resolved tt
  | Azure.gitApi_getRefs _ _ f => refs f
  | Azure.gitApi_updateRefs _ _ _ =>
      Resolved [{| Azure.success := Some true; Azure.customMessage := None |}]
  | Azure.gitApi_getRepository _ _ => Resolved azure_repository
  | Azure.gitApi_createPush push _ _ => pushes (Azure.changeType push)
  | Azure.gitApi_createPullRequest _ _ _ => Resolved azure_pr1
  | Azure.gitApi_getPullRequest _ n _ =>
      Resolved (if (n =? 1)%Z then Some azure_pr1
                else if (n =? 2)%Z then Some azure_pr2
                else if (n =? 3)%Z then Some azure_pr3
                else None)
  | Azure.gitApi_getPullRequests _ _ _ _ => Resolved [azure_pr1; azure_pr2; azure_pr3]
  end.

Definition azure_refs (f : string) : list Azure.GitRef :=
  if f =? "heads/missing" then []
  else if f =? "heads/" then [azure_ref "main"; azure_ref "feature-x"]
  else [azure_ref (Js.replacePrefix "heads/" f)].

Definition azure_world : World Azure.Call :=
  {| respond := azure_respond (fun f => Resolved (azure_refs f))
                  (fun _ => Resolved azure_pushed);
     firstSettlesFirst := fun _ => true;
     clock := fun n => 1000 + Z.of_nat n |}.

(** The same backend with 101 branches. *)
Definition azure_world_101 : World Azure.Call :=
  {| respond := azure_respond (fun _ => Resolved (repeat (azure_ref "b") 101))
                  (fun _ => Resolved azure_pushed);
     firstSettlesFirst := fun _ => true;
     clock := fun n => 1000 + Z.of_nat n |}.

(** The same backend, rejecting every ref lookup. *)
Definition azure_world_refs_rejected (reason : Thrown) : World Azure.Call :=
  {| respond := azure_respond (fun _ => Rejected reason)
                  (fun _ => Resolved azure_pushed);
     firstSettlesFirst := fun _ => true;
     clock := fun n => 1000 + Z.of_nat n |}.

(** The same backend, where the committed file exists already: a push
    that adds it is rejected, a push that edits it is accepted. *)
Definition azure_world_existing_file : World Azure.Call :=
  {| respond := azure_respond (fun f => Resolved (azure_refs f))
                  (fun changeType =>
                     if (changeType =? 1)%Z
                     then Rejected (JsError "The path /README.md already exists" None None)
                     else Resolved azure_pushed);
     firstSettlesFirst := fun _ => true;
     clock := fun n => 1000 + Z.of_nat n |}.

Definition readme_commit : CommitFileInput.t :=
  CommitFileInput.make "README.md" "hello" "Update README" "main".

End Fixture.

Module Refusal.

(** An Azure DevOps backend that refuses every ref update with a
    message, as it does for a branch that exists already. *)
Definition respond_refusing (_ : Trace Azure.Call) (T : Type) (c : Azure.Call T)
  : Outcome T :=
  match c in Azure.Call T return Outcome T with
  | Azure.gitApi_updateRefs _ _ _ =>
      Resolved [{| Azure.success := Some false;
                   Azure.customMessage := Some "branch already exists" |}]
  | other => Fixture.azure_respond (fun f => Resolved (Fixture.azure_refs f))
               (fun _ => Resolved Fixture.azure_pushed) [] other
  end.

Definition world : World Azure.Call :=
  {| respond := respond_refusing;
     firstSettlesFirst := fun _ => true;
     clock := fun n => 1000 + Z.of_nat n |}.

End Refusal.

(* ------------------------------------------------------------------ *)
(** * Properties *)

(** ** The builtins *)

Lemma prefix_spec n s : String.prefix n s = true <-> exists rest, s = n ++ rest.
Proof.
  revert s. induction n as [| c n IH]; intro s.
  - destruct s; simpl; split; eauto.
  - destruct s as [| d s]; simpl.
    + split; [discriminate | intros [rest H]; discriminate].
    + destruct (ascii_dec c d) as [-> | N].
      * rewrite IH. split; intros [rest H]; exists rest; [now subst | now inversion H].
      * split; [discriminate | intros [rest H]; inversion H; congruence].
Qed.

(** [Js.includes s needle] holds exactly when [needle] occurs in [s]. *)
Lemma includes_spec s needle :
  Js.includes s needle = true <-> exists before after, s = before ++ needle ++ after.
Proof.
  induction s as [| c s IH].
  - change (Js.includes "" needle) with (String.prefix needle "" || false)%bool.
    rewrite orb_false_r, prefix_spec. split.
    + intros [rest H]. exists "", rest. exact H.
    + intros (before & after & H). destruct before; simpl in H.
      * now exists after.
      * discriminate.
  - change (Js.includes (String c s) needle)
      with (String.prefix needle (String c s) || Js.includes s needle)%bool.
    rewrite orb_true_iff, prefix_spec, IH. split.
    + intros [[rest H] | (before & after & H)].
      * exists "", rest. exact H.
      * exists (String c before), after. simpl. now rewrite H.
    + intros (before & after & H). destruct before as [| d before]; simpl in H.
      * left. now exists after.
      * right. inversion H. now exists before, after.
Qed.

Lemma toLowerCase_length s : String.length (Js.toLowerCase s) = String.length s.
Proof. induction s; simpl; congruence. Qed.

(** ** The runtime *)

Lemma tryPromise_failure E A (body : Async E A) (handler : Thrown -> ForgeError) w s e s' :
  tryPromise body handler w s = (Failure e, s') -> exists t, e = handler t.
Proof.
  unfold tryPromise. destruct (body w s) as [[a | t] s0]; intro H; inversion H.
  now exists t.
Qed.

Lemma tryPromise_no_defect E A (body : Async E A) (handler : Thrown -> ForgeError) w s t s' :
  tryPromise body handler w s <> (Die t, s').
Proof.
  unfold tryPromise. destruct (body w s) as [[a | t0] s0]; intro H; inversion H.
Qed.

Lemma run_failure E A (body : Async E A) (handler : Thrown -> ForgeError) w e tr :
  run (tryPromise body handler) w = (Failure e, tr) -> exists t, e = handler t.
Proof.
  unfold run. destruct (tryPromise body handler w initial) as [x s] eqn:R.
  intro H. inversion H. subst. eapply tryPromise_failure. exact R.
Qed.

Ltac run_op :=
  unfold run, tryPromise, tryCatch, bind, await, awaitAll, lift, ret, throw, issue,
    andThen, catchAll, sync, succeed, die, request in *;
  simpl in *.

(** ** Azure DevOps without a project (C1) *)

Section WithoutProject.

Variable w : World Azure.Call.
Variable repo : Repository.t.
Hypothesis absent : Repository.project repo = None.

Lemma getProject_absent : Azure.getProject repo = Threw (Tagged Azure.projectRequired).
Proof. unfold Azure.getProject. now rewrite absent. Qed.

Lemma azure_createBranch_without_project input :
  run (Azure.createBranch repo input) w = (Failure Azure.projectRequired, []).
Proof. unfold Azure.createBranch. run_op. now rewrite getProject_absent. Qed.

Lemma azure_listBranches_without_project :
  run (Azure.listBranches repo) w
  = (Failure (GitForgeError azure_devops "listBranches"
                (forgeMessage Azure.projectRequired) (Tagged Azure.projectRequired)),
     []).
Proof. unfold Azure.listBranches. run_op. now rewrite getProject_absent. Qed.

Lemma azure_commitFile_without_project input :
  run (Azure.commitFile repo input) w = (Die (Tagged Azure.projectRequired), []).
Proof. unfold Azure.commitFile. run_op. now rewrite getProject_absent. Qed.

(** C1, where the code departs from it. With [project] absent,
    [getBranch] issues no request, but it does not fail with the
    [ValidationError] whose field is ["project"]: its [catch] clause
    lets only a [NotFoundError] through, so the error thrown by
    [getProject] goes to [mapError], which finds none of its substrings
    in the message and wraps it in a [GitForgeError] for the operation
    ["getBranch"]. *)
Theorem C1_azure_getBranch_without_project name :
  run (Azure.getBranch repo name) w
  = (Failure (GitForgeError azure_devops "getBranch"
                (forgeMessage Azure.projectRequired) (Tagged Azure.projectRequired)),
     []).
Proof. unfold Azure.getBranch. run_op. now rewrite getProject_absent. Qed.

End WithoutProject.

Lemma C1_witness :
  run (Azure.getBranch Fixture.azure_repo_without_project "main") Fixture.azure_world
  = (Failure (GitForgeError azure_devops "getBranch"
                (forgeMessage Azure.projectRequired) (Tagged Azure.projectRequired)),
     []).
Proof.
  exact (C1_azure_getBranch_without_project Fixture.azure_world
           Fixture.azure_repo_without_project eq_refl "main").
Defined.

(** ** Not-found on [getBranch] and [getPullRequest] (C2) *)








Lemma azure_mapError_not_found t op p r i :
  Azure.mapError t op = NotFoundError p r i ->
  p = azure_devops /\ r = Resource.repository /\ i = "unknown".
Proof.
  unfold Azure.mapError.
  destruct (errorMessage t) as [m |]; try discriminate.
  repeat match goal with
         | |- context [if ?c then _ else _] => destruct c; try discriminate
         end.
  intro H; inversion H; auto.
Qed.







(** ** The classification of [mapError] (C3, C10) *)

Lemma github_mapError_authentication m status header op :
  status = 401%Z \/ status = 403%Z ->
  GitHub.mapError (JsError m (Some status) header) op = AuthenticationError github m.
Proof. intros [-> | ->]; reflexivity. Qed.

Lemma github_mapError_rate_limit m header op :
  exists retryAfter,
    GitHub.mapError (JsError m (Some 429%Z) header) op = RateLimitError github retryAfter.
Proof. simpl. eexists. reflexivity. Qed.

Lemma github_mapError_generic t op :
  (forall m status header,
     t = JsError m (Some status) header ->
     status <> 401 /\ status <> 403 /\ status <> 404 /\ status <> 422 /\ status <> 429)%Z ->
  GitHub.mapError t op = GitForgeError github op (messageOrString t) t.
Proof.
  intro H. destruct t as [m [status |] header | text | e]; try reflexivity.
  destruct (H m status header eq_refl) as (H1 & H2 & H3 & H4 & H5).
  unfold GitHub.mapError.
  apply Z.eqb_neq in H1, H2, H3, H4, H5. now rewrite H1, H2, H3, H4, H5.
Qed.

Lemma gitlab_mapError_authentication t m op :
  errorMessage t = Some m ->
  (Js.includes (Js.toLowerCase m) "401" || Js.includes (Js.toLowerCase m) "unauthorized")%bool
  = true ->
  GitLab.mapError t op = AuthenticationError gitlab m.
Proof. intros M H. unfold GitLab.mapError. now rewrite M, H. Qed.

Lemma azure_mapError_authentication t m op :
  errorMessage t = Some m ->
  (Js.includes (Js.toLowerCase m) "401" || Js.includes (Js.toLowerCase m) "unauthorized")%bool
  = true ->
  Azure.mapError t op = AuthenticationError azure_devops m.
Proof. intros M H. unfold Azure.mapError. now rewrite M, H. Qed.

Lemma github_mapError_not_found t op p r i :
  GitHub.mapError t op = NotFoundError p r i ->
  p = github /\ r = Resource.repository /\ i = "unknown".
Proof.
  unfold GitHub.mapError.
  destruct t as [m [status |] header | text | e]; try discriminate.
  destruct ((status =? 401)%Z || (status =? 403)%Z)%bool; try discriminate.
  destruct (status =? 404)%Z; [intro H; inversion H; auto |].
  destruct (status =? 422)%Z; try discriminate.
  destruct (status =? 429)%Z; discriminate.
Qed.

Lemma gitlab_mapError_not_found t op p r i :
  GitLab.mapError t op = NotFoundError p r i ->
  p = gitlab /\ r = Resource.repository /\ i = "unknown".
Proof.
  unfold GitLab.mapError.
  destruct (errorMessage t) as [m |]; try discriminate.
  repeat match goal with
         | |- context [if ?c then _ else _] => destruct c; try discriminate
         end.
  intro H; inversion H; auto.
Qed.

(** C3, where the code departs from it. A 403-class failure maps to
    [AuthenticationError] on GitHub only. The [mapError] of the GitLab
    and Azure DevOps adapters looks for ["401"] and ["unauthorized"] and
    has no rule for ["403"]: the rejection ["403 Forbidden"] matches
    none of their rules and comes out as the [GitForgeError] of the
    operation, here for [listBranches] of either adapter. *)
Theorem C3_forbidden_is_not_authentication :
  (forall m header op,
     GitHub.mapError (JsError m (Some 403%Z) header) op = AuthenticationError github m) /\
  (forall op,
     GitLab.mapError (JsError "403 Forbidden" None None) op
     = GitForgeError gitlab op "403 Forbidden" (JsError "403 Forbidden" None None)) /\
  (forall op,
     Azure.mapError (JsError "403 Forbidden" None None) op
     = GitForgeError azure_devops op "403 Forbidden" (JsError "403 Forbidden" None None)) /\
  fst (run (GitLab.listBranches Fixture.acme_widgets)
         (Fixture.rejecting GitLab.Call (JsError "403 Forbidden" None None)))
  = Failure (GitForgeError gitlab "listBranches" "403 Forbidden"
               (JsError "403 Forbidden" None None)) /\
  fst (run (Azure.listBranches Fixture.azure_repo)
         (Fixture.azure_world_refs_rejected (JsError "403 Forbidden" None None)))
  = Failure (GitForgeError azure_devops "listBranches" "403 Forbidden"
               (JsError "403 Forbidden" None None)).
Proof. repeat split. Qed.

(** ** Where a specific not-found tag comes from (C10) *)

Lemma github_mapError_not_found_iff t op :
  GitHub.mapError t op = NotFoundError github Resource.repository "unknown"
  <-> GitHub.hasStatus404 t = true.
Proof.
  unfold GitHub.mapError, GitHub.hasStatus404.
  destruct t as [m [status |] header | text | e];
    try (split; discriminate).
  destruct (Z.eqb_spec status 404) as [-> | N].
  - simpl. tauto.
  - destruct ((status =? 401)%Z || (status =? 403)%Z)%bool; [split; discriminate |].
    destruct (status =? 422)%Z; [split; discriminate |].
    destruct (status =? 429)%Z; split; discriminate.
Qed.

Lemma gitlab_mapError_not_found_iff t op :
  GitLab.mapError t op = NotFoundError gitlab Resource.repository "unknown"
  <-> (notFoundClass gitlab t = true /\
       forall m, errorMessage t = Some m ->
         (Js.includes (Js.toLowerCase m) "401"
          || Js.includes (Js.toLowerCase m) "unauthorized")%bool = false).
Proof.
  unfold GitLab.mapError, notFoundClass.
  destruct (errorMessage t) as [m |].
  - destruct (Js.includes (Js.toLowerCase m) "401"
              || Js.includes (Js.toLowerCase m) "unauthorized")%bool eqn:A.
    + split; [discriminate | intros [_ H]; specialize (H m eq_refl); congruence].
    + destruct (Js.includes (Js.toLowerCase m) "404"
                || Js.includes (Js.toLowerCase m) "not found")%bool eqn:N.
      * split; [intros _; split; [reflexivity | intros m' E; inversion E; subst; exact A] | reflexivity].
      * split; [| intros [H _]; discriminate].
        repeat match goal with
               | |- context [if ?c then _ else _] => destruct c; try discriminate
               end.
  - split; [discriminate | intros [H _]; discriminate].
Qed.

Lemma azure_mapError_not_found_iff t op :
  Azure.mapError t op = NotFoundError azure_devops Resource.repository "unknown"
  <-> (notFoundClass azure_devops t = true /\
       forall m, errorMessage t = Some m ->
         (Js.includes (Js.toLowerCase m) "401"
          || Js.includes (Js.toLowerCase m) "unauthorized")%bool = false).
Proof.
  unfold Azure.mapError, notFoundClass.
  destruct (errorMessage t) as [m |].
  - destruct (Js.includes (Js.toLowerCase m) "401"
              || Js.includes (Js.toLowerCase m) "unauthorized")%bool eqn:A.
    + split; [discriminate | intros [_ H]; specialize (H m eq_refl); congruence].
    + destruct (Js.includes (Js.toLowerCase m) "404"
                || Js.includes (Js.toLowerCase m) "not found")%bool eqn:N.
      * split; [intros _; split; [reflexivity | intros m' E; inversion E; subst; exact A] | reflexivity].
      * split; [| intros [H _]; discriminate].
        repeat match goal with
               | |- context [if ?c then _ else _] => destruct c; try discriminate
               end.
  - split; [discriminate | intros [H _]; discriminate].
Qed.

(** Every failure of an operation whose [catch] clause is [mapError]
    alone is a result of [mapError]. *)
Ltac from_mapError H shape :=
  apply run_failure in H; destruct H as [t H]; subst;
  match goal with
  | E : _ = NotFoundError _ _ _ |- _ => apply shape in E; tauto
  end.

Lemma specific_not_found_origin p op e p' r i :
  fails_with p op e ->
  e = NotFoundError p' r i ->
  r <> Resource.repository ->
  op = "getBranch" \/ op = "getPullRequest" \/
  (p = azure_devops /\ (op = "createBranch" \/ op = "commitFile")).
Proof.
  intros F E N. destruct F as
    [ w repo input e tr H | w repo name e tr H | w repo e tr H | w repo input e tr H
    | w repo input e tr H | w repo number e tr H | w repo options e tr H
    | w repo input e tr H | w repo name e tr H | w repo e tr H
    | w repo input e tr H | w repo number e tr H | w repo options e tr H
    | w repo input e tr H | w repo name e tr H | w repo e tr H | w repo input e tr H
    | w orgUrl repo input e tr H | w orgUrl repo number e tr H | w orgUrl repo options e tr H ];
    auto.
  all: try (exfalso; from_mapError H gitlab_mapError_not_found).
  all: try (exfalso; from_mapError H github_mapError_not_found).
  all: try (exfalso; from_mapError H azure_mapError_not_found).
Qed.

(** C10, as the code has it. Whenever [mapError] of any adapter
    classifies a failure as not-found (status 404 on GitHub; on GitLab
    and Azure DevOps a message with ["404"] or ["not found"] and without
    ["401"] and ["unauthorized"]), the [NotFoundError] is tagged
    ["repository"] with identifier ["unknown"], whatever the operation.
    A more specific tag comes only from inline checks: those of
    [getBranch] and [getPullRequest] and, on Azure DevOps, those of
    [createBranch] and [commitFile]. *)
Theorem C10_generic_not_found :
  (forall t op p r i,
     GitHub.mapError t op = NotFoundError p r i ->
     p = github /\ r = Resource.repository /\ i = "unknown") /\
  (forall t op p r i,
     GitLab.mapError t op = NotFoundError p r i ->
     p = gitlab /\ r = Resource.repository /\ i = "unknown") /\
  (forall t op p r i,
     Azure.mapError t op = NotFoundError p r i ->
     p = azure_devops /\ r = Resource.repository /\ i = "unknown") /\
  (forall t op,
     GitHub.mapError t op = NotFoundError github Resource.repository "unknown"
     <-> notFoundClass github t = true) /\
  (forall t op,
     GitLab.mapError t op = NotFoundError gitlab Resource.repository "unknown"
     <-> (notFoundClass gitlab t = true /\
          forall m, errorMessage t = Some m ->
            (Js.includes (Js.toLowerCase m) "401"
             || Js.includes (Js.toLowerCase m) "unauthorized")%bool = false)) /\
  (forall t op,
     Azure.mapError t op = NotFoundError azure_devops Resource.repository "unknown"
     <-> (notFoundClass azure_devops t = true /\
          forall m, errorMessage t = Some m ->
            (Js.includes (Js.toLowerCase m) "401"
             || Js.includes (Js.toLowerCase m) "unauthorized")%bool = false)) /\
  (forall p op e p' r i,
     fails_with p op e ->
     e = NotFoundError p' r i ->
     r <> Resource.repository ->
     op = "getBranch" \/ op = "getPullRequest" \/
     (p = azure_devops /\ (op = "createBranch" \/ op = "commitFile"))).
Proof.
  split; [exact github_mapError_not_found |].
  split; [exact gitlab_mapError_not_found |].
  split; [exact azure_mapError_not_found |].
  split; [exact github_mapError_not_found_iff |].
  split; [exact gitlab_mapError_not_found_iff |].
  split; [exact azure_mapError_not_found_iff |].
  exact specific_not_found_origin.
Qed.

Lemma C10_witness :
  (github = github /\ Resource.repository = Resource.repository /\ "unknown" = "unknown") /\
  ("createBranch" = "getBranch" \/ "createBranch" = "getPullRequest" \/
   (azure_devops = azure_devops /\
    ("createBranch" = "createBranch" \/ "createBranch" = "commitFile"))).
Proof.
  split.
  - exact (proj1 C10_generic_not_found
             (JsError "Not Found" (Some 404%Z) None) "listBranches"
             github Resource.repository "unknown" eq_refl).
  - refine (proj2 (proj2 (proj2 (proj2 (proj2 (proj2 C10_generic_not_found)))))
              azure_devops "createBranch"
              (NotFoundError azure_devops Resource.branch "missing")
              azure_devops Resource.branch "missing" _ eq_refl _).
    + exact (azure_createBranch_fails Fixture.azure_world Fixture.azure_repo
               (CreateBranchInput.make "x" "missing") eq_refl).
    + discriminate.
Defined.

(** C10 does not hold as stated. The inline checks of [getBranch] and
    [getPullRequest] are not the only source of a specific tag: on Azure
    DevOps [createBranch] from a ref that does not resolve fails with a
    [NotFoundError] tagged ["branch"] and carrying [fromRef]. *)
Lemma C10_counterexample :
  fst (run (Azure.createBranch Fixture.azure_repo (CreateBranchInput.make "x" "missing"))
         Fixture.azure_world)
  = Failure (NotFoundError azure_devops Resource.branch "missing").
Proof. reflexivity. Qed.

(** ** Drafts on GitLab (C4) *)

Lemma nullish_draft_true (d wip : option bool) :
  d ?? wip ?? false = true <-> d = Some true \/ (d = None /\ wip = Some true).
Proof.
  destruct d as [[|] |], wip as [[|] |]; simpl; split;
    try tauto; try discriminate;
    intros [H | [H1 H2]]; discriminate.
Qed.

Lemma gitlab_createPullRequest_request w repo input :
  snd (run (GitLab.createPullRequest repo input) w)
  = [request (GitLab.MergeRequests_create
                (GitLab.getProjectId (Repository.owner repo) (Repository.repo repo))
                (CreatePullRequestInput.sourceBranch input)
                (CreatePullRequestInput.targetBranch input)
                (if CreatePullRequestInput.draft input ?? false
                 then "Draft: " ++ CreatePullRequestInput.title input
                 else CreatePullRequestInput.title input)
                (CreatePullRequestInput.description input))].
Proof.
  unfold GitLab.createPullRequest. run_op.
  now destruct (respond w [] _).
Qed.

Lemma gitlab_createPullRequest_result w repo input mr :
  respond w []
    (GitLab.MergeRequests_create
       (GitLab.getProjectId (Repository.owner repo) (Repository.repo repo))
       (CreatePullRequestInput.sourceBranch input)
       (CreatePullRequestInput.targetBranch input)
       (if CreatePullRequestInput.draft input ?? false
        then "Draft: " ++ CreatePullRequestInput.title input
        else CreatePullRequestInput.title input)
       (CreatePullRequestInput.description input)) = Resolved mr ->
  fst (run (GitLab.createPullRequest repo input) w) = Success (GitLab.toPullRequest mr).
Proof.
  intro H. unfold GitLab.createPullRequest. run_op. now rewrite H.
Qed.

Lemma gitlab_getPullRequest_result w repo number mr :
  respond w []
    (GitLab.MergeRequests_show
       (GitLab.getProjectId (Repository.owner repo) (Repository.repo repo)) number)
  = Resolved mr ->
  fst (run (GitLab.getPullRequest repo number) w) = Success (GitLab.toPullRequest mr).
Proof.
  intro H. unfold GitLab.getPullRequest. run_op. now rewrite H.
Qed.

Lemma gitlab_listPullRequests_result w repo options state mrs :
  respond w []
    (GitLab.MergeRequests_all
       (GitLab.getProjectId (Repository.owner repo) (Repository.repo repo))
       state (optionsLimit options ?? 30)) = Resolved mrs ->
  state = match optionsState options with
          | Some filter_all => None
          | Some filter_closed => Some "closed"
          | _ => Some "opened"
          end ->
  fst (run (GitLab.listPullRequests repo options) w)
  = Success (map GitLab.toPullRequest mrs).
Proof.
  intros H ->. unfold GitLab.listPullRequests. run_op. now rewrite H.
Qed.

(** C4, as the code has it. On GitLab, [createPullRequest] with [draft:
    true] asks the backend for a merge request titled ["Draft: "]
    followed by the given title, and with the given title otherwise.
    Each of [createPullRequest], [getPullRequest] and [listPullRequests]
    returns exactly when the backend answers its request, for every
    input, and the [draft] field of every pull request returned is the
    native [draft] flag when the response carries one, otherwise the
    native [work_in_progress] flag when the response carries one,
    otherwise [false]; the returned title is the native title, and it
    plays no part in [draft]. *)
Theorem C4_gitlab_draft :
  (forall w repo input,
     CreatePullRequestInput.draft input = Some true ->
     snd (run (GitLab.createPullRequest repo input) w)
     = [request (GitLab.MergeRequests_create
                   (GitLab.getProjectId (Repository.owner repo) (Repository.repo repo))
                   (CreatePullRequestInput.sourceBranch input)
                   (CreatePullRequestInput.targetBranch input)
                   ("Draft: " ++ CreatePullRequestInput.title input)
                   (CreatePullRequestInput.description input))]) /\
  (forall w repo input,
     CreatePullRequestInput.draft input <> Some true ->
     snd (run (GitLab.createPullRequest repo input) w)
     = [request (GitLab.MergeRequests_create
                   (GitLab.getProjectId (Repository.owner repo) (Repository.repo repo))
                   (CreatePullRequestInput.sourceBranch input)
                   (CreatePullRequestInput.targetBranch input)
                   (CreatePullRequestInput.title input)
                   (CreatePullRequestInput.description input))]) /\
  (forall w repo input,
     match
       respond w []
         (GitLab.MergeRequests_create
            (GitLab.getProjectId (Repository.owner repo) (Repository.repo repo))
            (CreatePullRequestInput.sourceBranch input)
            (CreatePullRequestInput.targetBranch input)
            (if CreatePullRequestInput.draft input ?? false
             then "Draft: " ++ CreatePullRequestInput.title input
             else CreatePullRequestInput.title input)
            (CreatePullRequestInput.description input))
     with
     | Resolved mr =>
         exists pr,
           fst (run (GitLab.createPullRequest repo input) w) = Success pr /\
           PullRequest.title pr = GitLab.title mr /\
           PullRequest.draft pr = GitLab.draft mr ?? GitLab.work_in_progress mr ?? false
     | Rejected t =>
         fst (run (GitLab.createPullRequest repo input) w)
         = Failure (GitLab.mapError t "createPullRequest")
     end) /\
  (forall w repo number,
     match
       respond w []
         (GitLab.MergeRequests_show
            (GitLab.getProjectId (Repository.owner repo) (Repository.repo repo)) number)
     with
     | Resolved mr =>
         exists pr,
           fst (run (GitLab.getPullRequest repo number) w) = Success pr /\
           PullRequest.title pr = GitLab.title mr /\
           PullRequest.draft pr = GitLab.draft mr ?? GitLab.work_in_progress mr ?? false
     | Rejected t =>
         exists e, fst (run (GitLab.getPullRequest repo number) w) = Failure e
     end) /\
  (forall w repo options,
     match
       respond w []
         (GitLab.MergeRequests_all
            (GitLab.getProjectId (Repository.owner repo) (Repository.repo repo))
            match optionsState options with
            | Some filter_all => None
            | Some filter_closed => Some "closed"
            | _ => Some "opened"
            end
            (optionsLimit options ?? 30))
     with
     | Resolved mrs =>
         exists prs,
           fst (run (GitLab.listPullRequests repo options) w) = Success prs /\
           map PullRequest.title prs = map GitLab.title mrs /\
           map PullRequest.draft prs
           = map (fun mr => GitLab.draft mr ?? GitLab.work_in_progress mr ?? false) mrs
     | Rejected t =>
         fst (run (GitLab.listPullRequests repo options) w)
         = Failure (GitLab.mapError t "listPullRequests")
     end) /\
  (forall mr,
     PullRequest.draft (GitLab.toPullRequest mr) = true
     <-> GitLab.draft mr = Some true
         \/ (GitLab.draft mr = None /\ GitLab.work_in_progress mr = Some true)).
Proof.
  split; [| split; [| split; [| split; [| split]]]].
  - intros w repo input D.
    rewrite gitlab_createPullRequest_request. now rewrite D.
  - intros w repo input D.
    rewrite gitlab_createPullRequest_request.
    destruct (CreatePullRequestInput.draft input) as [[|] |]; try reflexivity.
    now contradiction D.
  - intros w repo input.
    destruct (respond w [] _) as [mr | t] eqn:H.
    + exists (GitLab.toPullRequest mr). split; [| split]; try reflexivity.
      now apply gitlab_createPullRequest_result.
    + unfold GitLab.createPullRequest. run_op. now rewrite H.
  - intros w repo number.
    destruct (respond w [] _) as [mr | t] eqn:H.
    + exists (GitLab.toPullRequest mr). split; [| split]; try reflexivity.
      now apply gitlab_getPullRequest_result.
    + unfold GitLab.getPullRequest. run_op. rewrite H. simpl. eexists. reflexivity.
  - intros w repo options.
    destruct (respond w [] _) as [mrs | t] eqn:H.
    + exists (map GitLab.toPullRequest mrs). split; [| split].
      * eapply gitlab_listPullRequests_result; [exact H | reflexivity].
      * now rewrite map_map.
      * now rewrite map_map.
    + unfold GitLab.listPullRequests. run_op. now rewrite H.
  - intro mr. apply nullish_draft_true.
Qed.

Lemma C4_witness :
  snd (run (GitLab.createPullRequest Fixture.acme_widgets Fixture.draft_request)
         Fixture.gitlab_world)
  = [request (GitLab.MergeRequests_create "acme/widgets" "feature-x" "main"
                "Draft: Add feature" None)]
  /\
  exists pr,
    fst (run (GitLab.createPullRequest Fixture.acme_widgets
                (CreatePullRequestInput.make "Add feature" None "feature-x" "main" None))
           Fixture.gitlab_world)
    = Success pr /\
    PullRequest.title pr = "Add feature" /\
    PullRequest.draft pr = false.
Proof.
  split.
  - exact (proj1 C4_gitlab_draft Fixture.gitlab_world Fixture.acme_widgets
             Fixture.draft_request eq_refl).
  - exact (proj1 (proj2 (proj2 C4_gitlab_draft)) Fixture.gitlab_world Fixture.acme_widgets
             (CreatePullRequestInput.make "Add feature" None "feature-x" "main" None)).
Defined.

(** C4 does not hold as stated. A merge request read back with the title
    ["Draft: Add feature"] and neither native flag is reported with
    [draft = false]; so is one whose [work_in_progress] flag is set
    while its [draft] flag is [false]; and so is the result of
    [createPullRequest] with [draft: true] when the backend echoes the
    prefixed title without the flags. *)
Lemma C4_counterexample :
  (exists pr,
     fst (run (GitLab.getPullRequest Fixture.acme_widgets 7) Fixture.gitlab_world)
     = Success pr /\
     String.prefix "Draft: " (PullRequest.title pr) = true /\
     PullRequest.draft pr = false) /\
  (exists pr,
     respond Fixture.gitlab_world [] (GitLab.MergeRequests_show "acme/widgets" 8)
     = Resolved (Fixture.gitlab_mr "Fix typo" (Some false) (Some true)) /\
     fst (run (GitLab.getPullRequest Fixture.acme_widgets 8) Fixture.gitlab_world)
     = Success pr /\
     PullRequest.draft pr = false) /\
  (exists pr,
     fst (run (GitLab.createPullRequest Fixture.acme_widgets Fixture.draft_request)
            Fixture.gitlab_world)
     = Success pr /\
     String.prefix "Draft: " (PullRequest.title pr) = true /\
     PullRequest.draft pr = false).
Proof.
  repeat split; eexists; repeat split.
Qed.

(** ** One page of branches (C5) *)

Lemma github_listBranches_trace w repo :
  snd (run (GitHub.listBranches repo) w)
  = [request (GitHub.repos_listBranches (Repository.owner repo) (Repository.repo repo) 100);
     request (GitHub.repos_get (Repository.owner repo) (Repository.repo repo))].
Proof.
  unfold GitHub.listBranches. run_op.
  destruct (respond w [] _), (respond w [_] _); reflexivity.
Qed.

Lemma github_listBranches_result w repo data info :
  respond w []
    (GitHub.repos_listBranches (Repository.owner repo) (Repository.repo repo) 100)
  = Resolved data ->
  respond w
    [request (GitHub.repos_listBranches (Repository.owner repo) (Repository.repo repo) 100)]
    (GitHub.repos_get (Repository.owner repo) (Repository.repo repo)) = Resolved info ->
  exists bs,
    fst (run (GitHub.listBranches repo) w) = Success bs /\
    map Branch.name bs = map GitHub.name data /\
    map Branch.sha bs = map GitHub.commit_sha data.
Proof.
  intros H1 H2. unfold GitHub.listBranches. run_op. rewrite H1, H2. simpl.
  eexists. split; [reflexivity |]. now rewrite !map_map.
Qed.

Lemma gitlab_listBranches_trace w repo :
  snd (run (GitLab.listBranches repo) w)
  = [request (GitLab.Branches_all
                (GitLab.getProjectId (Repository.owner repo) (Repository.repo repo)) 100);
     request (GitLab.Projects_show
                (GitLab.getProjectId (Repository.owner repo) (Repository.repo repo)))].
Proof.
  unfold GitLab.listBranches. run_op.
  destruct (respond w [] _), (respond w [_] _); reflexivity.
Qed.

Lemma gitlab_listBranches_result w repo data info :
  respond w []
    (GitLab.Branches_all
       (GitLab.getProjectId (Repository.owner repo) (Repository.repo repo)) 100)
  = Resolved data ->
  respond w
    [request (GitLab.Branches_all
                (GitLab.getProjectId (Repository.owner repo) (Repository.repo repo)) 100)]
    (GitLab.Projects_show
       (GitLab.getProjectId (Repository.owner repo) (Repository.repo repo)))
  = Resolved info ->
  exists bs,
    fst (run (GitLab.listBranches repo) w) = Success bs /\
    map Branch.name bs = map GitLab.name data /\
    map Branch.sha bs = map GitLab.commit_id data.
Proof.
  intros H1 H2. unfold GitLab.listBranches. run_op. rewrite H1, H2. simpl.
  eexists. split; [reflexivity |]. now rewrite !map_map.
Qed.

Lemma azure_listBranches_trace w repo project ready :
  Azure.getProject repo = Returned project ->
  respond w [] Azure.connection_getGitApi = Resolved ready ->
  snd (run (Azure.listBranches repo) w)
  = [request Azure.connection_getGitApi;
     request (Azure.gitApi_getRefs (Repository.repo repo) project "heads/");
     request (Azure.gitApi_getRepository (Repository.repo repo) project)].
Proof.
  intros G H0. unfold Azure.listBranches. run_op. rewrite G. simpl. rewrite H0. simpl.
  destruct (respond w [_] _), (respond w [_; _] _); reflexivity.
Qed.

Lemma azure_listBranches_result w repo project ready refs info :
  Azure.getProject repo = Returned project ->
  respond w [] Azure.connection_getGitApi = Resolved ready ->
  respond w [request Azure.connection_getGitApi]
    (Azure.gitApi_getRefs (Repository.repo repo) project "heads/") = Resolved refs ->
  respond w
    [request Azure.connection_getGitApi;
     request (Azure.gitApi_getRefs (Repository.repo repo) project "heads/")]
    (Azure.gitApi_getRepository (Repository.repo repo) project) = Resolved info ->
  exists bs,
    fst (run (Azure.listBranches repo) w) = Success bs /\
    map Branch.name bs = map (fun ref => Azure.extractBranchName (Azure.name ref)) refs /\
    map Branch.sha bs = map (fun ref => Azure.objectId ref ?? "") refs.
Proof.
  intros G H0 H1 H2. unfold Azure.listBranches. run_op. rewrite G. simpl.
  rewrite H0. simpl. rewrite H1, H2. simpl.
  eexists. split; [reflexivity |]. now rewrite !map_map.
Qed.

Lemma map_eq_length {A B C} (f : A -> C) (g : B -> C) xs ys :
  map f xs = map g ys -> length xs = length ys.
Proof. intro H. apply (f_equal (@length C)) in H. now rewrite !length_map in H. Qed.

(** C5, as the code has it. [listBranches] of each adapter issues
    exactly one branch-list request, next to the read of the repository,
    and returns one [Branch] per item of the answer, in the order of the
    answer, without cursoring and without truncation. GitHub and GitLab
    ask for a page of 100 items, so the result has at most 100 items
    when the backend keeps to the page size. The request of the Azure
    DevOps adapter carries no page size: its result is as long as the
    answer. *)
Theorem C5_listBranches_single_request :
  (forall w repo,
     snd (run (GitHub.listBranches repo) w)
     = [request (GitHub.repos_listBranches (Repository.owner repo)
                   (Repository.repo repo) 100);
        request (GitHub.repos_get (Repository.owner repo) (Repository.repo repo))]) /\
  (forall w repo data info,
     respond w []
       (GitHub.repos_listBranches (Repository.owner repo) (Repository.repo repo) 100)
     = Resolved data ->
     respond w
       [request (GitHub.repos_listBranches (Repository.owner repo)
                   (Repository.repo repo) 100)]
       (GitHub.repos_get (Repository.owner repo) (Repository.repo repo)) = Resolved info ->
     exists bs,
       fst (run (GitHub.listBranches repo) w) = Success bs /\
       map Branch.name bs = map GitHub.name data /\
       map Branch.sha bs = map GitHub.commit_sha data /\
       length bs = length data /\
       (length data <= 100 -> length bs <= 100)%nat) /\
  (forall w repo,
     snd (run (GitLab.listBranches repo) w)
     = [request (GitLab.Branches_all
                   (GitLab.getProjectId (Repository.owner repo) (Repository.repo repo)) 100);
        request (GitLab.Projects_show
                   (GitLab.getProjectId (Repository.owner repo) (Repository.repo repo)))]) /\
  (forall w repo data info,
     respond w []
       (GitLab.Branches_all
          (GitLab.getProjectId (Repository.owner repo) (Repository.repo repo)) 100)
     = Resolved data ->
     respond w
       [request (GitLab.Branches_all
                   (GitLab.getProjectId (Repository.owner repo) (Repository.repo repo)) 100)]
       (GitLab.Projects_show
          (GitLab.getProjectId (Repository.owner repo) (Repository.repo repo)))
     = Resolved info ->
     exists bs,
       fst (run (GitLab.listBranches repo) w) = Success bs /\
       map Branch.name bs = map GitLab.name data /\
       map Branch.sha bs = map GitLab.commit_id data /\
       length bs = length data /\
       (length data <= 100 -> length bs <= 100)%nat) /\
  (forall w repo project ready,
     Azure.getProject repo = Returned project ->
     respond w [] Azure.connection_getGitApi = Resolved ready ->
     snd (run (Azure.listBranches repo) w)
     = [request Azure.connection_getGitApi;
        request (Azure.gitApi_getRefs (Repository.repo repo) project "heads/");
        request (Azure.gitApi_getRepository (Repository.repo repo) project)]) /\
  (forall w repo project ready refs info,
     Azure.getProject repo = Returned project ->
     respond w [] Azure.connection_getGitApi = Resolved ready ->
     respond w [request Azure.connection_getGitApi]
       (Azure.gitApi_getRefs (Repository.repo repo) project "heads/") = Resolved refs ->
     respond w
       [request Azure.connection_getGitApi;
        request (Azure.gitApi_getRefs (Repository.repo repo) project "heads/")]
       (Azure.gitApi_getRepository (Repository.repo repo) project) = Resolved info ->
     exists bs,
       fst (run (Azure.listBranches repo) w) = Success bs /\
       map Branch.name bs
       = map (fun ref => Azure.extractBranchName (Azure.name ref)) refs /\
       map Branch.sha bs = map (fun ref => Azure.objectId ref ?? "") refs /\
       length bs = length refs).
Proof.
  split; [exact github_listBranches_trace |].
  split.
  { intros w repo data info H1 H2.
    destruct (github_listBranches_result w repo H1 H2) as (bs & R & N & S).
    exists bs. pose proof (map_eq_length _ _ _ _ N) as L.
    repeat split; auto. intro. now rewrite L. }
  split; [exact gitlab_listBranches_trace |].
  split.
  { intros w repo data info H1 H2.
    destruct (gitlab_listBranches_result w repo H1 H2) as (bs & R & N & S).
    exists bs. pose proof (map_eq_length _ _ _ _ N) as L.
    repeat split; auto. intro. now rewrite L. }
  split; [exact azure_listBranches_trace |].
  intros w repo project ready refs info G H0 H1 H2.
  destruct (azure_listBranches_result w repo G H0 H1 H2) as (bs & R & N & S).
  exists bs. pose proof (map_eq_length _ _ _ _ N) as L. repeat split; auto.
Qed.

Lemma C5_witness :
  exists bs,
    fst (run (GitLab.listBranches Fixture.acme_widgets) Fixture.gitlab_world) = Success bs /\
    map Branch.name bs
    = map GitLab.name [Fixture.gitlab_branch "main"; Fixture.gitlab_branch "feature-x"] /\
    map Branch.sha bs
    = map GitLab.commit_id [Fixture.gitlab_branch "main"; Fixture.gitlab_branch "feature-x"] /\
    length bs = 2%nat /\
    (2 <= 100 -> length bs <= 100)%nat.
Proof.
  exact (proj1 (proj2 (proj2 (proj2 C5_listBranches_single_request)))
           Fixture.gitlab_world Fixture.acme_widgets
           [Fixture.gitlab_branch "main"; Fixture.gitlab_branch "feature-x"]
           {| GitLab.default_branch := "main" |} eq_refl eq_refl).
Defined.

(** C5 does not hold as stated. The Azure DevOps adapter asks for the
    refs under ["heads/"] without a page size and returns one branch per
    ref of the answer: from a backend with 101 branches, 101 branches. *)
Lemma C5_counterexample :
  exists bs,
    snd (run (Azure.listBranches Fixture.azure_repo) Fixture.azure_world_101)
    = [request Azure.connection_getGitApi;
       request (Azure.gitApi_getRefs "myrepo" "MyProject" "heads/");
       request (Azure.gitApi_getRepository "myrepo" "MyProject")] /\
    fst (run (Azure.listBranches Fixture.azure_repo) Fixture.azure_world_101) = Success bs /\
    length bs = 101%nat.
Proof.
  eexists. split; [reflexivity |]. split; [vm_compute; reflexivity | reflexivity].
Qed.

(** ** The source commit of [createBranch] (C6) *)

Ltac step :=
  match goal with
  | |- context [match respond ?w ?h ?c with _ => _ end] =>
      destruct (respond w h c) eqn:?; simpl
  | |- context [match ?x with Some _ => _ | None => _ end] => destruct x eqn:?; simpl
  | |- context [if ?c then _ else _] => destruct c eqn:?; simpl
  end.

Ltac conclude :=
  try reflexivity; try discriminate;
  try (let K := fresh "K" in intros ? K; inversion K; subst; reflexivity);
  try (let K := fresh "K" in intro K; inversion K; subst; reflexivity);
  try (eexists; reflexivity);
  try (eexists; split; [reflexivity |]; simpl; auto; fail).

Lemma isHexDigit_spec c : Js.isHexDigit c = true <-> In c hexDigits.
Proof.
  assert (Js.isHexDigit c = existsb (Ascii.eqb c) hexDigits) as ->.
  { destruct c as [[] [] [] [] [] [] [] []]; reflexivity. }
  rewrite existsb_exists. split.
  - intros (x & I & E). apply Ascii.eqb_eq in E. now subst.
  - intro I. exists c. split; [exact I | apply Ascii.eqb_refl].
Qed.

Lemma allChars_Forall p s :
  Js.allChars p s = true <-> Forall (fun c => p c = true) (list_ascii_of_string s).
Proof.
  induction s as [| c s IH]; simpl.
  - split; [constructor | reflexivity].
  - rewrite andb_true_iff, IH. split.
    + intros [H1 H2]. now constructor.
    + intro H. inversion H. tauto.
Qed.

Lemma testSha_spec s :
  Js.testSha s = true
  <-> String.length s = 40%nat /\
      Forall (fun c => In c hexDigits) (list_ascii_of_string s).
Proof.
  unfold Js.testSha. rewrite andb_true_iff, Nat.eqb_eq, allChars_Forall.
  rewrite !Forall_forall. split; intros [L H]; split; auto; intros c I;
    apply isHexDigit_spec; auto.
Qed.

Lemma github_createBranch_from_sha w repo input :
  Js.testSha (CreateBranchInput.fromRef input) = true ->
  (exists rest,
     snd (run (GitHub.createBranch repo input) w)
     = request (GitHub.git_createRef (Repository.owner repo) (Repository.repo repo)
                  ("refs/heads/" ++ CreateBranchInput.name input)
                  (CreateBranchInput.fromRef input)) :: rest /\
     (rest = [] \/
      rest = [request (GitHub.repos_get (Repository.owner repo) (Repository.repo repo))])) /\
  (forall b,
     fst (run (GitHub.createBranch repo input) w) = Success b ->
     Branch.sha b = CreateBranchInput.fromRef input).
Proof.
  intro S. unfold GitHub.createBranch. run_op. rewrite S. simpl.
  split; repeat step; conclude.
Qed.

Lemma github_createBranch_from_name w repo input :
  Js.testSha (CreateBranchInput.fromRef input) = false ->
  (exists rest,
     snd (run (GitHub.createBranch repo input) w)
     = request (GitHub.git_getRef (Repository.owner repo) (Repository.repo repo)
                  ("heads/" ++ CreateBranchInput.fromRef input)) :: rest) /\
  (forall ref,
     respond w []
       (GitHub.git_getRef (Repository.owner repo) (Repository.repo repo)
          ("heads/" ++ CreateBranchInput.fromRef input)) = Resolved ref ->
     (exists rest,
        snd (run (GitHub.createBranch repo input) w)
        = request (GitHub.git_getRef (Repository.owner repo) (Repository.repo repo)
                     ("heads/" ++ CreateBranchInput.fromRef input))
          :: request (GitHub.git_createRef (Repository.owner repo) (Repository.repo repo)
                        ("refs/heads/" ++ CreateBranchInput.name input)
                        (GitHub.object_sha ref))
          :: rest) /\
     (forall b,
        fst (run (GitHub.createBranch repo input) w) = Success b ->
        Branch.sha b = GitHub.object_sha ref)) /\
  (forall t,
     respond w []
       (GitHub.git_getRef (Repository.owner repo) (Repository.repo repo)
          ("heads/" ++ CreateBranchInput.fromRef input)) = Rejected t ->
     GitHub.hasStatus404 t = true ->
     run (GitHub.createBranch repo input) w
     = (Failure (NotFoundError github Resource.repository "unknown"),
        [request (GitHub.git_getRef (Repository.owner repo) (Repository.repo repo)
                    ("heads/" ++ CreateBranchInput.fromRef input))])).
Proof.
  intro S. unfold GitHub.createBranch. run_op. rewrite S. simpl.
  split; [| split].
  - repeat step; conclude.
  - intros ref H. rewrite H. simpl. split; repeat step; conclude.
  - intros t H P. rewrite H. simpl.
    apply (github_mapError_not_found_iff t "createBranch") in P. now rewrite P.
Qed.

Lemma azure_createBranch_from_sha w repo input project ready :
  Azure.getProject repo = Returned project ->
  respond w [] Azure.connection_getGitApi = Resolved ready ->
  Js.testSha (CreateBranchInput.fromRef input) = true ->
  (exists rest,
     snd (run (Azure.createBranch repo input) w)
     = request Azure.connection_getGitApi
       :: request (Azure.gitApi_updateRefs
                     [{| Azure.update_name := "refs/heads/" ++ CreateBranchInput.name input;
                         Azure.oldObjectId := Azure.zeroObjectId;
                         Azure.newObjectId := CreateBranchInput.fromRef input |}]
                     (Repository.repo repo) project)
       :: rest /\
     (rest = [] \/
      rest = [request (Azure.gitApi_getRepository (Repository.repo repo) project)])) /\
  (forall b,
     fst (run (Azure.createBranch repo input) w) = Success b ->
     Branch.sha b = CreateBranchInput.fromRef input).
Proof.
  intros G H0 S. unfold Azure.createBranch. run_op. rewrite G. simpl.
  rewrite H0. simpl. rewrite S. simpl.
  split; repeat step; conclude.
Qed.

Lemma azure_createBranch_from_name w repo input project ready :
  Azure.getProject repo = Returned project ->
  respond w [] Azure.connection_getGitApi = Resolved ready ->
  Js.testSha (CreateBranchInput.fromRef input) = false ->
  (exists rest,
     snd (run (Azure.createBranch repo input) w)
     = request Azure.connection_getGitApi
       :: request (Azure.gitApi_getRefs (Repository.repo repo) project
                     ("heads/" ++ CreateBranchInput.fromRef input))
       :: rest) /\
  (forall refs oid,
     respond w [request Azure.connection_getGitApi]
       (Azure.gitApi_getRefs (Repository.repo repo) project
          ("heads/" ++ CreateBranchInput.fromRef input)) = Resolved refs ->
     Azure.truthyObjectId (Js.first refs) = Some oid ->
     (exists rest,
        snd (run (Azure.createBranch repo input) w)
        = request Azure.connection_getGitApi
          :: request (Azure.gitApi_getRefs (Repository.repo repo) project
                        ("heads/" ++ CreateBranchInput.fromRef input))
          :: request (Azure.gitApi_updateRefs
                        [{| Azure.update_name :=
                              "refs/heads/" ++ CreateBranchInput.name input;
                            Azure.oldObjectId := Azure.zeroObjectId;
                            Azure.newObjectId := oid |}]
                        (Repository.repo repo) project)
          :: rest) /\
     (forall b,
        fst (run (Azure.createBranch repo input) w) = Success b ->
        Branch.sha b = oid)) /\
  (forall refs,
     respond w [request Azure.connection_getGitApi]
       (Azure.gitApi_getRefs (Repository.repo repo) project
          ("heads/" ++ CreateBranchInput.fromRef input)) = Resolved refs ->
     Azure.truthyObjectId (Js.first refs) = None ->
     run (Azure.createBranch repo input) w
     = (Failure (NotFoundError azure_devops Resource.branch
                   (CreateBranchInput.fromRef input)),
        [request Azure.connection_getGitApi;
         request (Azure.gitApi_getRefs (Repository.repo repo) project
                    ("heads/" ++ CreateBranchInput.fromRef input))])).
Proof.
  intros G H0 S. unfold Azure.createBranch. run_op. rewrite G. simpl.
  rewrite H0. simpl. rewrite S. simpl.
  split; [| split].
  - repeat step; conclude.
  - intros refs oid H T. rewrite H. simpl. rewrite T. simpl.
    split; repeat step; conclude.
  - intros refs H T. rewrite H. simpl. now rewrite T.
Qed.

(** C6, as the code has it. [createBranch] of the GitHub and of the
    Azure DevOps adapter tests [fromRef] against the pattern of exactly
    40 hexadecimal characters. On a match [fromRef] is the source
    commit: the first request after the connection is the creation of
    the ref at [fromRef], and no lookup is issued. Otherwise the ref
    ["heads/" ++ fromRef] is looked up first and the creation uses the
    commit the lookup gives; when the lookup gives none the operation
    fails with a [NotFoundError] (tagged ["branch"] with [fromRef] on
    Azure DevOps; the one of [mapError] on GitHub, on status 404). In
    both cases the [sha] of the returned [Branch] is that source commit.
    The GitLab adapter neither tests nor looks up: it hands [fromRef] to
    the backend and returns the commit of the answer. *)
Theorem C6_createBranch_source_commit :
  (forall s,
     Js.testSha s = true
     <-> String.length s = 40%nat /\
         Forall (fun c => In c hexDigits) (list_ascii_of_string s)) /\
  (forall w repo input,
     Js.testSha (CreateBranchInput.fromRef input) = true ->
     (exists rest,
        snd (run (GitHub.createBranch repo input) w)
        = request (GitHub.git_createRef (Repository.owner repo) (Repository.repo repo)
                     ("refs/heads/" ++ CreateBranchInput.name input)
                     (CreateBranchInput.fromRef input)) :: rest /\
        (rest = [] \/
         rest = [request (GitHub.repos_get (Repository.owner repo) (Repository.repo repo))])) /\
     (forall b,
        fst (run (GitHub.createBranch repo input) w) = Success b ->
        Branch.sha b = CreateBranchInput.fromRef input)) /\
  (forall w repo input,
     Js.testSha (CreateBranchInput.fromRef input) = false ->
     (exists rest,
        snd (run (GitHub.createBranch repo input) w)
        = request (GitHub.git_getRef (Repository.owner repo) (Repository.repo repo)
                     ("heads/" ++ CreateBranchInput.fromRef input)) :: rest) /\
     (forall ref,
        respond w []
          (GitHub.git_getRef (Repository.owner repo) (Repository.repo repo)
             ("heads/" ++ CreateBranchInput.fromRef input)) = Resolved ref ->
        (exists rest,
           snd (run (GitHub.createBranch repo input) w)
           = request (GitHub.git_getRef (Repository.owner repo) (Repository.repo repo)
                        ("heads/" ++ CreateBranchInput.fromRef input))
             :: request (GitHub.git_createRef (Repository.owner repo) (Repository.repo repo)
                           ("refs/heads/" ++ CreateBranchInput.name input)
                           (GitHub.object_sha ref))
             :: rest) /\
        (forall b,
           fst (run (GitHub.createBranch repo input) w) = Success b ->
           Branch.sha b = GitHub.object_sha ref)) /\
     (forall t,
        respond w []
          (GitHub.git_getRef (Repository.owner repo) (Repository.repo repo)
             ("heads/" ++ CreateBranchInput.fromRef input)) = Rejected t ->
        GitHub.hasStatus404 t = true ->
        run (GitHub.createBranch repo input) w
        = (Failure (NotFoundError github Resource.repository "unknown"),
           [request (GitHub.git_getRef (Repository.owner repo) (Repository.repo repo)
                       ("heads/" ++ CreateBranchInput.fromRef input))]))) /\
  (forall w repo input project ready,
     Azure.getProject repo = Returned project ->
     respond w [] Azure.connection_getGitApi = Resolved ready ->
     Js.testSha (CreateBranchInput.fromRef input) = true ->
     (exists rest,
        snd (run (Azure.createBranch repo input) w)
        = request Azure.connection_getGitApi
          :: request (Azure.gitApi_updateRefs
                        [{| Azure.update_name := "refs/heads/" ++ CreateBranchInput.name input;
                            Azure.oldObjectId := Azure.zeroObjectId;
                            Azure.newObjectId := CreateBranchInput.fromRef input |}]
                        (Repository.repo repo) project)
          :: rest /\
        (rest = [] \/
         rest = [request (Azure.gitApi_getRepository (Repository.repo repo) project)])) /\
     (forall b,
        fst (run (Azure.createBranch repo input) w) = Success b ->
        Branch.sha b = CreateBranchInput.fromRef input)) /\
  (forall w repo input project ready,
     Azure.getProject repo = Returned project ->
     respond w [] Azure.connection_getGitApi = Resolved ready ->
     Js.testSha (CreateBranchInput.fromRef input) = false ->
     (exists rest,
        snd (run (Azure.createBranch repo input) w)
        = request Azure.connection_getGitApi
          :: request (Azure.gitApi_getRefs (Repository.repo repo) project
                        ("heads/" ++ CreateBranchInput.fromRef input))
          :: rest) /\
     (forall refs oid,
        respond w [request Azure.connection_getGitApi]
          (Azure.gitApi_getRefs (Repository.repo repo) project
             ("heads/" ++ CreateBranchInput.fromRef input)) = Resolved refs ->
        Azure.truthyObjectId (Js.first refs) = Some oid ->
        (exists rest,
           snd (run (Azure.createBranch repo input) w)
           = request Azure.connection_getGitApi
             :: request (Azure.gitApi_getRefs (Repository.repo repo) project
                           ("heads/" ++ CreateBranchInput.fromRef input))
             :: request (Azure.gitApi_updateRefs
                           [{| Azure.update_name :=
                                 "refs/heads/" ++ CreateBranchInput.name input;
                               Azure.oldObjectId := Azure.zeroObjectId;
                               Azure.newObjectId := oid |}]
                           (Repository.repo repo) project)
             :: rest) /\
        (forall b,
           fst (run (Azure.createBranch repo input) w) = Success b ->
           Branch.sha b = oid)) /\
     (forall refs,
        respond w [request Azure.connection_getGitApi]
          (Azure.gitApi_getRefs (Repository.repo repo) project
             ("heads/" ++ CreateBranchInput.fromRef input)) = Resolved refs ->
        Azure.truthyObjectId (Js.first refs) = None ->
        run (Azure.createBranch repo input) w
        = (Failure (NotFoundError azure_devops Resource.branch
                      (CreateBranchInput.fromRef input)),
           [request Azure.connection_getGitApi;
            request (Azure.gitApi_getRefs (Repository.repo repo) project
                       ("heads/" ++ CreateBranchInput.fromRef input))]))) /\
  (forall w repo input,
     exists rest,
       snd (run (GitLab.createBranch repo input) w)
       = request (GitLab.Branches_create
                    (GitLab.getProjectId (Repository.owner repo) (Repository.repo repo))
                    (CreateBranchInput.name input) (CreateBranchInput.fromRef input))
         :: rest /\
       (rest = [] \/
        rest = [request (GitLab.Projects_show
                           (GitLab.getProjectId (Repository.owner repo)
                              (Repository.repo repo)))])) /\
  (forall w repo input created info,
     respond w []
       (GitLab.Branches_create
          (GitLab.getProjectId (Repository.owner repo) (Repository.repo repo))
          (CreateBranchInput.name input) (CreateBranchInput.fromRef input))
     = Resolved created ->
     respond w
       [request (GitLab.Branches_create
                   (GitLab.getProjectId (Repository.owner repo) (Repository.repo repo))
                   (CreateBranchInput.name input) (CreateBranchInput.fromRef input))]
       (GitLab.Projects_show
          (GitLab.getProjectId (Repository.owner repo) (Repository.repo repo)))
     = Resolved info ->
     exists b,
       fst (run (GitLab.createBranch repo input) w) = Success b /\
       Branch.sha b = GitLab.commit_id created).
Proof.
  split; [exact testSha_spec |].
  split; [exact github_createBranch_from_sha |].
  split; [exact github_createBranch_from_name |].
  split; [exact azure_createBranch_from_sha |].
  split; [exact azure_createBranch_from_name |].
  split.
  - intros w repo input. unfold GitLab.createBranch. run_op. repeat step; conclude.
  - intros w repo input created info H1 H2.
    unfold GitLab.createBranch. run_op. rewrite H1. simpl. rewrite H2. simpl.
    eexists. split; reflexivity.
Qed.

Lemma C6_witness :
  (exists rest,
     snd (run (GitHub.createBranch Fixture.octo_repo Fixture.new_feature_from_sha)
            Fixture.github_world)
     = request (GitHub.git_createRef "octokit" "octokit.js" "refs/heads/feature-x"
                  Fixture.shaB) :: rest /\
     (rest = [] \/ rest = [request (GitHub.repos_get "octokit" "octokit.js")])) /\
  (forall b,
     fst (run (GitHub.createBranch Fixture.octo_repo Fixture.new_feature_from_sha)
            Fixture.github_world) = Success b ->
     Branch.sha b = Fixture.shaB).
Proof.
  exact (proj1 (proj2 C6_createBranch_source_commit)
           Fixture.github_world Fixture.octo_repo Fixture.new_feature_from_sha eq_refl).
Defined.

(** C6 does not hold as stated. On GitLab a [fromRef] that is not a
    commit identifier, ["main"], is not resolved before the branch is
    created: the creation is the first request and carries ["main"]
    itself. And a [fromRef] that is one is not what [sha] is read from:
    [sha] is the commit identifier of the answer, in the backend's
    spelling, where the two other adapters return [fromRef] as it was
    given. *)
Lemma C6_counterexample :
  (Js.testSha "main" = false /\
   snd (run (GitLab.createBranch Fixture.acme_widgets Fixture.new_feature)
          Fixture.gitlab_world)
   = [request (GitLab.Branches_create "acme/widgets" "feature-x" "main");
      request (GitLab.Projects_show "acme/widgets")]) /\
  (Js.testSha Fixture.shaB_upper = true /\
   exists b,
     fst (run (GitLab.createBranch Fixture.acme_widgets Fixture.new_feature_from_upper_sha)
            Fixture.gitlab_world) = Success b /\
     Branch.sha b = Fixture.shaB /\
     Branch.sha b <> Fixture.shaB_upper).
Proof.
  repeat split. eexists. repeat split. discriminate.
Qed.

(** ** Azure DevOps pull requests (C7, C9) *)

Lemma orNow_spec date w s :
  Azure.orNow date w s
  = match date with
    | Some d => (Returned d, s)
    | None => (Returned (Js.DateNow (clock w (reads s))),
               {| trace := trace s; reads := S (reads s) |})
    end.
Proof. now destruct date. Qed.

(** [mapPullRequest] always returns, issues no request, and sets both
    timestamps from [creationDate] when there is one, and from two
    successive readings of the clock when there is none. *)
Lemma mapPullRequest_spec pr orgUrl w s :
  exists r s',
    Azure.mapPullRequest pr orgUrl w s = (Returned r, s') /\
    trace s' = trace s /\
    PullRequest.number r = Azure.pullRequestId pr ?? 0 /\
    PullRequest.state r = Azure.mapPrState (Azure.status pr) /\
    match Azure.creationDate pr with
    | Some d =>
        PullRequest.createdAt r = d /\ PullRequest.updatedAt r = d /\ reads s' = reads s
    | None =>
        PullRequest.createdAt r = Js.DateNow (clock w (reads s)) /\
        PullRequest.updatedAt r = Js.DateNow (clock w (S (reads s))) /\
        reads s' = S (S (reads s))
    end.
Proof.
  unfold Azure.mapPullRequest, bind. rewrite orNow_spec.
  destruct (Azure.creationDate pr) as [d |]; simpl.
  - eexists. eexists. split; [reflexivity |]. simpl. repeat split.
  - eexists. eexists. split; [reflexivity |]. simpl. repeat split.
Qed.

Lemma mapPullRequests_spec orgUrl w prs :
  forall s,
  exists rs s',
    mapAsync (fun pr => Azure.mapPullRequest pr orgUrl) prs w s = (Returned rs, s') /\
    trace s' = trace s /\
    Forall2 (normalized orgUrl) prs rs /\
    map PullRequest.number rs = map (fun pr => Azure.pullRequestId pr ?? 0) prs /\
    map PullRequest.state rs = map (fun pr => Azure.mapPrState (Azure.status pr)) prs.
Proof.
  induction prs as [| pr prs IH]; intro s.
  - exists [], s. simpl. repeat split; constructor.
  - destruct (mapPullRequest_spec pr orgUrl w s) as (r & s1 & R & T & N & S & _).
    destruct (IH s1) as (rs & s2 & Rs & Ts & F & Ns & Ss).
    exists (r :: rs), s2. simpl. unfold bind at 1. rewrite R.
    unfold bind at 1. rewrite Rs. simpl.
    repeat split.
    + congruence.
    + constructor; [now exists w, s, s1 | exact F].
    + now rewrite N, Ns.
    + now rewrite S, Ss.
Qed.

Lemma isClosedStatus_spec pr :
  Azure.isClosedStatus pr = true
  <-> Azure.status pr = Some 2%Z \/ Azure.status pr = Some 3%Z.
Proof.
  unfold Azure.isClosedStatus. destruct (Azure.status pr) as [n |].
  - rewrite orb_true_iff, !Z.eqb_eq. split; intros [H | H]; [left | right | left | right];
      congruence.
  - split; [discriminate | intros [H | H]; discriminate].
Qed.

Lemma closed_status_state pr :
  Azure.isClosedStatus pr = true ->
  Azure.mapPrState (Azure.status pr) <> PullRequestState.open.
Proof.
  intro H. apply isClosedStatus_spec in H. destruct H as [-> | ->]; discriminate.
Qed.

(** C7. On Azure DevOps, [listPullRequests] with state ["closed"] asks
    for the unfiltered set (native status 4) and returns, in order, the
    normalization of exactly those fetched pull requests whose native
    status is 2 or 3; none of status 1 is among them, and none of the
    results is in state [open]. *)
Theorem C7_azure_closed_filter w orgUrl repo project ready options fetched :
  optionsState options = Some filter_closed ->
  Azure.getProject repo = Returned project ->
  respond w [] Azure.connection_getGitApi = Resolved ready ->
  respond w [request Azure.connection_getGitApi]
    (Azure.gitApi_getPullRequests (Repository.repo repo)
       {| Azure.repositoryId := Repository.repo repo; Azure.criteria_status := 4 |}
       project (optionsLimit options ?? 30)) = Resolved fetched ->
  exists prs,
    run (Azure.listPullRequests orgUrl repo options) w
    = (Success prs,
       [request Azure.connection_getGitApi;
        request (Azure.gitApi_getPullRequests (Repository.repo repo)
                   {| Azure.repositoryId := Repository.repo repo;
                      Azure.criteria_status := 4 |}
                   project (optionsLimit options ?? 30))]) /\
    Forall2 (normalized orgUrl) (filter Azure.isClosedStatus fetched) prs /\
    map PullRequest.number prs
    = map (fun pr => Azure.pullRequestId pr ?? 0) (filter Azure.isClosedStatus fetched) /\
    (forall pr,
       In pr (filter Azure.isClosedStatus fetched)
       <-> In pr fetched /\ (Azure.status pr = Some 2%Z \/ Azure.status pr = Some 3%Z)) /\
    (forall pr,
       In pr fetched -> Azure.status pr = Some 1%Z ->
       ~ In pr (filter Azure.isClosedStatus fetched)) /\
    Forall (fun r => PullRequest.state r <> PullRequestState.open) prs.
Proof.
  intros O G H0 H1.
  destruct (mapPullRequests_spec orgUrl w (filter Azure.isClosedStatus fetched)
              {| trace := [request Azure.connection_getGitApi;
                           request (Azure.gitApi_getPullRequests (Repository.repo repo)
                                      {| Azure.repositoryId := Repository.repo repo;
                                         Azure.criteria_status := 4 |}
                                      project (optionsLimit options ?? 30))];
                 reads := 0 |})
    as (rs & s' & R & T & F & N & S).
  exists rs. split; [| split; [exact F | split; [exact N | split; [| split]]]].
  - unfold Azure.listPullRequests. run_op. rewrite G. simpl. rewrite H0. simpl.
    rewrite O. rewrite H1. simpl. rewrite R. simpl. now rewrite T.
  - intro pr. rewrite filter_In, isClosedStatus_spec. tauto.
  - intros pr _ S1 I. apply filter_In in I. destruct I as [_ C].
    apply isClosedStatus_spec in C. destruct C; congruence.
  - apply Forall_forall. intros r I.
    apply (in_map PullRequest.state) in I. rewrite S in I.
    apply in_map_iff in I. destruct I as (pr & E & I).
    apply filter_In in I. rewrite <- E. now apply closed_status_state.
Qed.

Lemma C7_witness :
  exists prs,
    run (Azure.listPullRequests Fixture.orgUrl Fixture.azure_repo Fixture.closed_only)
      Fixture.azure_world
    = (Success prs,
       [request Azure.connection_getGitApi;
        request (Azure.gitApi_getPullRequests "myrepo"
                   {| Azure.repositoryId := "myrepo"; Azure.criteria_status := 4 |}
                   "MyProject" 30)]) /\
    Forall2 (normalized Fixture.orgUrl)
      (filter Azure.isClosedStatus [Fixture.azure_pr1; Fixture.azure_pr2; Fixture.azure_pr3])
      prs /\
    map PullRequest.number prs
    = map (fun pr => Azure.pullRequestId pr ?? 0)
        (filter Azure.isClosedStatus
           [Fixture.azure_pr1; Fixture.azure_pr2; Fixture.azure_pr3]) /\
    (forall pr,
       In pr (filter Azure.isClosedStatus
                [Fixture.azure_pr1; Fixture.azure_pr2; Fixture.azure_pr3])
       <-> In pr [Fixture.azure_pr1; Fixture.azure_pr2; Fixture.azure_pr3] /\
           (Azure.status pr = Some 2%Z \/ Azure.status pr = Some 3%Z)) /\
    (forall pr,
       In pr [Fixture.azure_pr1; Fixture.azure_pr2; Fixture.azure_pr3] ->
       Azure.status pr = Some 1%Z ->
       ~ In pr (filter Azure.isClosedStatus
                  [Fixture.azure_pr1; Fixture.azure_pr2; Fixture.azure_pr3])) /\
    Forall (fun r => PullRequest.state r <> PullRequestState.open) prs.
Proof.
  exact (C7_azure_closed_filter Fixture.azure_world Fixture.orgUrl Fixture.azure_repo
           (project := "MyProject") (ready := tt) Fixture.closed_only
           eq_refl eq_refl eq_refl eq_refl).
Defined.

Lemma run_success E A (body : Async E A) (handler : Thrown -> ForgeError) w a tr :
  run (tryPromise body handler) w = (Success a, tr) ->
  exists s, body w initial = (Returned a, s) /\ trace s = tr.
Proof.
  unfold run, tryPromise. destruct (body w initial) as [[a0 | t] s]; intro H; inversion H.
  now exists s.
Qed.

Lemma mapPullRequest_timestamps pr orgUrl w s r s' :
  Azure.mapPullRequest pr orgUrl w s = (Returned r, s') ->
  match Azure.creationDate pr with
  | Some d => PullRequest.createdAt r = d /\ PullRequest.updatedAt r = d
  | None =>
      PullRequest.createdAt r = Js.DateNow (clock w (reads s)) /\
      PullRequest.updatedAt r = Js.DateNow (clock w (S (reads s)))
  end.
Proof.
  intro H. destruct (mapPullRequest_spec pr orgUrl w s) as (r0 & s0 & R & _ & _ & _ & D).
  rewrite R in H. inversion H. subst.
  destruct (Azure.creationDate pr); tauto.
Qed.

Lemma mapPullRequests_dated orgUrl w prs :
  Forall (fun pr => Azure.creationDate pr <> None) prs ->
  forall s rs s',
    mapAsync (fun pr => Azure.mapPullRequest pr orgUrl) prs w s = (Returned rs, s') ->
    Forall (fun r => PullRequest.updatedAt r = PullRequest.createdAt r) rs.
Proof.
  induction 1 as [| pr prs D _ IH]; intros s rs s' H; simpl in H.
  - inversion H. constructor.
  - unfold bind at 1 in H.
    destruct (Azure.mapPullRequest pr orgUrl w s) as [[r | t] s1] eqn:R; [| discriminate].
    unfold bind at 1 in H.
    destruct (mapAsync _ prs w s1) as [[rs1 | t] s2] eqn:Rs; [| discriminate].
    inversion H. subst. constructor.
    + apply mapPullRequest_timestamps in R.
      destruct (Azure.creationDate pr); [destruct R; congruence | congruence].
    + eapply IH. exact Rs.
Qed.

Lemma Forall_filter {A} (P : A -> Prop) (f : A -> bool) xs :
  Forall P xs -> Forall P (filter f xs).
Proof.
  rewrite !Forall_forall. intros H x I. apply filter_In in I. now apply H.
Qed.

Lemma azure_produces_dated w r :
  always_dated w -> azure_produces w r ->
  PullRequest.updatedAt r = PullRequest.createdAt r.
Proof.
  intros (Dc & Dg & Dl) P.
  destruct P as [w orgUrl repo input r tr H | w orgUrl repo number r tr H
                | w orgUrl repo options rs r tr H I];
    apply run_success in H; destruct H as (s & H & _);
    unfold bind, lift, await in H;
    destruct (Azure.getProject repo) as [project | t]; simpl in H; try discriminate;
    destruct (respond w [] Azure.connection_getGitApi); simpl in H; try discriminate.
  - destruct (respond w _ _) as [pr | t] eqn:R; simpl in H; [| discriminate].
    apply Dc in R. apply mapPullRequest_timestamps in H.
    destruct (Azure.creationDate pr); [destruct H; congruence | congruence].
  - destruct (respond w _ _) as [[pr |] | t] eqn:R; simpl in H; try discriminate.
    apply Dg in R. apply mapPullRequest_timestamps in H.
    destruct (Azure.creationDate pr); [destruct H; congruence | congruence].
  - destruct (respond w _ _) as [fetched | t] eqn:R; simpl in H; [| discriminate].
    apply Dl in R.
    assert (Forall (fun pr => Azure.creationDate pr <> None)
              match optionsState options with
              | Some filter_closed => filter Azure.isClosedStatus fetched
              | _ => fetched
              end) as D.
    { destruct (optionsState options) as [[| |] |]; auto using Forall_filter. }
    eapply mapPullRequests_dated in H; [| exact D].
    rewrite Forall_forall in H. now apply H.
Qed.

Lemma mapPullRequest_stamped pr orgUrl w s r s' :
  Azure.mapPullRequest pr orgUrl w s = (Returned r, s') -> stamped w pr r.
Proof.
  intro H. apply mapPullRequest_timestamps in H. unfold stamped.
  destruct (Azure.creationDate pr) as [d |]; [exact H | now exists (reads s)].
Qed.

Lemma mapPullRequests_stamped orgUrl w prs :
  forall s rs s',
    mapAsync (fun pr => Azure.mapPullRequest pr orgUrl) prs w s = (Returned rs, s') ->
    Forall2 (stamped w) prs rs.
Proof.
  induction prs as [| pr prs IH]; intros s rs s' H; simpl in H.
  - inversion H. constructor.
  - unfold bind at 1 in H.
    destruct (Azure.mapPullRequest pr orgUrl w s) as [[r | t] s1] eqn:R; [| discriminate].
    unfold bind at 1 in H.
    destruct (mapAsync _ prs w s1) as [[rs1 | t] s2] eqn:Rs; [| discriminate].
    inversion H. subst. constructor.
    + eapply mapPullRequest_stamped. exact R.
    + eapply IH. exact Rs.
Qed.

Lemma Forall2_In_right {A B} (P : A -> B -> Prop) xs ys y :
  Forall2 P xs ys -> In y ys -> exists x, In x xs /\ P x y.
Proof.
  induction 1 as [| x0 y0 xs ys H _ IH]; intro I; [contradiction |].
  destruct I as [-> | I].
  - exists x0. split; [now left | exact H].
  - destruct (IH I) as (x & Ix & Px). exists x. split; [now right | exact Px].
Qed.

Lemma azure_createPullRequest_stamped w orgUrl repo input project ready pr :
  Azure.getProject repo = Returned project ->
  respond w [] Azure.connection_getGitApi = Resolved ready ->
  respond w [request Azure.connection_getGitApi]
    (Azure.gitApi_createPullRequest
       {| Azure.new_title := CreatePullRequestInput.title input;
          Azure.new_description := CreatePullRequestInput.description input;
          Azure.new_sourceRefName :=
            "refs/heads/" ++ CreatePullRequestInput.sourceBranch input;
          Azure.new_targetRefName :=
            "refs/heads/" ++ CreatePullRequestInput.targetBranch input;
          Azure.new_isDraft := CreatePullRequestInput.draft input ?? false |}
       (Repository.repo repo) project) = Resolved pr ->
  exists r,
    fst (run (Azure.createPullRequest orgUrl repo input) w) = Success r /\
    match Azure.creationDate pr with
    | Some d => PullRequest.createdAt r = d /\ PullRequest.updatedAt r = d
    | None =>
        PullRequest.createdAt r = Js.DateNow (clock w 0) /\
        PullRequest.updatedAt r = Js.DateNow (clock w 1)
    end.
Proof.
  intros G H0 H1.
  destruct (mapPullRequest_spec pr orgUrl w
              {| trace := [request Azure.connection_getGitApi;
                           request (Azure.gitApi_createPullRequest
                                      {| Azure.new_title := CreatePullRequestInput.title input;
                                         Azure.new_description :=
                                           CreatePullRequestInput.description input;
                                         Azure.new_sourceRefName :=
                                           "refs/heads/"
                                           ++ CreatePullRequestInput.sourceBranch input;
                                         Azure.new_targetRefName :=
                                           "refs/heads/"
                                           ++ CreatePullRequestInput.targetBranch input;
                                         Azure.new_isDraft :=
                                           CreatePullRequestInput.draft input ?? false |}
                                      (Repository.repo repo) project)];
                 reads := 0 |}) as (r & s' & R & _ & _ & _ & D).
  exists r. split.
  - unfold Azure.createPullRequest. run_op. rewrite G. simpl. rewrite H0. simpl.
    rewrite H1. simpl. rewrite R. reflexivity.
  - simpl in D. destruct (Azure.creationDate pr); tauto.
Qed.

Lemma azure_getPullRequest_stamped w orgUrl repo number project ready pr :
  Azure.getProject repo = Returned project ->
  respond w [] Azure.connection_getGitApi = Resolved ready ->
  respond w [request Azure.connection_getGitApi]
    (Azure.gitApi_getPullRequest (Repository.repo repo) number project)
  = Resolved (Some pr) ->
  exists r,
    fst (run (Azure.getPullRequest orgUrl repo number) w) = Success r /\
    match Azure.creationDate pr with
    | Some d => PullRequest.createdAt r = d /\ PullRequest.updatedAt r = d
    | None =>
        PullRequest.createdAt r = Js.DateNow (clock w 0) /\
        PullRequest.updatedAt r = Js.DateNow (clock w 1)
    end.
Proof.
  intros G H0 H1.
  destruct (mapPullRequest_spec pr orgUrl w
              {| trace := [request Azure.connection_getGitApi;
                           request (Azure.gitApi_getPullRequest (Repository.repo repo)
                                      number project)];
                 reads := 0 |}) as (r & s' & R & _ & _ & _ & D).
  exists r. split.
  - unfold Azure.getPullRequest. run_op. rewrite G. simpl. rewrite H0. simpl.
    rewrite H1. simpl. rewrite R. reflexivity.
  - simpl in D. destruct (Azure.creationDate pr); tauto.
Qed.

Lemma azure_listPullRequests_stamped w orgUrl repo options project ready fetched :
  Azure.getProject repo = Returned project ->
  respond w [] Azure.connection_getGitApi = Resolved ready ->
  respond w [request Azure.connection_getGitApi]
    (Azure.gitApi_getPullRequests (Repository.repo repo)
       {| Azure.repositoryId := Repository.repo repo;
          Azure.criteria_status :=
            match optionsState options with
            | Some filter_all => 4
            | Some filter_closed => 4
            | _ => 1
            end |}
       project (optionsLimit options ?? 30)) = Resolved fetched ->
  exists rs,
    fst (run (Azure.listPullRequests orgUrl repo options) w) = Success rs /\
    Forall2 (stamped w)
      match optionsState options with
      | Some filter_closed => filter Azure.isClosedStatus fetched
      | _ => fetched
      end
      rs.
Proof.
  intros G H0 H1.
  destruct (mapPullRequests_spec orgUrl w
              match optionsState options with
              | Some filter_closed => filter Azure.isClosedStatus fetched
              | _ => fetched
              end
              {| trace := [request Azure.connection_getGitApi;
                           request (Azure.gitApi_getPullRequests (Repository.repo repo)
                                      {| Azure.repositoryId := Repository.repo repo;
                                         Azure.criteria_status :=
                                           match optionsState options with
                                           | Some filter_all => 4
                                           | Some filter_closed => 4
                                           | _ => 1
                                           end |}
                                      project (optionsLimit options ?? 30))];
                 reads := 0 |})
    as (rs & s' & R & T & _).
  exists rs. split.
  - unfold Azure.listPullRequests. run_op. rewrite G. simpl. rewrite H0. simpl.
    rewrite H1. simpl. rewrite R. reflexivity.
  - eapply mapPullRequests_stamped. exact R.
Qed.

Lemma azure_produces_stamped w r :
  azure_produces w r -> exists pr, azure_delivers w pr /\ stamped w pr r.
Proof.
  intro P.
  destruct P as [w orgUrl repo input r tr H | w orgUrl repo number r tr H
                | w orgUrl repo options rs r tr H I];
    apply run_success in H; destruct H as (s & H & _);
    unfold bind, lift, await in H;
    destruct (Azure.getProject repo) as [project | t]; simpl in H; try discriminate;
    destruct (respond w [] Azure.connection_getGitApi); simpl in H; try discriminate.
  - destruct (respond w _ _) as [pr | t] eqn:R; simpl in H; [| discriminate].
    exists pr. split; [eapply delivered_to_create; exact R |].
    eapply mapPullRequest_stamped. exact H.
  - destruct (respond w _ _) as [[pr |] | t] eqn:R; simpl in H; try discriminate.
    exists pr. split; [eapply delivered_to_get; exact R |].
    eapply mapPullRequest_stamped. exact H.
  - destruct (respond w _ _) as [fetched | t] eqn:R; simpl in H; [| discriminate].
    apply mapPullRequests_stamped in H.
    destruct (@Forall2_In_right _ _ _ _ _ _ H I) as (pr & Ip & S).
    exists pr. split; [| exact S].
    eapply delivered_to_list; [exact R |].
    destruct (optionsState options) as [[| |] |]; try exact Ip.
    apply filter_In in Ip. tauto.
Qed.

(** C9, as the code has it. [mapPullRequest] sets [createdAt] and
    [updatedAt] both to the native [creationDate] when the pull request
    has one; when it has none, it sets each from a reading of the clock
    of its own, [createdAt] first. So the pull request that
    [createPullRequest] or [getPullRequest] of the Azure DevOps adapter
    makes of the backend's answer, and each one that [listPullRequests]
    makes of a fetched one, has [updatedAt = createdAt = creationDate]
    when that answer carries the [creationDate], and otherwise two
    successive readings of the current time; and every pull request
    that these operations return is made that way of one that the
    backend delivered. In neither case does [updatedAt] come from a
    later modification of the pull request. *)
Theorem C9_azure_timestamps :
  (forall pr orgUrl w s r s',
     Azure.mapPullRequest pr orgUrl w s = (Returned r, s') ->
     match Azure.creationDate pr with
     | Some d => PullRequest.createdAt r = d /\ PullRequest.updatedAt r = d
     | None =>
         PullRequest.createdAt r = Js.DateNow (clock w (reads s)) /\
         PullRequest.updatedAt r = Js.DateNow (clock w (S (reads s)))
     end) /\
  (forall w orgUrl repo input project ready pr,
     Azure.getProject repo = Returned project ->
     respond w [] Azure.connection_getGitApi = Resolved ready ->
     respond w [request Azure.connection_getGitApi]
       (Azure.gitApi_createPullRequest
          {| Azure.new_title := CreatePullRequestInput.title input;
             Azure.new_description := CreatePullRequestInput.description input;
             Azure.new_sourceRefName :=
               "refs/heads/" ++ CreatePullRequestInput.sourceBranch input;
             Azure.new_targetRefName :=
               "refs/heads/" ++ CreatePullRequestInput.targetBranch input;
             Azure.new_isDraft := CreatePullRequestInput.draft input ?? false |}
          (Repository.repo repo) project) = Resolved pr ->
     exists r,
       fst (run (Azure.createPullRequest orgUrl repo input) w) = Success r /\
       match Azure.creationDate pr with
       | Some d => PullRequest.createdAt r = d /\ PullRequest.updatedAt r = d
       | None =>
           PullRequest.createdAt r = Js.DateNow (clock w 0) /\
           PullRequest.updatedAt r = Js.DateNow (clock w 1)
       end) /\
  (forall w orgUrl repo number project ready pr,
     Azure.getProject repo = Returned project ->
     respond w [] Azure.connection_getGitApi = Resolved ready ->
     respond w [request Azure.connection_getGitApi]
       (Azure.gitApi_getPullRequest (Repository.repo repo) number project)
     = Resolved (Some pr) ->
     exists r,
       fst (run (Azure.getPullRequest orgUrl repo number) w) = Success r /\
       match Azure.creationDate pr with
       | Some d => PullRequest.createdAt r = d /\ PullRequest.updatedAt r = d
       | None =>
           PullRequest.createdAt r = Js.DateNow (clock w 0) /\
           PullRequest.updatedAt r = Js.DateNow (clock w 1)
       end) /\
  (forall w orgUrl repo options project ready fetched,
     Azure.getProject repo = Returned project ->
     respond w [] Azure.connection_getGitApi = Resolved ready ->
     respond w [request Azure.connection_getGitApi]
       (Azure.gitApi_getPullRequests (Repository.repo repo)
          {| Azure.repositoryId := Repository.repo repo;
             Azure.criteria_status :=
               match optionsState options with
               | Some filter_all => 4
               | Some filter_closed => 4
               | _ => 1
               end |}
          project (optionsLimit options ?? 30)) = Resolved fetched ->
     exists rs,
       fst (run (Azure.listPullRequests orgUrl repo options) w) = Success rs /\
       Forall2
         (fun pr r =>
            match Azure.creationDate pr with
            | Some d => PullRequest.createdAt r = d /\ PullRequest.updatedAt r = d
            | None =>
                exists k,
                  PullRequest.createdAt r = Js.DateNow (clock w k) /\
                  PullRequest.updatedAt r = Js.DateNow (clock w (S k))
            end)
         match optionsState options with
         | Some filter_closed => filter Azure.isClosedStatus fetched
         | _ => fetched
         end
         rs) /\
  (forall w r,
     azure_produces w r ->
     exists pr,
       azure_delivers w pr /\
       match Azure.creationDate pr with
       | Some d => PullRequest.createdAt r = d /\ PullRequest.updatedAt r = d
       | None =>
           exists k,
             PullRequest.createdAt r = Js.DateNow (clock w k) /\
             PullRequest.updatedAt r = Js.DateNow (clock w (S k))
       end) /\
  (forall w r,
     always_dated w -> azure_produces w r ->
     PullRequest.updatedAt r = PullRequest.createdAt r).
Proof.
  split; [exact mapPullRequest_timestamps |].
  split; [exact azure_createPullRequest_stamped |].
  split; [exact azure_getPullRequest_stamped |].
  split; [exact azure_listPullRequests_stamped |].
  split; [exact azure_produces_stamped |].
  exact azure_produces_dated.
Qed.

Lemma C9_witness :
  exists r,
    fst (run (Azure.getPullRequest Fixture.orgUrl Fixture.azure_repo 1) Fixture.azure_world)
    = Success r /\
    match Azure.creationDate Fixture.azure_pr1 with
    | Some d => PullRequest.createdAt r = d /\ PullRequest.updatedAt r = d
    | None =>
        PullRequest.createdAt r = Js.DateNow (clock Fixture.azure_world 0) /\
        PullRequest.updatedAt r = Js.DateNow (clock Fixture.azure_world 1)
    end.
Proof.
  exact (proj1 (proj2 (proj2 C9_azure_timestamps)) Fixture.azure_world Fixture.orgUrl
           Fixture.azure_repo 1 "MyProject" tt Fixture.azure_pr1 eq_refl eq_refl eq_refl).
Defined.

(** C9 does not hold as stated. A pull request without [creationDate],
    read while the clock advances between the two readings, comes back
    with [updatedAt] different from [createdAt]. *)
Lemma C9_counterexample :
  exists r,
    Azure.creationDate Fixture.azure_pr3 = None /\
    fst (run (Azure.getPullRequest Fixture.orgUrl Fixture.azure_repo 3) Fixture.azure_world)
    = Success r /\
    PullRequest.createdAt r = Js.DateNow 1000 /\
    PullRequest.updatedAt r = Js.DateNow 1001 /\
    PullRequest.updatedAt r <> PullRequest.createdAt r.
Proof.
  eexists. split; [reflexivity |]. split; [reflexivity |].
  split; [reflexivity |]. split; [reflexivity |]. discriminate.
Qed.

(** ** A created branch is reported unprotected (C8) *)

Lemma github_createBranch_unprotected w repo input b :
  fst (run (GitHub.createBranch repo input) w) = Success b -> Branch.protected b = false.
Proof.
  unfold GitHub.createBranch. run_op. repeat step; conclude.
Qed.

Lemma azure_createBranch_unprotected w repo input b :
  fst (run (Azure.createBranch repo input) w) = Success b -> Branch.protected b = false.
Proof.
  unfold Azure.createBranch. run_op.
  destruct (Azure.getProject repo) as [project | t]; simpl; [| discriminate].
  repeat step; conclude.
Qed.

(** C8. Every [Branch] that [createBranch] of the GitHub or of the Azure
    DevOps adapter returns has [protected = false], whatever the backend
    answers. *)
Theorem C8_created_branch_unprotected :
  (forall w repo input b,
     fst (run (GitHub.createBranch repo input) w) = Success b ->
     Branch.protected b = false) /\
  (forall w repo input b,
     fst (run (Azure.createBranch repo input) w) = Success b ->
     Branch.protected b = false).
Proof.
  split; [exact github_createBranch_unprotected | exact azure_createBranch_unprotected].
Qed.

Lemma C8_witness :
  (exists b,
     fst (run (GitHub.createBranch Fixture.octo_repo Fixture.new_feature)
            Fixture.github_world) = Success b /\
     Branch.protected b = false /\
     exists read,
       fst (run (GitHub.getBranch Fixture.octo_repo (Branch.name b)) Fixture.github_world)
       = Success read /\
       Branch.protected read = true) /\
  (exists b,
     fst (run (Azure.createBranch Fixture.azure_repo Fixture.new_feature)
            Fixture.azure_world) = Success b /\
     Branch.protected b = false /\
     exists read,
       fst (run (Azure.getBranch Fixture.azure_repo (Branch.name b)) Fixture.azure_world)
       = Success read /\
       Branch.protected read = true).
Proof.
  split.
  - eexists. split; [reflexivity |]. split.
    + exact (proj1 C8_created_branch_unprotected Fixture.github_world Fixture.octo_repo
               Fixture.new_feature _ eq_refl).
    + eexists. split; reflexivity.
  - eexists. split; [reflexivity |]. split.
    + exact (proj2 C8_created_branch_unprotected Fixture.azure_world Fixture.azure_repo
               Fixture.new_feature _ eq_refl).
    + eexists. split; reflexivity.
Defined.

(** ** Every failure goes through [mapError] or an inline check *)

Lemma gitlab_mapError_rate_limit t m op :
  errorMessage t = Some m ->
  mentions m "401" "unauthorized" = false ->
  mentions m "404" "not found" = false ->
  mentions m "422" "invalid" = false ->
  mentions m "429" "rate limit" = true ->
  GitLab.mapError t op = RateLimitError gitlab None.
Proof.
  unfold mentions, GitLab.mapError. intros -> -> -> -> ->. reflexivity.
Qed.

Lemma azure_mapError_rate_limit t m op :
  errorMessage t = Some m ->
  mentions m "401" "unauthorized" = false ->
  mentions m "404" "not found" = false ->
  mentions m "400" "invalid" = false ->
  mentions m "429" "rate limit" = true ->
  Azure.mapError t op = RateLimitError azure_devops None.
Proof.
  unfold mentions, Azure.mapError. intros -> -> -> -> ->. reflexivity.
Qed.

Lemma gitlab_mapError_generic t op :
  (forall m, errorMessage t = Some m ->
     mentions m "401" "unauthorized" = false /\
     mentions m "404" "not found" = false /\
     mentions m "422" "invalid" = false /\
     mentions m "429" "rate limit" = false) ->
  GitLab.mapError t op = GitForgeError gitlab op (messageOrString t) t.
Proof.
  unfold mentions, GitLab.mapError. intro H.
  destruct (errorMessage t) as [m |]; [| reflexivity].
  destruct (H m eq_refl) as (-> & -> & -> & ->). reflexivity.
Qed.

Lemma azure_mapError_generic t op :
  (forall m, errorMessage t = Some m ->
     mentions m "401" "unauthorized" = false /\
     mentions m "404" "not found" = false /\
     mentions m "400" "invalid" = false /\
     mentions m "429" "rate limit" = false) ->
  Azure.mapError t op = GitForgeError azure_devops op (messageOrString t) t.
Proof.
  unfold mentions, Azure.mapError. intro H.
  destruct (errorMessage t) as [m |]; [| reflexivity].
  destruct (H m eq_refl) as (-> & -> & -> & ->). reflexivity.
Qed.

(** A [GitForgeError] made by [mapError] names the provider of the
    adapter and the operation that [mapError] was given. *)
Lemma mapErrorOf_generic_operation p t op p' op' m cause :
  mapErrorOf p t op = GitForgeError p' op' m cause ->
  p' = p /\ op' = op /\ m = messageOrString t /\ cause = t.
Proof.
  destruct p; simpl.
  - unfold GitHub.mapError.
    destruct t as [msg [status |] header | text | e];
      repeat match goal with
             | |- context [if ?c then _ else _] => destruct c; try discriminate
             end;
      intro H; inversion H; auto.
  - unfold GitLab.mapError.
    destruct (errorMessage t);
      repeat match goal with
             | |- context [if ?c then _ else _] => destruct c; try discriminate
             end;
      intro H; inversion H; auto.
  - unfold Azure.mapError.
    destruct (errorMessage t);
      repeat match goal with
             | |- context [if ?c then _ else _] => destruct c; try discriminate
             end;
      intro H; inversion H; auto.
Qed.

Ltac by_mapError := left; eexists; reflexivity.

Ltac settle_handler H :=
  apply run_failure in H; destruct H as [t H]; subst;
  first
    [ by_mapError
    | match goal with
      | |- context [if ?c then _ else _] =>
          destruct c; [right; left; eexists; eexists; eexists; reflexivity | by_mapError]
      end
    | destruct t as [? ? ? | ? | []];
      first [ by_mapError
            | right; left; eexists; eexists; eexists; reflexivity
            | right; right; eexists; eexists; eexists; reflexivity ] ].

Lemma azure_commitFile_failure w repo input e tr :
  run (Azure.commitFile repo input) w = (Failure e, tr) ->
  (exists t, e = Azure.mapError t "commitFile") \/
  (exists p r i, e = NotFoundError p r i).
Proof.
  unfold Azure.commitFile, Azure.getLatestRef, Azure.pushFile. run_op.
  destruct (Azure.getProject repo) as [project | t]; simpl; [| discriminate].
  destruct (respond w [] Azure.connection_getGitApi) as [ready | t]; simpl.
  2: { intro H; inversion H. left. now exists t. }
  destruct (respond w [_] _) as [refs | t]; simpl.
  2: { intro H; inversion H.
       destruct t as [? ? ? | ? | []];
         first [ left; eexists; reflexivity | right; eexists; eexists; eexists; reflexivity ]. }
  destruct (Azure.truthyObjectId (Js.first refs)) as [oid |]; simpl.
  2: { intro H; inversion H. right. eexists. eexists. eexists. reflexivity. }
  destruct (respond w [_; _] _) as [push | t1]; simpl; [discriminate |].
  destruct (respond w [_; _; _] _) as [push | t2]; simpl; [discriminate |].
  intro H; inversion H. left. now exists t2.
Qed.

(** Every typed failure of every operation is the result of the
    adapter's [mapError] for that very operation, or a [NotFoundError]
    or a [ValidationError] of an inline check. *)
Lemma failure_origin p op e :
  fails_with p op e ->
  (exists t, e = mapErrorOf p t op) \/
  (exists p' r i, e = NotFoundError p' r i) \/
  (exists p' m f, e = ValidationError p' m f).
Proof.
  intro F. destruct F as
    [ w repo input e tr H | w repo name e tr H | w repo e tr H | w repo input e tr H
    | w repo input e tr H | w repo number e tr H | w repo options e tr H
    | w repo input e tr H | w repo name e tr H | w repo e tr H
    | w repo input e tr H | w repo number e tr H | w repo options e tr H
    | w repo input e tr H | w repo name e tr H | w repo e tr H | w repo input e tr H
    | w orgUrl repo input e tr H | w orgUrl repo number e tr H | w orgUrl repo options e tr H ];
    simpl.
  17: { apply azure_commitFile_failure in H. tauto. }
  all: settle_handler H.
Qed.

(** X1. When an operation of any adapter fails with a [GitForgeError],
    that error names the adapter's provider and the operation itself:
    the catch-all kind always tells which operation was in flight. *)
Theorem generic_failure_names_operation p op e p' op' m cause :
  fails_with p op e ->
  e = GitForgeError p' op' m cause ->
  p' = p /\ op' = op.
Proof.
  intros F E. destruct (failure_origin F) as [[t H] | [(q & r & i & H) | (q & msg & f & H)]];
    subst; try discriminate.
  symmetry in H. apply mapErrorOf_generic_operation in H. tauto.
Qed.

Lemma generic_failure_names_operation_witness :
  gitlab = gitlab /\ "listBranches" = "listBranches".
Proof.
  exact (generic_failure_names_operation
           (gitlab_listBranches_fails
              (Fixture.rejecting GitLab.Call (JsError "403 Forbidden" None None))
              Fixture.acme_widgets eq_refl)
           eq_refl).
Defined.

(** X2. The classification of [mapError]. On GitHub, status 401 or 403
    gives [AuthenticationError], status 429 gives [RateLimitError], and
    an error with none of the statuses 401, 403, 404, 422, 429 gives the
    [GitForgeError] of the operation. On GitLab and Azure DevOps, a
    message with ["401"] or ["unauthorized"] gives
    [AuthenticationError]; one with ["429"] or ["rate limit"] and with
    none of the substrings of the earlier rules gives [RateLimitError];
    one with none of the substrings gives the [GitForgeError] of the
    operation. *)
Theorem mapError_classification :
  (forall m status header op,
     status = 401%Z \/ status = 403%Z ->
     GitHub.mapError (JsError m (Some status) header) op = AuthenticationError github m) /\
  (forall m header op,
     exists retryAfter,
       GitHub.mapError (JsError m (Some 429%Z) header) op
       = RateLimitError github retryAfter) /\
  (forall t op,
     (forall m status header,
        t = JsError m (Some status) header ->
        status <> 401 /\ status <> 403 /\ status <> 404 /\ status <> 422 /\ status <> 429)%Z ->
     GitHub.mapError t op = GitForgeError github op (messageOrString t) t) /\
  (forall t m op,
     errorMessage t = Some m ->
     mentions m "401" "unauthorized" = true ->
     GitLab.mapError t op = AuthenticationError gitlab m /\
     Azure.mapError t op = AuthenticationError azure_devops m) /\
  (forall t m op,
     errorMessage t = Some m ->
     mentions m "401" "unauthorized" = false ->
     mentions m "404" "not found" = false ->
     mentions m "429" "rate limit" = true ->
     (mentions m "422" "invalid" = false ->
      GitLab.mapError t op = RateLimitError gitlab None) /\
     (mentions m "400" "invalid" = false ->
      Azure.mapError t op = RateLimitError azure_devops None)) /\
  (forall t op,
     (forall m, errorMessage t = Some m ->
        mentions m "401" "unauthorized" = false /\
        mentions m "404" "not found" = false /\
        mentions m "422" "invalid" = false /\
        mentions m "429" "rate limit" = false) ->
     GitLab.mapError t op = GitForgeError gitlab op (messageOrString t) t) /\
  (forall t op,
     (forall m, errorMessage t = Some m ->
        mentions m "401" "unauthorized" = false /\
        mentions m "404" "not found" = false /\
        mentions m "400" "invalid" = false /\
        mentions m "429" "rate limit" = false) ->
     Azure.mapError t op = GitForgeError azure_devops op (messageOrString t) t).
Proof.
  split; [exact github_mapError_authentication |].
  split; [exact github_mapError_rate_limit |].
  split; [exact github_mapError_generic |].
  split.
  { intros t m op M A. split.
    - now apply gitlab_mapError_authentication.
    - now apply azure_mapError_authentication. }
  split.
  { intros t m op M A N R. split; intro V.
    - now apply gitlab_mapError_rate_limit with (m := m).
    - now apply azure_mapError_rate_limit with (m := m). }
  split; [exact gitlab_mapError_generic | exact azure_mapError_generic].
Qed.

(** The three-way state, function by function: [merged] wins on
    GitHub; ["merged"] and ["opened"] are the only native states of
    GitLab that do not end as [closed]; statuses 1 and 3 are the only
    ones of Azure DevOps that do not. *)
Lemma state_normalization :
  (forall state, GitHub.mapPrState state true = PullRequestState.merged) /\
  GitHub.mapPrState "open" false = PullRequestState.open /\
  (forall state, state <> "open" -> GitHub.mapPrState state false = PullRequestState.closed) /\
  GitLab.mapMrState "merged" = PullRequestState.merged /\
  GitLab.mapMrState "opened" = PullRequestState.open /\
  (forall state, state <> "merged" -> state <> "opened" ->
     GitLab.mapMrState state = PullRequestState.closed) /\
  Azure.mapPrState (Some 1%Z) = PullRequestState.open /\
  Azure.mapPrState (Some 3%Z) = PullRequestState.merged /\
  (forall status, status <> Some 1%Z -> status <> Some 3%Z ->
     Azure.mapPrState status = PullRequestState.closed).
Proof.
  repeat split.
  - intros state N. unfold GitHub.mapPrState.
    destruct (String.eqb_spec state "open"); congruence.
  - intros state N1 N2. unfold GitLab.mapMrState.
    destruct (String.eqb_spec state "merged"); [congruence |].
    destruct (String.eqb_spec state "opened"); congruence.
  - intros status N1 N2. unfold Azure.mapPrState.
    destruct status as [[| p | p] |]; try reflexivity.
    destruct p as [[p | p |] | p |]; try reflexivity; congruence.
Qed.

(** X5. [commitFile] on Azure DevOps pushes the file as an addition
    (change type 1) and, when that push is rejected, pushes the
    identical change once more as an edit (change type 2): both pushes
    update the ref of the input's branch from the same tip commit, with
    the input's message as comment, one change of the input's content
    (content type 0) at the input's path, and differ in the change type
    alone. The result carries the commit of the accepted push and the
    input's message. *)
Theorem azure_commitFile_add_then_edit w repo input project ready refs tip t1 pushed :
  Azure.getProject repo = Returned project ->
  respond w [] Azure.connection_getGitApi = Resolved ready ->
  respond w [request Azure.connection_getGitApi] (azure_tip repo project input)
  = Resolved refs ->
  Azure.truthyObjectId (Js.first refs) = Some tip ->
  respond w [request Azure.connection_getGitApi; request (azure_tip repo project input)]
    (azure_push repo project input tip 1) = Rejected t1 ->
  respond w
    [request Azure.connection_getGitApi; request (azure_tip repo project input);
     request (azure_push repo project input tip 1)]
    (azure_push repo project input tip 2) = Resolved pushed ->
  run (Azure.commitFile repo input) w
  = (Success {| CommitResult.sha :=
                  match Azure.commits pushed with
                  | Some (c :: _) => Azure.commitId c
                  | _ => None
                  end ?? "";
                CommitResult.message := CommitFileInput.message input |},
     [request Azure.connection_getGitApi;
      request (azure_tip repo project input);
      request (azure_push repo project input tip 1);
      request (azure_push repo project input tip 2)]) /\
  azure_tip repo project input
  = Azure.gitApi_getRefs (Repository.repo repo) project
      ("heads/" ++ CommitFileInput.branch input) /\
  (forall changeType,
     azure_push repo project input tip changeType
     = Azure.gitApi_createPush
         {| Azure.refUpdate_name := "refs/heads/" ++ CommitFileInput.branch input;
            Azure.refUpdate_oldObjectId := tip;
            Azure.comment := CommitFileInput.message input;
            Azure.changeType := changeType;
            Azure.item_path := "/" ++ CommitFileInput.path input;
            Azure.newContent_content := CommitFileInput.content input;
            Azure.newContent_contentType := 0 |}
         (Repository.repo repo) project).
Proof.
  unfold azure_tip, azure_push. intros G H0 H1 T A E.
  split; [| split; reflexivity].
  unfold Azure.commitFile, Azure.getLatestRef, Azure.pushFile. run_op.
  rewrite G. simpl. rewrite H0. simpl. rewrite H1. simpl. rewrite T. simpl.
  rewrite A. simpl. rewrite E. reflexivity.
Qed.

Lemma azure_commitFile_add_then_edit_witness :
  run (Azure.commitFile Fixture.azure_repo Fixture.readme_commit)
    Fixture.azure_world_existing_file
  = (Success {| CommitResult.sha := Fixture.shaB; CommitResult.message := "Update README" |},
     [request Azure.connection_getGitApi;
      request (azure_tip Fixture.azure_repo "MyProject" Fixture.readme_commit);
      request (azure_push Fixture.azure_repo "MyProject" Fixture.readme_commit
                 Fixture.shaA 1);
      request (azure_push Fixture.azure_repo "MyProject" Fixture.readme_commit
                 Fixture.shaA 2)]).
Proof.
  exact (proj1 (azure_commitFile_add_then_edit
                  Fixture.azure_world_existing_file Fixture.azure_repo Fixture.readme_commit
                  (project := "MyProject") (ready := tt) (refs := [Fixture.azure_ref "main"])
                  (tip := Fixture.shaA)
                  (t1 := JsError "The path /README.md already exists" None None)
                  (pushed := Fixture.azure_pushed)
                  eq_refl eq_refl eq_refl eq_refl eq_refl eq_refl)).
Defined.

(* ------------------------------------------------------------------ *)
(** * Properties of the service as a whole *)

Lemma replyWith_run E A (wrap : A -> Reply) (m : Effect E A) w :
  run (replyWith wrap m) w
  = (match fst (run m w) with
     | Success a => Success (wrap a)
     | Failure e => Failure e
     | Die t => Die t
     end,
     snd (run m w)).
Proof.
  unfold run, replyWith. destruct (m w initial) as [[a | e | t] s]; reflexivity.
Qed.

Lemma tryPromise_typed E A (body : Async E A) (handler : Thrown -> ForgeError) w :
  (exists a, fst (run (tryPromise body handler) w) = Success a) \/
  (exists e, fst (run (tryPromise body handler) w) = Failure e).
Proof.
  unfold run, tryPromise. destruct (body w initial) as [[a | t] s]; simpl; eauto.
Qed.

Lemma replyWith_typed E A (wrap : A -> Reply) (m : Effect E A) w :
  ((exists a, fst (run m w) = Success a) \/ (exists e, fst (run m w) = Failure e)) ->
  (exists r, fst (run (replyWith wrap m) w) = Success r) \/
  (exists e, fst (run (replyWith wrap m) w) = Failure e).
Proof.
  rewrite replyWith_run. simpl.
  intros [[a H] | [e H]]; rewrite H; eauto.
Qed.

Lemma getProject_cases repo :
  (lacksProject repo /\ Azure.getProject repo = Threw (Tagged Azure.projectRequired)) \/
  (exists project,
     Repository.project repo = Some project /\ project <> "" /\
     Azure.getProject repo = Returned project).
Proof.
  unfold lacksProject, Azure.getProject.
  destruct (Repository.project repo) as [[| c p] |]; simpl.
  - left. auto.
  - right. exists (String c p). repeat split. discriminate.
  - left. auto.
Qed.

Lemma getProject_lacking repo :
  lacksProject repo -> Azure.getProject repo = Threw (Tagged Azure.projectRequired).
Proof.
  intro L. destruct (getProject_cases repo) as [[_ H] | (p & E & N & _)]; [exact H |].
  destruct L as [L | L]; rewrite L in E; congruence.
Qed.

Lemma azure_commitFile_typed w repo input project :
  Azure.getProject repo = Returned project ->
  (exists c, fst (run (Azure.commitFile repo input) w) = Success c) \/
  (exists e, fst (run (Azure.commitFile repo input) w) = Failure e).
Proof.
  intro G. unfold Azure.commitFile, Azure.getLatestRef, Azure.pushFile. run_op.
  rewrite G. simpl. repeat step; eauto.
Qed.

(** X10. Every call of the six operations on a service made by
    [createGitForge] ends with a value or with a typed failure, never
    with a defect; so does [commitFile] on GitLab. [commitFile] on Azure
    DevOps ends with a defect, the thrown [ValidationError], exactly
    when the repository lacks its project. *)
Theorem failures_are_typed :
  (forall config (w : World (callsOf config)) call,
     (exists r, fst (run (invoke (createGitForge config) call) w) = Success r) \/
     (exists e, fst (run (invoke (createGitForge config) call) w) = Failure e)) /\
  (forall w repo input,
     (exists c, fst (run (GitLab.commitFile repo input) w) = Success c) \/
     (exists e, fst (run (GitLab.commitFile repo input) w) = Failure e)) /\
  (forall w repo input,
     lacksProject repo ->
     run (Azure.commitFile repo input) w = (Die (Tagged Azure.projectRequired), [])) /\
  (forall w repo input,
     ~ lacksProject repo ->
     (exists c, fst (run (Azure.commitFile repo input) w) = Success c) \/
     (exists e, fst (run (Azure.commitFile repo input) w) = Failure e)).
Proof.
  split; [| split; [| split]].
  - intros config w call. destruct config as [c | c | c], call; simpl;
      apply replyWith_typed; apply tryPromise_typed.
  - intros w repo input. apply tryPromise_typed.
  - intros w repo input L. unfold Azure.commitFile. run_op.
    now rewrite (getProject_lacking L).
  - intros w repo input N.
    destruct (getProject_cases repo) as [[L _] | (p & _ & _ & G)]; [contradiction |].
    now apply azure_commitFile_typed with (project := p).
Qed.

Lemma failures_are_typed_witness :
  run (Azure.commitFile Fixture.azure_repo_without_project Fixture.readme_commit)
    Fixture.azure_world
  = (Die (Tagged Azure.projectRequired), []).
Proof.
  exact (proj1 (proj2 (proj2 failures_are_typed)) Fixture.azure_world
           Fixture.azure_repo_without_project Fixture.readme_commit (or_introl eq_refl)).
Defined.

(** X12. The GitHub and the GitLab adapter never read [project]: a call
    of any operation runs the same, request for request, whatever the
    [project] of the repository. *)
Theorem project_is_read_by_azure_only :
  (forall c w call project,
     run (invoke (createGitForge (github_config c)) (withProject project call)) w
     = run (invoke (createGitForge (github_config c)) call) w) /\
  (forall c w call project,
     run (invoke (createGitForge (gitlab_config c)) (withProject project call)) w
     = run (invoke (createGitForge (gitlab_config c)) call) w) /\
  (forall w repo input project,
     run (GitLab.commitFile
            (Repository.make (Repository.provider repo) (Repository.owner repo)
               (Repository.repo repo) project) input) w
     = run (GitLab.commitFile repo input) w).
Proof.
  split; [| split].
  - intros c w call project. destruct call; reflexivity.
  - intros c w call project. destruct call; reflexivity.
  - intros w repo input project. reflexivity.
Qed.

Lemma mapPullRequest_returns pr orgUrl (w : World Azure.Call) s :
  exists r s', Azure.mapPullRequest pr orgUrl w s = (Returned r, s') /\ trace s' = trace s.
Proof.
  destruct (mapPullRequest_spec pr orgUrl w s) as (r & s' & R & T & _).
  now exists r, s'.
Qed.

Lemma mapPullRequests_returns orgUrl (w : World Azure.Call) prs s :
  exists rs s',
    mapAsync (fun pr => Azure.mapPullRequest pr orgUrl) prs w s = (Returned rs, s') /\
    trace s' = trace s /\ length rs = length prs.
Proof.
  destruct (mapPullRequests_spec orgUrl w prs s) as (rs & s' & R & T & F & _).
  exists rs, s'. repeat split; auto. symmetry. eapply Forall2_length. exact F.
Qed.

Ltac settle_mapping :=
  match goal with
  | |- context [Azure.mapPullRequest ?pr ?u ?w ?s] =>
      let r := fresh "r" in let s' := fresh "s'" in
      let R := fresh "R" in let T := fresh "T" in
      destruct (mapPullRequest_returns pr u w s) as (r & s' & R & T);
      rewrite R; simpl; try rewrite T; simpl
  | |- context [mapAsync (fun pr => Azure.mapPullRequest pr ?u) ?prs ?w ?s] =>
      let rs := fresh "rs" in let s' := fresh "s'" in
      let R := fresh "R" in let T := fresh "T" in let L := fresh "L" in
      destruct (mapPullRequests_returns u w prs s) as (rs & s' & R & T & L);
      rewrite R; simpl; try rewrite T; simpl
  end.

Lemma azure_operation_bound (c : AzureDevOpsConfig.t) (w : World Azure.Call) call :
  (length (snd (run (invoke (createAzureDevOpsProvider c) call) w)) <= 4)%nat.
Proof.
  rewrite (surjective_pairing (run _ w)).
  destruct call; simpl; rewrite replyWith_run; simpl;
    [ unfold Azure.createBranch | unfold Azure.getBranch | unfold Azure.listBranches
    | unfold Azure.createPullRequest | unfold Azure.getPullRequest
    | unfold Azure.listPullRequests ];
    run_op;
    (destruct (Azure.getProject repo) as [project | t]; simpl; [| lia]);
    repeat first [ settle_mapping | step ]; simpl; lia.
Qed.

(** X15. No operation issues more than a handful of requests: at most
    three on GitHub and GitLab, at most four on Azure DevOps, for every
    backend and input, [commitFile] included. *)
Theorem operations_issue_few_requests :
  (forall config (w : World (callsOf config)) call,
     (length (snd (run (invoke (createGitForge config) call) w))
      <= match configType config with azure_devops => 4 | _ => 3 end)%nat) /\
  (forall w repo input, (length (snd (run (GitLab.commitFile repo input) w)) <= 3)%nat) /\
  (forall w repo input, (length (snd (run (Azure.commitFile repo input) w)) <= 4)%nat).
Proof.
  split; [| split].
  - intros config w call. destruct config as [c | c | c].
    + simpl in *. destruct call; simpl; rewrite replyWith_run; simpl;
        [ unfold GitHub.createBranch | unfold GitHub.getBranch | unfold GitHub.listBranches
        | unfold GitHub.createPullRequest | unfold GitHub.getPullRequest
        | unfold GitHub.listPullRequests ];
        run_op; repeat step; simpl; lia.
    + simpl in *. destruct call; simpl; rewrite replyWith_run; simpl;
        [ unfold GitLab.createBranch | unfold GitLab.getBranch | unfold GitLab.listBranches
        | unfold GitLab.createPullRequest | unfold GitLab.getPullRequest
        | unfold GitLab.listPullRequests ];
        run_op; repeat step; simpl; lia.
    + apply azure_operation_bound.
  - intros w repo input. unfold GitLab.commitFile. run_op. repeat step; simpl; lia.
  - intros w repo input.
    unfold Azure.commitFile, Azure.getLatestRef, Azure.pushFile. run_op.
    destruct (Azure.getProject repo) as [project | t]; simpl; [| lia].
    repeat step; simpl; lia.
Qed.

(** X14. The Azure DevOps adapter never contacts the backend for a
    repository without a project: when [project] is absent or empty,
    each of the six operations fails without having issued a request,
    and [commitFile] stops without having issued one. *)
Theorem azure_requires_project :
  (forall c w call,
     lacksProject (repositoryOf call) ->
     exists e,
       run (invoke (createGitForge (azure_devops_config c)) call) w = (Failure e, [])) /\
  (forall w repo input,
     lacksProject repo -> snd (run (Azure.commitFile repo input) w) = []) /\
  (forall c w call,
     snd (run (invoke (createGitForge (azure_devops_config c)) call) w) <> [] ->
     exists project,
       Repository.project (repositoryOf call) = Some project /\ project <> "").
Proof.
  assert (forall c w call,
            lacksProject (repositoryOf call) ->
            exists e,
              run (invoke (createGitForge (azure_devops_config c)) call) w
              = (Failure e, [])) as A.
  { intros c w call L. apply getProject_lacking in L.
    destruct call; simpl in *; rewrite replyWith_run;
      [ unfold Azure.createBranch | unfold Azure.getBranch | unfold Azure.listBranches
      | unfold Azure.createPullRequest | unfold Azure.getPullRequest
      | unfold Azure.listPullRequests ];
      run_op; rewrite L; simpl; eexists; reflexivity. }
  split; [exact A | split].
  - intros w repo input L. unfold Azure.commitFile. run_op.
    now rewrite (getProject_lacking L).
  - intros c w call N.
    destruct (getProject_cases (repositoryOf call)) as [[L _] | (p & E & P & _)].
    + destruct (A c w call L) as [e R]. rewrite R in N. now contradiction N.
    + now exists p.
Qed.

Lemma azure_requires_project_witness :
  exists e,
    run (invoke
           (createGitForge
              (azure_devops_config (AzureDevOpsConfig.make "token" Fixture.orgUrl)))
           (GetPullRequest Fixture.azure_repo_without_project 1))
      Fixture.azure_world
    = (Failure e, []).
Proof.
  exact (proj1 azure_requires_project (AzureDevOpsConfig.make "token" Fixture.orgUrl)
           Fixture.azure_world (GetPullRequest Fixture.azure_repo_without_project 1)
           (or_introl eq_refl)).
Defined.

(** ** The provider of a failure *)

Lemma github_mapError_provider t op : errorProvider (GitHub.mapError t op) = github.
Proof.
  unfold GitHub.mapError. destruct t as [m [status |] header | text | e]; try reflexivity.
  repeat match goal with
         | |- context [if ?c then _ else _] => destruct c
         end; reflexivity.
Qed.

Lemma gitlab_mapError_provider t op : errorProvider (GitLab.mapError t op) = gitlab.
Proof.
  unfold GitLab.mapError. destruct (errorMessage t); try reflexivity.
  repeat match goal with
         | |- context [if ?c then _ else _] => destruct c
         end; reflexivity.
Qed.

Lemma azure_mapError_provider t op : errorProvider (Azure.mapError t op) = azure_devops.
Proof.
  unfold Azure.mapError. destruct (errorMessage t); try reflexivity.
  repeat match goal with
         | |- context [if ?c then _ else _] => destruct c
         end; reflexivity.
Qed.

Lemma replyWith_failure E A (wrap : A -> Reply) (m : Effect E A) w e tr :
  run (replyWith wrap m) w = (Failure e, tr) -> run m w = (Failure e, tr).
Proof.
  rewrite replyWith_run. rewrite (surjective_pairing (run m w)).
  destruct (fst (run m w)); intro H; inversion H; reflexivity.
Qed.

(** On a natively rejecting backend, a reason that an Azure DevOps
    operation hands to its [catch] clause is a native one or an error
    the adapter threw itself. *)
Ltac own_or_native N :=
  repeat first
    [ settle_mapping
    | match goal with
      | |- context [match respond ?w ?h ?c with _ => _ end] =>
          let R := fresh "R" in
          destruct (respond w h c) as [? | [? ? ? | ? | ?]] eqn:R; simpl;
          [ | | | exfalso; exact (N _ _ _ _ R) ]
      | |- context [match ?x with Some _ => _ | None => _ end] => destruct x eqn:?; simpl
      | |- context [if ?c then _ else _] => destruct c eqn:?; simpl
      end ];
  try (let K := fresh "K" in
       intro K; inversion K; subst; simpl;
       first [ reflexivity | apply azure_mapError_provider ]).

Lemma azure_failure_provider (c : AzureDevOpsConfig.t) (w : World Azure.Call) call e tr :
  rejects_natively w ->
  run (invoke (createAzureDevOpsProvider c) call) w = (Failure e, tr) ->
  errorProvider e = azure_devops.
Proof.
  intros N H. destruct call; simpl in H; apply replyWith_failure in H; revert H;
    [ unfold Azure.createBranch | unfold Azure.getBranch | unfold Azure.listBranches
    | unfold Azure.createPullRequest | unfold Azure.getPullRequest
    | unfold Azure.listPullRequests ];
    run_op;
    (destruct (Azure.getProject repo) as [project | t] eqn:G; simpl;
     [ | destruct (getProject_cases repo) as [[_ G'] | (p & _ & _ & G')];
         rewrite G' in G; inversion G; subst; simpl;
         let K := fresh "K" in
         intro K; inversion K; subst; simpl;
         first [ reflexivity | apply azure_mapError_provider ] ]);
    own_or_native N.
Qed.

Lemma azure_commitFile_provider (w : World Azure.Call) repo input e tr :
  rejects_natively w ->
  run (Azure.commitFile repo input) w = (Failure e, tr) ->
  errorProvider e = azure_devops.
Proof.
  intro N. unfold Azure.commitFile, Azure.getLatestRef, Azure.pushFile. run_op.
  destruct (Azure.getProject repo) as [project | t]; simpl; [| discriminate].
  own_or_native N.
Qed.

(** X11. A failure carries the provider of the adapter that produced
    it: every typed failure of a call on the service made by
    [createGitForge] for a configuration has the [type] of that
    configuration as its [provider], and so has every failure of
    [commitFile], as long as the backend client rejects with errors of
    its own. *)
Theorem failure_names_the_provider :
  (forall config (w : World (callsOf config)) call e tr,
     rejects_natively w ->
     run (invoke (createGitForge config) call) w = (Failure e, tr) ->
     errorProvider e = configType config) /\
  (forall w repo input e tr,
     run (GitLab.commitFile repo input) w = (Failure e, tr) ->
     errorProvider e = gitlab) /\
  (forall w repo input e tr,
     rejects_natively w ->
     run (Azure.commitFile repo input) w = (Failure e, tr) ->
     errorProvider e = azure_devops).
Proof.
  split; [| split].
  - intros config w call e tr N H. destruct config as [c | c | c]; simpl in *.
    + destruct call; simpl in H; apply replyWith_failure in H;
        apply run_failure in H; destruct H as [t H]; subst;
        try apply github_mapError_provider;
        destruct (GitHub.hasStatus404 t); try reflexivity; apply github_mapError_provider.
    + destruct call; simpl in H; apply replyWith_failure in H;
        apply run_failure in H; destruct H as [t H]; subst;
        try apply gitlab_mapError_provider;
        destruct (GitLab.saysNotFound t); try reflexivity; apply gitlab_mapError_provider.
    + eapply azure_failure_provider; eauto.
  - intros w repo input e tr H. apply run_failure in H. destruct H as [t H]. subst.
    apply gitlab_mapError_provider.
  - intros w repo input e tr N H. eapply azure_commitFile_provider; eauto.
Qed.

Lemma failure_names_the_provider_witness :
  exists e tr,
    run (invoke (createGitForge (github_config (GitHubConfig.make "token" None)))
           (ListBranches Fixture.octo_repo))
      (Fixture.rejecting GitHub.Call (JsError "Bad credentials" (Some 401%Z) None))
    = (Failure e, tr) /\
    errorProvider e = github.
Proof.
  do 2 eexists. split; [reflexivity |].
  refine (proj1 failure_names_the_provider
            (github_config (GitHubConfig.make "token" None))
            (Fixture.rejecting GitHub.Call (JsError "Bad credentials" (Some 401%Z) None))
            (ListBranches Fixture.octo_repo) _ _ _ eq_refl).
  intros history T c e H. discriminate H.
Defined.

(** ** The default branch *)






(** ** The options of [listPullRequests] *)

(** X8. On every adapter, leaving out the options of
    [listPullRequests], or its [state], or its [limit], is the same as
    passing [state: "open"] and [limit: 30]: the call runs alike,
    request for request. With the defaults, GitHub is asked for state
    ["open"] and 30 per page, GitLab for state ["opened"] and 30 per
    page, Azure DevOps for status 1 and the top 30. *)
Theorem listPullRequests_defaults :
  (forall w repo options,
     run (GitHub.listPullRequests repo options) w
     = run (GitHub.listPullRequests repo (withDefaults options)) w) /\
  (forall w repo options,
     run (GitLab.listPullRequests repo options) w
     = run (GitLab.listPullRequests repo (withDefaults options)) w) /\
  (forall w orgUrl repo options,
     run (Azure.listPullRequests orgUrl repo options) w
     = run (Azure.listPullRequests orgUrl repo (withDefaults options)) w) /\
  (forall w repo,
     snd (run (GitHub.listPullRequests repo None) w)
     = [request (GitHub.pulls_list (Repository.owner repo) (Repository.repo repo)
                   "open" 30)]) /\
  (forall w repo,
     snd (run (GitLab.listPullRequests repo None) w)
     = [request (GitLab.MergeRequests_all
                   (GitLab.getProjectId (Repository.owner repo) (Repository.repo repo))
                   (Some "opened") 30)]) /\
  (forall w orgUrl repo project ready,
     Azure.getProject repo = Returned project ->
     respond w [] Azure.connection_getGitApi = Resolved ready ->
     snd (run (Azure.listPullRequests orgUrl repo None) w)
     = [request Azure.connection_getGitApi;
        request (Azure.gitApi_getPullRequests (Repository.repo repo)
                   {| Azure.repositoryId := Repository.repo repo;
                      Azure.criteria_status := 1 |}
                   project 30)]).
Proof.
  split; [| split; [| split; [| split; [| split]]]].
  - intros w repo [[[[| |] |] [limit |]] |]; reflexivity.
  - intros w repo [[[[| |] |] [limit |]] |]; reflexivity.
  - intros w orgUrl repo [[[[| |] |] [limit |]] |]; reflexivity.
  - intros w repo. unfold GitHub.listPullRequests. run_op. now step.
  - intros w repo. unfold GitLab.listPullRequests. run_op. now step.
  - intros w orgUrl repo project ready G H0.
    unfold Azure.listPullRequests. run_op. rewrite G. simpl. rewrite H0. simpl.
    step; [| reflexivity]. now settle_mapping.
Qed.

(** ** Branch names on Azure DevOps *)

Lemma dropChars_append p s : Js.dropChars (String.length p) (p ++ s) = s.
Proof. induction p as [| c p IH]; simpl; [now destruct s | exact IH]. Qed.

Lemma replacePrefix_append p s : Js.replacePrefix p (p ++ s) = s.
Proof.
  unfold Js.replacePrefix.
  assert (String.prefix p (p ++ s) = true) as -> by (apply prefix_spec; now exists s).
  apply dropChars_append.
Qed.

Lemma extractBranchName_of_ref n :
  Azure.extractBranchName (Some ("refs/heads/" ++ n)) = n.
Proof.
  unfold Azure.extractBranchName.
  change (Js.truthy ("refs/heads/" ++ n)) with true.
  apply replacePrefix_append.
Qed.

Lemma extractBranchName_of_name r :
  r <> "" -> String.prefix "refs/heads/" r = false -> Azure.extractBranchName (Some r) = r.
Proof.
  intros N P. unfold Azure.extractBranchName, Js.replacePrefix. rewrite P.
  destruct r; [contradiction | reflexivity].
Qed.

Lemma azure_createPullRequest_echo w orgUrl repo input project ready pr :
  Azure.getProject repo = Returned project ->
  respond w [] Azure.connection_getGitApi = Resolved ready ->
  respond w [request Azure.connection_getGitApi]
    (Azure.gitApi_createPullRequest
       {| Azure.new_title := CreatePullRequestInput.title input;
          Azure.new_description := CreatePullRequestInput.description input;
          Azure.new_sourceRefName :=
            "refs/heads/" ++ CreatePullRequestInput.sourceBranch input;
          Azure.new_targetRefName :=
            "refs/heads/" ++ CreatePullRequestInput.targetBranch input;
          Azure.new_isDraft := CreatePullRequestInput.draft input ?? false |}
       (Repository.repo repo) project) = Resolved pr ->
  Azure.sourceRefName pr
  = Some ("refs/heads/" ++ CreatePullRequestInput.sourceBranch input) ->
  Azure.targetRefName pr
  = Some ("refs/heads/" ++ CreatePullRequestInput.targetBranch input) ->
  exists r,
    fst (run (Azure.createPullRequest orgUrl repo input) w) = Success r /\
    PullRequest.sourceBranch r = CreatePullRequestInput.sourceBranch input /\
    PullRequest.targetBranch r = CreatePullRequestInput.targetBranch input.
Proof.
  intros G H0 H1 S T. unfold Azure.createPullRequest. run_op.
  rewrite G. simpl. rewrite H0. simpl. rewrite H1. simpl.
  unfold Azure.mapPullRequest, bind. rewrite !orNow_spec.
  destruct (Azure.creationDate pr); simpl; eexists;
    (split; [reflexivity |]); simpl; rewrite S, T;
    split; apply extractBranchName_of_ref.
Qed.

(** X9. Branch names make the round trip through Azure DevOps refs.
    [extractBranchName] undoes the [refs/heads/] that the adapter puts
    in front of a branch name, leaves any other non-empty name alone,
    and answers ["unknown"] for an absent or empty ref. So when the
    backend answers [createPullRequest] with the refs it was sent, the
    returned [sourceBranch] and [targetBranch] are the branch names of
    the input. *)
Theorem azure_branch_names_round_trip :
  (forall n, Azure.extractBranchName (Some ("refs/heads/" ++ n)) = n) /\
  (forall r,
     r <> "" -> String.prefix "refs/heads/" r = false ->
     Azure.extractBranchName (Some r) = r) /\
  Azure.extractBranchName None = "unknown" /\
  Azure.extractBranchName (Some "") = "unknown" /\
  (forall w orgUrl repo input project ready pr,
     Azure.getProject repo = Returned project ->
     respond w [] Azure.connection_getGitApi = Resolved ready ->
     respond w [request Azure.connection_getGitApi]
       (Azure.gitApi_createPullRequest
          {| Azure.new_title := CreatePullRequestInput.title input;
             Azure.new_description := CreatePullRequestInput.description input;
             Azure.new_sourceRefName :=
               "refs/heads/" ++ CreatePullRequestInput.sourceBranch input;
             Azure.new_targetRefName :=
               "refs/heads/" ++ CreatePullRequestInput.targetBranch input;
             Azure.new_isDraft := CreatePullRequestInput.draft input ?? false |}
          (Repository.repo repo) project) = Resolved pr ->
     Azure.sourceRefName pr
     = Some ("refs/heads/" ++ CreatePullRequestInput.sourceBranch input) ->
     Azure.targetRefName pr
     = Some ("refs/heads/" ++ CreatePullRequestInput.targetBranch input) ->
     exists r,
       fst (run (Azure.createPullRequest orgUrl repo input) w) = Success r /\
       PullRequest.sourceBranch r = CreatePullRequestInput.sourceBranch input /\
       PullRequest.targetBranch r = CreatePullRequestInput.targetBranch input).
Proof.
  split; [exact extractBranchName_of_ref |].
  split; [exact extractBranchName_of_name |].
  split; [reflexivity |].
  split; [reflexivity |].
  exact azure_createPullRequest_echo.
Qed.

Lemma azure_branch_names_round_trip_witness :
  exists r,
    fst (run (Azure.createPullRequest Fixture.orgUrl Fixture.azure_repo
                Fixture.draft_request) Fixture.azure_world) = Success r /\
    PullRequest.sourceBranch r = "feature-x" /\
    PullRequest.targetBranch r = "main".
Proof.
  exact (proj2 (proj2 (proj2 (proj2 azure_branch_names_round_trip)))
           Fixture.azure_world Fixture.orgUrl Fixture.azure_repo Fixture.draft_request
           "MyProject" tt Fixture.azure_pr1 eq_refl eq_refl eq_refl eq_refl eq_refl).
Defined.

(** ** Committing a file *)

Lemma gitlab_commitFile_existing w repo input ok :
  respond w [] (gitlab_probe repo input) = Resolved ok ->
  exists rest,
    snd (run (GitLab.commitFile repo input) w)
    = request (gitlab_probe repo input) :: request (gitlab_edit repo input) :: rest /\
    (rest = [] \/ rest = [request (gitlab_tip repo input)]).
Proof.
  unfold gitlab_probe, gitlab_edit, gitlab_tip. intro H.
  unfold GitLab.commitFile. run_op. rewrite H. simpl.
  repeat step; eexists; split; try reflexivity; auto.
Qed.

Lemma gitlab_commitFile_missing w repo input t :
  respond w [] (gitlab_probe repo input) = Rejected t ->
  exists rest,
    snd (run (GitLab.commitFile repo input) w)
    = request (gitlab_probe repo input) :: request (gitlab_create repo input) :: rest /\
    (rest = [] \/ rest = [request (gitlab_tip repo input)]).
Proof.
  unfold gitlab_probe, gitlab_create, gitlab_tip. intro H.
  unfold GitLab.commitFile. run_op. rewrite H. simpl.
  repeat step; eexists; split; try reflexivity; auto.
Qed.

Lemma gitlab_commitFile_success w repo input c :
  fst (run (GitLab.commitFile repo input) w) = Success c ->
  CommitResult.message c = CommitFileInput.message input /\
  exists write tip,
    (write = request (gitlab_edit repo input) \/
     write = request (gitlab_create repo input)) /\
    respond w [request (gitlab_probe repo input); write] (gitlab_tip repo input)
    = Resolved tip /\
    CommitResult.sha c = GitLab.commit_id tip.
Proof.
  unfold gitlab_probe, gitlab_edit, gitlab_create, gitlab_tip.
  unfold GitLab.commitFile. run_op.
  destruct (respond w [] _) as [ok | t]; simpl.
  - destruct (respond w [_] _) as [written | t] eqn:W; simpl; [| discriminate].
    destruct (respond w [_; _] _) as [tip | t] eqn:T; simpl; [| discriminate].
    intro H. inversion H. subst. simpl. split; [reflexivity |].
    eexists. exists tip. split; [left; reflexivity |]. split; [exact T | reflexivity].
  - destruct (respond w [_] _) as [written | t'] eqn:W; simpl; [| discriminate].
    destruct (respond w [_; _] _) as [tip | t'] eqn:T; simpl; [| discriminate].
    intro H. inversion H. subst. simpl. split; [reflexivity |].
    eexists. exists tip. split; [right; reflexivity |]. split; [exact T | reflexivity].
Qed.

Lemma gitlab_commitFile_write_rejected w repo input t t' :
  respond w [] (gitlab_probe repo input) = Rejected t ->
  respond w [request (gitlab_probe repo input)] (gitlab_create repo input) = Rejected t' ->
  run (GitLab.commitFile repo input) w
  = (Failure (GitLab.mapError t' "commitFile"),
     [request (gitlab_probe repo input); request (gitlab_create repo input)]).
Proof.
  unfold gitlab_probe, gitlab_create. intros H W.
  unfold GitLab.commitFile. run_op. rewrite H. simpl. rewrite W. reflexivity.
Qed.

(** X7. [commitFile] on GitLab first probes for the file. When the
    probe is answered it edits the file and never creates it; when the
    probe is rejected, for whatever reason, it creates the file and
    never edits it, and that reason is dropped: a rejected write fails
    with the [mapError] of the write's own reason, and the branch is
    not read. On success the [sha] is the commit of the branch tip as
    read after the write, and the [message] is the one given. *)
Theorem gitlab_commitFile_create_or_edit :
  (forall w repo input ok,
     respond w [] (gitlab_probe repo input) = Resolved ok ->
     exists rest,
       snd (run (GitLab.commitFile repo input) w)
       = request (gitlab_probe repo input) :: request (gitlab_edit repo input) :: rest /\
       (rest = [] \/ rest = [request (gitlab_tip repo input)])) /\
  (forall w repo input t,
     respond w [] (gitlab_probe repo input) = Rejected t ->
     exists rest,
       snd (run (GitLab.commitFile repo input) w)
       = request (gitlab_probe repo input) :: request (gitlab_create repo input) :: rest /\
       (rest = [] \/ rest = [request (gitlab_tip repo input)])) /\
  (forall w repo input t t',
     respond w [] (gitlab_probe repo input) = Rejected t ->
     respond w [request (gitlab_probe repo input)] (gitlab_create repo input)
     = Rejected t' ->
     run (GitLab.commitFile repo input) w
     = (Failure (GitLab.mapError t' "commitFile"),
        [request (gitlab_probe repo input); request (gitlab_create repo input)])) /\
  (forall w repo input c,
     fst (run (GitLab.commitFile repo input) w) = Success c ->
     CommitResult.message c = CommitFileInput.message input /\
     exists write tip,
       (write = request (gitlab_edit repo input) \/
        write = request (gitlab_create repo input)) /\
       respond w [request (gitlab_probe repo input); write] (gitlab_tip repo input)
       = Resolved tip /\
       CommitResult.sha c = GitLab.commit_id tip).
Proof.
  split; [exact gitlab_commitFile_existing |].
  split; [exact gitlab_commitFile_missing |].
  split; [exact gitlab_commitFile_write_rejected | exact gitlab_commitFile_success].
Qed.

Lemma gitlab_commitFile_create_or_edit_witness :
  exists rest,
    snd (run (GitLab.commitFile Fixture.acme_widgets Fixture.readme_commit)
           Fixture.gitlab_world)
    = request (gitlab_probe Fixture.acme_widgets Fixture.readme_commit)
      :: request (gitlab_create Fixture.acme_widgets Fixture.readme_commit) :: rest /\
    (rest = [] \/ rest = [request (gitlab_tip Fixture.acme_widgets Fixture.readme_commit)]).
Proof.
  exact (proj1 (proj2 gitlab_commitFile_create_or_edit)
           Fixture.gitlab_world Fixture.acme_widgets Fixture.readme_commit
           (JsError "401 Unauthorized" None None) eq_refl).
Defined.

Lemma azure_commitFile_no_tip w repo input project ready refs :
  Azure.getProject repo = Returned project ->
  respond w [] Azure.connection_getGitApi = Resolved ready ->
  respond w [request Azure.connection_getGitApi] (azure_tip repo project input)
  = Resolved refs ->
  Azure.truthyObjectId (Js.first refs) = None ->
  run (Azure.commitFile repo input) w
  = (Failure (NotFoundError azure_devops Resource.branch (CommitFileInput.branch input)),
     [request Azure.connection_getGitApi; request (azure_tip repo project input)]).
Proof.
  unfold azure_tip. intros G H0 H1 T.
  unfold Azure.commitFile, Azure.getLatestRef, Azure.pushFile. run_op.
  rewrite G. simpl. rewrite H0. simpl. rewrite H1. simpl. now rewrite T.
Qed.

Lemma azure_commitFile_both_rejected w repo input project ready refs tip t1 t2 :
  Azure.getProject repo = Returned project ->
  respond w [] Azure.connection_getGitApi = Resolved ready ->
  respond w [request Azure.connection_getGitApi] (azure_tip repo project input)
  = Resolved refs ->
  Azure.truthyObjectId (Js.first refs) = Some tip ->
  respond w [request Azure.connection_getGitApi; request (azure_tip repo project input)]
    (azure_push repo project input tip 1) = Rejected t1 ->
  respond w
    [request Azure.connection_getGitApi; request (azure_tip repo project input);
     request (azure_push repo project input tip 1)]
    (azure_push repo project input tip 2) = Rejected t2 ->
  run (Azure.commitFile repo input) w
  = (Failure (Azure.mapError t2 "commitFile"),
     [request Azure.connection_getGitApi; request (azure_tip repo project input);
      request (azure_push repo project input tip 1);
      request (azure_push repo project input tip 2)]).
Proof.
  unfold azure_tip, azure_push. intros G H0 H1 T P1 P2.
  unfold Azure.commitFile, Azure.getLatestRef, Azure.pushFile. run_op.
  rewrite G. simpl. rewrite H0. simpl. rewrite H1. simpl. rewrite T. simpl.
  rewrite P1. simpl. rewrite P2. reflexivity.
Qed.

Lemma azure_commitFile_added w repo input project ready refs tip pushed :
  Azure.getProject repo = Returned project ->
  respond w [] Azure.connection_getGitApi = Resolved ready ->
  respond w [request Azure.connection_getGitApi] (azure_tip repo project input)
  = Resolved refs ->
  Azure.truthyObjectId (Js.first refs) = Some tip ->
  respond w [request Azure.connection_getGitApi; request (azure_tip repo project input)]
    (azure_push repo project input tip 1) = Resolved pushed ->
  snd (run (Azure.commitFile repo input) w)
  = [request Azure.connection_getGitApi; request (azure_tip repo project input);
     request (azure_push repo project input tip 1)].
Proof.
  unfold azure_tip, azure_push. intros G H0 H1 T P1.
  unfold Azure.commitFile, Azure.getLatestRef, Azure.pushFile. run_op.
  rewrite G. simpl. rewrite H0. simpl. rewrite H1. simpl. rewrite T. simpl.
  now rewrite P1.
Qed.

(** X6. [commitFile] on Azure DevOps pushes nothing for a branch
    without a tip commit: it fails with a [NotFoundError] tagged
    ["branch"] and carrying the branch name. When the push that adds
    the file is accepted, no second push is made. When both pushes are
    rejected, the failure is the [mapError] of the reason of the second
    one, the edit; the reason of the first is dropped. *)
Theorem azure_commitFile_outcomes :
  (forall w repo input project ready refs,
     Azure.getProject repo = Returned project ->
     respond w [] Azure.connection_getGitApi = Resolved ready ->
     respond w [request Azure.connection_getGitApi] (azure_tip repo project input)
     = Resolved refs ->
     Azure.truthyObjectId (Js.first refs) = None ->
     run (Azure.commitFile repo input) w
     = (Failure (NotFoundError azure_devops Resource.branch
                   (CommitFileInput.branch input)),
        [request Azure.connection_getGitApi; request (azure_tip repo project input)])) /\
  (forall w repo input project ready refs tip pushed,
     Azure.getProject repo = Returned project ->
     respond w [] Azure.connection_getGitApi = Resolved ready ->
     respond w [request Azure.connection_getGitApi] (azure_tip repo project input)
     = Resolved refs ->
     Azure.truthyObjectId (Js.first refs) = Some tip ->
     respond w
       [request Azure.connection_getGitApi; request (azure_tip repo project input)]
       (azure_push repo project input tip 1) = Resolved pushed ->
     snd (run (Azure.commitFile repo input) w)
     = [request Azure.connection_getGitApi; request (azure_tip repo project input);
        request (azure_push repo project input tip 1)]) /\
  (forall w repo input project ready refs tip t1 t2,
     Azure.getProject repo = Returned project ->
     respond w [] Azure.connection_getGitApi = Resolved ready ->
     respond w [request Azure.connection_getGitApi] (azure_tip repo project input)
     = Resolved refs ->
     Azure.truthyObjectId (Js.first refs) = Some tip ->
     respond w
       [request Azure.connection_getGitApi; request (azure_tip repo project input)]
       (azure_push repo project input tip 1) = Rejected t1 ->
     respond w
       [request Azure.connection_getGitApi; request (azure_tip repo project input);
        request (azure_push repo project input tip 1)]
       (azure_push repo project input tip 2) = Rejected t2 ->
     run (Azure.commitFile repo input) w
     = (Failure (Azure.mapError t2 "commitFile"),
        [request Azure.connection_getGitApi; request (azure_tip repo project input);
         request (azure_push repo project input tip 1);
         request (azure_push repo project input tip 2)])).
Proof.
  split; [exact azure_commitFile_no_tip |].
  split; [exact azure_commitFile_added | exact azure_commitFile_both_rejected].
Qed.

Lemma azure_commitFile_outcomes_witness :
  run (Azure.commitFile Fixture.azure_repo
         (CommitFileInput.make "README.md" "hello" "Update README" "missing"))
    Fixture.azure_world
  = (Failure (NotFoundError azure_devops Resource.branch "missing"),
     [request Azure.connection_getGitApi;
      request (azure_tip Fixture.azure_repo "MyProject"
                 (CommitFileInput.make "README.md" "hello" "Update README" "missing"))]).
Proof.
  exact (proj1 azure_commitFile_outcomes Fixture.azure_world Fixture.azure_repo
           (CommitFileInput.make "README.md" "hello" "Update README" "missing")
           "MyProject" tt [] eq_refl eq_refl eq_refl eq_refl).
Defined.

(** ** A refused branch creation on Azure DevOps *)

Lemma updateRefused_falsy results :
  updateRefused results ->
  (match Js.first results with Some r => Azure.success r | None => None end) ?? false
  = false.
Proof.
  unfold updateRefused. destruct (Js.first results) as [r |]; [| reflexivity].
  intros [-> | ->]; reflexivity.
Qed.

Lemma azure_createBranch_refused_from_sha w repo input project ready results :
  Azure.getProject repo = Returned project ->
  respond w [] Azure.connection_getGitApi = Resolved ready ->
  Js.testSha (CreateBranchInput.fromRef input) = true ->
  respond w [request Azure.connection_getGitApi]
    (azure_new_ref repo project input (CreateBranchInput.fromRef input))
  = Resolved results ->
  updateRefused results ->
  run (Azure.createBranch repo input) w
  = (Failure (ValidationError azure_devops
                ("Failed to create branch: " ++ refusalMessage results) None),
     [request Azure.connection_getGitApi;
      request (azure_new_ref repo project input (CreateBranchInput.fromRef input))]).
Proof.
  unfold azure_new_ref, refusalMessage. intros G H0 S H1 R.
  apply updateRefused_falsy in R.
  unfold Azure.createBranch. run_op. rewrite G. simpl. rewrite H0. simpl.
  rewrite S. simpl. rewrite H1. simpl. now rewrite R.
Qed.

Lemma azure_createBranch_refused_from_name w repo input project ready refs commit results :
  Azure.getProject repo = Returned project ->
  respond w [] Azure.connection_getGitApi = Resolved ready ->
  Js.testSha (CreateBranchInput.fromRef input) = false ->
  respond w [request Azure.connection_getGitApi]
    (Azure.gitApi_getRefs (Repository.repo repo) project
       ("heads/" ++ CreateBranchInput.fromRef input)) = Resolved refs ->
  Azure.truthyObjectId (Js.first refs) = Some commit ->
  respond w
    [request Azure.connection_getGitApi;
     request (Azure.gitApi_getRefs (Repository.repo repo) project
                ("heads/" ++ CreateBranchInput.fromRef input))]
    (azure_new_ref repo project input commit) = Resolved results ->
  updateRefused results ->
  run (Azure.createBranch repo input) w
  = (Failure (ValidationError azure_devops
                ("Failed to create branch: " ++ refusalMessage results) None),
     [request Azure.connection_getGitApi;
      request (Azure.gitApi_getRefs (Repository.repo repo) project
                 ("heads/" ++ CreateBranchInput.fromRef input));
      request (azure_new_ref repo project input commit)]).
Proof.
  unfold azure_new_ref, refusalMessage. intros G H0 S H1 T H2 R.
  apply updateRefused_falsy in R.
  unfold Azure.createBranch. run_op. rewrite G. simpl. rewrite H0. simpl.
  rewrite S. simpl. rewrite H1. simpl. rewrite T. simpl. rewrite H2. simpl.
  now rewrite R.
Qed.

(** X13. When the backend answers the ref update of [createBranch] on
    Azure DevOps without success (no result, no [success] flag, or
    [success: false]), the operation fails with a [ValidationError]
    without a field, whose message is ["Failed to create branch: "]
    followed by the backend's [customMessage], or by ["unknown error"]
    when there is none; the repository is not read after the refusal. *)
Theorem azure_createBranch_refused :
  (forall w repo input project ready results,
     Azure.getProject repo = Returned project ->
     respond w [] Azure.connection_getGitApi = Resolved ready ->
     Js.testSha (CreateBranchInput.fromRef input) = true ->
     respond w [request Azure.connection_getGitApi]
       (azure_new_ref repo project input (CreateBranchInput.fromRef input))
     = Resolved results ->
     updateRefused results ->
     run (Azure.createBranch repo input) w
     = (Failure (ValidationError azure_devops
                   ("Failed to create branch: " ++ refusalMessage results) None),
        [request Azure.connection_getGitApi;
         request (azure_new_ref repo project input (CreateBranchInput.fromRef input))])) /\
  (forall w repo input project ready refs commit results,
     Azure.getProject repo = Returned project ->
     respond w [] Azure.connection_getGitApi = Resolved ready ->
     Js.testSha (CreateBranchInput.fromRef input) = false ->
     respond w [request Azure.connection_getGitApi]
       (Azure.gitApi_getRefs (Repository.repo repo) project
          ("heads/" ++ CreateBranchInput.fromRef input)) = Resolved refs ->
     Azure.truthyObjectId (Js.first refs) = Some commit ->
     respond w
       [request Azure.connection_getGitApi;
        request (Azure.gitApi_getRefs (Repository.repo repo) project
                   ("heads/" ++ CreateBranchInput.fromRef input))]
       (azure_new_ref repo project input commit) = Resolved results ->
     updateRefused results ->
     run (Azure.createBranch repo input) w
     = (Failure (ValidationError azure_devops
                   ("Failed to create branch: " ++ refusalMessage results) None),
        [request Azure.connection_getGitApi;
         request (Azure.gitApi_getRefs (Repository.repo repo) project
                    ("heads/" ++ CreateBranchInput.fromRef input));
         request (azure_new_ref repo project input commit)])) /\
  refusalMessage [] = "unknown error".
Proof.
  split; [exact azure_createBranch_refused_from_sha |].
  split; [exact azure_createBranch_refused_from_name | reflexivity].
Qed.

Lemma azure_createBranch_refused_witness :
  run (Azure.createBranch Fixture.azure_repo Fixture.new_feature) Refusal.world
  = (Failure (ValidationError azure_devops
                "Failed to create branch: branch already exists" None),
     [request Azure.connection_getGitApi;
      request (Azure.gitApi_getRefs "myrepo" "MyProject" "heads/main");
      request (azure_new_ref Fixture.azure_repo "MyProject" Fixture.new_feature
                 Fixture.shaA)]).
Proof.
  exact (proj1 (proj2 azure_createBranch_refused) Refusal.world Fixture.azure_repo
           Fixture.new_feature "MyProject" tt [Fixture.azure_ref "main"] Fixture.shaA
           [{| Azure.success := Some false;
               Azure.customMessage := Some "branch already exists" |}]
           eq_refl eq_refl eq_refl eq_refl eq_refl eq_refl (or_intror eq_refl)).
Defined.

(** ** The state of a pull request that is read *)

Lemma github_getPullRequest_returns w repo number data :
  respond w [] (GitHub.pulls_get (Repository.owner repo) (Repository.repo repo) number)
  = Resolved data ->
  fst (run (GitHub.getPullRequest repo number) w) = Success (GitHub.toPullRequest data).
Proof. intro H. unfold GitHub.getPullRequest. run_op. now rewrite H. Qed.

Lemma github_listPullRequests_returns w repo options data :
  respond w []
    (GitHub.pulls_list (Repository.owner repo) (Repository.repo repo)
       match optionsState options with
       | Some filter_all => "all"
       | Some filter_closed => "closed"
       | _ => "open"
       end
       (optionsLimit options ?? 30)) = Resolved data ->
  fst (run (GitHub.listPullRequests repo options) w)
  = Success (map GitHub.toListedPullRequest data).
Proof. intro H. unfold GitHub.listPullRequests. run_op. now rewrite H. Qed.

Lemma github_state_of_merged state merged :
  (merged = true -> GitHub.mapPrState state merged = PullRequestState.merged) /\
  (merged = false ->
   GitHub.mapPrState state merged <> PullRequestState.merged /\
   (GitHub.mapPrState state merged = PullRequestState.open <-> state = "open")).
Proof.
  unfold GitHub.mapPrState. split; intros ->; [reflexivity |].
  destruct (String.eqb_spec state "open"); split; try discriminate; split; congruence.
Qed.

Lemma Forall2_map_right {A B} (P : A -> B -> Prop) (f : A -> B) xs :
  (forall x, In x xs -> P x (f x)) -> Forall2 P xs (map f xs).
Proof.
  induction xs as [| x xs IH]; intro H; simpl; constructor.
  - apply H. now left.
  - apply IH. intros y I. apply H. now right.
Qed.

(** X3. A pull request read from GitHub that is merged is reported
    [merged], whatever its native state: [getPullRequest] goes by the
    native [merged] flag, [listPullRequests] by a [merged_at] that is
    not [null]. One that is not merged is reported [open] exactly when
    its native state is ["open"], and [closed] otherwise. *)
Theorem github_merged_takes_priority :
  (forall w repo number data,
     respond w [] (GitHub.pulls_get (Repository.owner repo) (Repository.repo repo) number)
     = Resolved data ->
     exists r,
       fst (run (GitHub.getPullRequest repo number) w) = Success r /\
       (GitHub.merged data = Some true -> PullRequest.state r = PullRequestState.merged) /\
       (GitHub.merged data <> Some true ->
        PullRequest.state r <> PullRequestState.merged /\
        (PullRequest.state r = PullRequestState.open <-> GitHub.state data = "open"))) /\
  (forall w repo options data,
     respond w []
       (GitHub.pulls_list (Repository.owner repo) (Repository.repo repo)
          match optionsState options with
          | Some filter_all => "all"
          | Some filter_closed => "closed"
          | _ => "open"
          end
          (optionsLimit options ?? 30)) = Resolved data ->
     exists rs,
       fst (run (GitHub.listPullRequests repo options) w) = Success rs /\
       Forall2
         (fun pr r =>
            (GitHub.merged_at pr <> None ->
             PullRequest.state r = PullRequestState.merged) /\
            (GitHub.merged_at pr = None ->
             PullRequest.state r <> PullRequestState.merged /\
             (PullRequest.state r = PullRequestState.open <-> GitHub.state pr = "open")))
         data rs).
Proof.
  split.
  - intros w repo number data H. exists (GitHub.toPullRequest data).
    split; [now apply github_getPullRequest_returns |]. simpl.
    destruct (github_state_of_merged (GitHub.state data) (GitHub.merged data ?? false))
      as [M N].
    split.
    + intros E. apply M. now rewrite E.
    + intro E. apply N. destruct (GitHub.merged data) as [[|] |]; simpl; congruence.
  - intros w repo options data H. exists (map GitHub.toListedPullRequest data).
    split; [now apply github_listPullRequests_returns |].
    apply Forall2_map_right. intros pr _. simpl.
    destruct (GitHub.merged_at pr) as [at_ |].
    + destruct (github_state_of_merged (GitHub.state pr) true) as [M _].
      split; [intros _; now apply M | congruence].
    + destruct (github_state_of_merged (GitHub.state pr) false) as [_ N].
      split; [congruence | intros _; now apply N].
Qed.

Lemma github_merged_takes_priority_witness :
  exists r,
    fst (run (GitHub.getPullRequest Fixture.octo_repo 12) Fixture.github_world)
    = Success r /\
    (GitHub.merged Fixture.github_pull = Some true ->
     PullRequest.state r = PullRequestState.merged) /\
    (GitHub.merged Fixture.github_pull <> Some true ->
     PullRequest.state r <> PullRequestState.merged /\
     (PullRequest.state r = PullRequestState.open
      <-> GitHub.state Fixture.github_pull = "open")).
Proof.
  exact (proj1 github_merged_takes_priority Fixture.github_world Fixture.octo_repo 12
           Fixture.github_pull eq_refl).
Defined.

(** ** One branch, read alone and read in the list *)

Lemma github_getBranch_returns w repo name item info :
  respond w []
    (GitHub.repos_getBranch (Repository.owner repo) (Repository.repo repo) name)
  = Resolved item ->
  respond w
    [request (GitHub.repos_getBranch (Repository.owner repo) (Repository.repo repo) name)]
    (GitHub.repos_get (Repository.owner repo) (Repository.repo repo)) = Resolved info ->
  fst (run (GitHub.getBranch repo name) w)
  = Success {| Branch.name := GitHub.name item;
               Branch.sha := GitHub.commit_sha item;
               Branch.isDefault := GitHub.default_branch info =? name;
               Branch.protected := GitHub.protected item |}.
Proof. intros H1 H2. unfold GitHub.getBranch. run_op. now rewrite H1, H2. Qed.

Lemma gitlab_getBranch_returns w repo name item info :
  respond w []
    (GitLab.Branches_show
       (GitLab.getProjectId (Repository.owner repo) (Repository.repo repo)) name)
  = Resolved item ->
  respond w
    [request (GitLab.Branches_show
                (GitLab.getProjectId (Repository.owner repo) (Repository.repo repo)) name)]
    (GitLab.Projects_show
       (GitLab.getProjectId (Repository.owner repo) (Repository.repo repo)))
  = Resolved info ->
  fst (run (GitLab.getBranch repo name) w) = Success (GitLab.toBranch item info).
Proof. intros H1 H2. unfold GitLab.getBranch. run_op. now rewrite H1, H2. Qed.

Lemma azure_getBranch_returns w repo project name ready ref others info :
  Azure.getProject repo = Returned project ->
  respond w [] Azure.connection_getGitApi = Resolved ready ->
  respond w [request Azure.connection_getGitApi]
    (Azure.gitApi_getRefs (Repository.repo repo) project ("heads/" ++ name))
  = Resolved (ref :: others) ->
  respond w
    [request Azure.connection_getGitApi;
     request (Azure.gitApi_getRefs (Repository.repo repo) project ("heads/" ++ name))]
    (Azure.gitApi_getRepository (Repository.repo repo) project) = Resolved info ->
  fst (run (Azure.getBranch repo name) w)
  = Success {| Branch.name := name;
               Branch.sha := Azure.objectId ref ?? "";
               Branch.isDefault :=
                 Azure.extractBranchName (Azure.defaultBranch info) =? name;
               Branch.protected := Azure.isLocked ref ?? false |}.
Proof.
  intros G H0 H1 H2. unfold Azure.getBranch. run_op. rewrite G. simpl.
  rewrite H0. simpl. rewrite H1. simpl. now rewrite H2.
Qed.

(** X16. [getBranch] and [listBranches] agree. When the backend gives
    the same branch and the same repository to both, the [Branch] that
    [getBranch] returns for the name of that branch is an entry of what
    [listBranches] returns: on GitHub and GitLab for the branch whose
    native name is the requested one, on Azure DevOps for the ref
    [refs/heads/] followed by the requested name. *)
Theorem getBranch_agrees_with_listBranches :
  (forall w repo item data info,
     respond w []
       (GitHub.repos_getBranch (Repository.owner repo) (Repository.repo repo)
          (GitHub.name item)) = Resolved item ->
     respond w
       [request (GitHub.repos_getBranch (Repository.owner repo) (Repository.repo repo)
                   (GitHub.name item))]
       (GitHub.repos_get (Repository.owner repo) (Repository.repo repo)) = Resolved info ->
     respond w []
       (GitHub.repos_listBranches (Repository.owner repo) (Repository.repo repo) 100)
     = Resolved data ->
     respond w
       [request (GitHub.repos_listBranches (Repository.owner repo)
                   (Repository.repo repo) 100)]
       (GitHub.repos_get (Repository.owner repo) (Repository.repo repo)) = Resolved info ->
     In item data ->
     exists b bs,
       fst (run (GitHub.getBranch repo (GitHub.name item)) w) = Success b /\
       fst (run (GitHub.listBranches repo) w) = Success bs /\
       In b bs) /\
  (forall w repo item data info,
     respond w []
       (GitLab.Branches_show
          (GitLab.getProjectId (Repository.owner repo) (Repository.repo repo))
          (GitLab.name item)) = Resolved item ->
     respond w
       [request (GitLab.Branches_show
                   (GitLab.getProjectId (Repository.owner repo) (Repository.repo repo))
                   (GitLab.name item))]
       (GitLab.Projects_show
          (GitLab.getProjectId (Repository.owner repo) (Repository.repo repo)))
     = Resolved info ->
     respond w []
       (GitLab.Branches_all
          (GitLab.getProjectId (Repository.owner repo) (Repository.repo repo)) 100)
     = Resolved data ->
     respond w
       [request (GitLab.Branches_all
                   (GitLab.getProjectId (Repository.owner repo) (Repository.repo repo)) 100)]
       (GitLab.Projects_show
          (GitLab.getProjectId (Repository.owner repo) (Repository.repo repo)))
     = Resolved info ->
     In item data ->
     exists b bs,
       fst (run (GitLab.getBranch repo (GitLab.name item)) w) = Success b /\
       fst (run (GitLab.listBranches repo) w) = Success bs /\
       In b bs) /\
  (forall w repo project ready name ref others refs info,
     Azure.getProject repo = Returned project ->
     respond w [] Azure.connection_getGitApi = Resolved ready ->
     Azure.name ref = Some ("refs/heads/" ++ name) ->
     respond w [request Azure.connection_getGitApi]
       (Azure.gitApi_getRefs (Repository.repo repo) project ("heads/" ++ name))
     = Resolved (ref :: others) ->
     respond w
       [request Azure.connection_getGitApi;
        request (Azure.gitApi_getRefs (Repository.repo repo) project ("heads/" ++ name))]
       (Azure.gitApi_getRepository (Repository.repo repo) project) = Resolved info ->
     respond w [request Azure.connection_getGitApi]
       (Azure.gitApi_getRefs (Repository.repo repo) project "heads/") = Resolved refs ->
     respond w
       [request Azure.connection_getGitApi;
        request (Azure.gitApi_getRefs (Repository.repo repo) project "heads/")]
       (Azure.gitApi_getRepository (Repository.repo repo) project) = Resolved info ->
     In ref refs ->
     exists b bs,
       fst (run (Azure.getBranch repo name) w) = Success b /\
       fst (run (Azure.listBranches repo) w) = Success bs /\
       In b bs).
Proof.
  split; [| split].
  - intros w repo item data info G1 G2 L1 L2 I.
    do 2 eexists. split; [eapply github_getBranch_returns; eassumption |].
    split.
    + unfold GitHub.listBranches. run_op. rewrite L1, L2. reflexivity.
    + apply in_map_iff. exists item. split; [reflexivity | exact I].
  - intros w repo item data info G1 G2 L1 L2 I.
    do 2 eexists. split; [eapply gitlab_getBranch_returns; eassumption |].
    split.
    + unfold GitLab.listBranches. run_op. rewrite L1, L2. reflexivity.
    + apply in_map_iff. exists item. split; [reflexivity | exact I].
  - intros w repo project ready name ref others refs info G H0 N G1 G2 L1 L2 I.
    do 2 eexists. split; [eapply azure_getBranch_returns; eassumption |].
    split.
    + unfold Azure.listBranches. run_op. rewrite G. simpl. rewrite H0. simpl.
      rewrite L1, L2. reflexivity.
    + apply in_map_iff. exists ref. split; [| exact I].
      rewrite N, extractBranchName_of_ref. f_equal. apply String.eqb_sym.
Qed.

Lemma getBranch_agrees_with_listBranches_witness :
  exists b bs,
    fst (run (GitLab.getBranch Fixture.acme_widgets "feature-x") Fixture.gitlab_world)
    = Success b /\
    fst (run (GitLab.listBranches Fixture.acme_widgets) Fixture.gitlab_world)
    = Success bs /\
    In b bs.
Proof.
  exact (proj1 (proj2 getBranch_agrees_with_listBranches)
           Fixture.gitlab_world Fixture.acme_widgets (Fixture.gitlab_branch "feature-x")
           [Fixture.gitlab_branch "main"; Fixture.gitlab_branch "feature-x"]
           {| GitLab.default_branch := "main" |}
           eq_refl eq_refl eq_refl eq_refl (or_intror (or_introl eq_refl))).
Defined.

(** ** The identity of an Azure DevOps pull request *)

Lemma append_associative (a b c : string) : (a ++ b) ++ c = a ++ (b ++ c).
Proof. induction a as [| x a IH]; simpl; [reflexivity | now rewrite IH]. Qed.

Lemma mapPullRequest_identity pr orgUrl (w : World Azure.Call) s r s' :
  Azure.mapPullRequest pr orgUrl w s = (Returned r, s') ->
  PullRequest.id r = Azure.pullRequestId pr ?? 0 /\
  PullRequest.number r = Azure.pullRequestId pr ?? 0 /\
  exists base,
    PullRequest.url r = orgUrl ++ "/" ++ base ++ "/pullrequest/"
                        ++ Js.template (Azure.pullRequestId pr).
Proof.
  unfold Azure.mapPullRequest, bind. rewrite !orNow_spec.
  destruct (Azure.creationDate pr); intro H; inversion H; subst; clear H;
    cbv [PullRequest.id PullRequest.number PullRequest.url];
    (split; [reflexivity | split; [reflexivity |]]);
    exists ((match Azure.repository pr with
             | Some r => match Azure.project r with
                         | Some p => Azure.project_name p
                         | None => None
                         end
             | None => None
             end ?? "unknown")
            ++ "/_git/"
            ++ (match Azure.repository pr with
                | Some r => Azure.repository_name r
                | None => None
                end ?? "unknown"));
    rewrite !append_associative; reflexivity.
Qed.

Lemma mapPullRequests_identity orgUrl (w : World Azure.Call) prs :
  forall s rs s',
    mapAsync (fun pr => Azure.mapPullRequest pr orgUrl) prs w s = (Returned rs, s') ->
    Forall (fun r => PullRequest.id r = PullRequest.number r) rs.
Proof.
  induction prs as [| pr prs IH]; intros s rs s' H; simpl in H.
  - inversion H. constructor.
  - unfold bind at 1 in H.
    destruct (Azure.mapPullRequest pr orgUrl w s) as [[r | t] s1] eqn:R; [| discriminate].
    unfold bind at 1 in H.
    destruct (mapAsync _ prs w s1) as [[rs1 | t] s2] eqn:Rs; [| discriminate].
    inversion H. subst. constructor.
    + apply mapPullRequest_identity in R. destruct R as (I & N & _). congruence.
    + eapply IH. exact Rs.
Qed.

(** X17. Every pull request that the Azure DevOps adapter returns has
    [id = number]: both are the native [pullRequestId]. One that the
    backend delivers without a [pullRequestId] gets [id] and [number]
    0, and a [url] that ends in [/pullrequest/undefined]. *)
Theorem azure_id_is_number :
  (forall w r, azure_produces w r -> PullRequest.id r = PullRequest.number r) /\
  (forall pr orgUrl (w : World Azure.Call) s r s',
     Azure.mapPullRequest pr orgUrl w s = (Returned r, s') ->
     Azure.pullRequestId pr = None ->
     PullRequest.id r = 0%Z /\ PullRequest.number r = 0%Z /\
     exists base,
       PullRequest.url r = orgUrl ++ "/" ++ base ++ "/pullrequest/undefined").
Proof.
  split.
  - intros w r P.
    destruct P as [w orgUrl repo input r tr H | w orgUrl repo number r tr H
                  | w orgUrl repo options rs r tr H I];
      apply run_success in H; destruct H as (s & H & _);
      unfold bind, lift, await in H;
      destruct (Azure.getProject repo) as [project | t]; simpl in H; try discriminate;
      destruct (respond w [] Azure.connection_getGitApi); simpl in H; try discriminate.
    + destruct (respond w _ _) as [pr | t]; simpl in H; [| discriminate].
      apply mapPullRequest_identity in H. destruct H as (I & N & _). congruence.
    + destruct (respond w _ _) as [[pr |] | t]; simpl in H; try discriminate.
      apply mapPullRequest_identity in H. destruct H as (I & N & _). congruence.
    + destruct (respond w _ _) as [fetched | t]; simpl in H; [| discriminate].
      apply mapPullRequests_identity in H. rewrite Forall_forall in H. now apply H.
  - intros pr orgUrl w s r s' H N. apply mapPullRequest_identity in H.
    rewrite N in H. exact H.
Qed.

Lemma azure_id_is_number_witness :
  exists r,
    fst (run (Azure.getPullRequest Fixture.orgUrl Fixture.azure_repo 2) Fixture.azure_world)
    = Success r /\
    PullRequest.id r = PullRequest.number r.
Proof.
  eexists. split; [reflexivity |].
  exact (proj1 azure_id_is_number Fixture.azure_world _
           (produced_by_get Fixture.azure_world Fixture.orgUrl Fixture.azure_repo 2 eq_refl)).
Defined.

(** ** The retry delay of a rate limit *)

Lemma gitlab_mapError_retryAfter t op p r :
  GitLab.mapError t op = RateLimitError p r -> r = None.
Proof.
  unfold GitLab.mapError. destruct (errorMessage t); try discriminate.
  repeat match goal with
         | |- context [if ?c then _ else _] => destruct c; try discriminate
         end.
  intro H. now inversion H.
Qed.

Lemma azure_mapError_retryAfter t op p r :
  Azure.mapError t op = RateLimitError p r -> r = None.
Proof.
  unfold Azure.mapError. destruct (errorMessage t); try discriminate.
  repeat match goal with
         | |- context [if ?c then _ else _] => destruct c; try discriminate
         end.
  intro H. now inversion H.
Qed.

(** X18. A [RateLimitError] carries [retryAfter] only on GitHub, and
    only when the rejection has a non-empty [retry-after] header, which
    is then parsed in base 10. A rate-limit failure of any operation of
    the GitLab or of the Azure DevOps adapter never carries it. *)
Theorem retryAfter_comes_from_the_github_header :
  (forall m header op,
     header <> "" ->
     GitHub.mapError (JsError m (Some 429%Z) (Some header)) op
     = RateLimitError github (Some (Js.parseInt header 10))) /\
  (forall m op,
     GitHub.mapError (JsError m (Some 429%Z) (Some "")) op = RateLimitError github None /\
     GitHub.mapError (JsError m (Some 429%Z) None) op = RateLimitError github None) /\
  (forall p op p' r,
     fails_with p op (RateLimitError p' r) ->
     p = gitlab \/ p = azure_devops ->
     r = None).
Proof.
  split; [| split].
  - intros m header op N. destruct header; [contradiction | reflexivity].
  - intros m op. split; reflexivity.
  - intros p op p' r F P.
    destruct (failure_origin F) as [[t H] | [(q & x & i & H) | (q & x & f & H)]];
      try discriminate.
    destruct P as [-> | ->]; simpl in H; symmetry in H.
    + now apply gitlab_mapError_retryAfter in H.
    + now apply azure_mapError_retryAfter in H.
Qed.

Lemma retryAfter_comes_from_the_github_header_witness :
  GitHub.mapError (JsError "Too Many Requests" (Some 429%Z) (Some "60")) "listBranches"
  = RateLimitError github (Some (Js.parseInt "60" 10)).
Proof.
  refine (proj1 retryAfter_comes_from_the_github_header
            "Too Many Requests" "60" "listBranches" _).
  discriminate.
Defined.

(** ** States that the adapters do not know *)

Lemma gitlab_getPullRequest_returns w repo number mr :
  respond w []
    (GitLab.MergeRequests_show
       (GitLab.getProjectId (Repository.owner repo) (Repository.repo repo)) number)
  = Resolved mr ->
  fst (run (GitLab.getPullRequest repo number) w) = Success (GitLab.toPullRequest mr).
Proof. intro H. unfold GitLab.getPullRequest. run_op. now rewrite H. Qed.

Lemma gitlab_listPullRequests_returns w repo options mrs :
  respond w []
    (GitLab.MergeRequests_all
       (GitLab.getProjectId (Repository.owner repo) (Repository.repo repo))
       match optionsState options with
       | Some filter_all => None
       | Some filter_closed => Some "closed"
       | _ => Some "opened"
       end
       (optionsLimit options ?? 30)) = Resolved mrs ->
  fst (run (GitLab.listPullRequests repo options) w)
  = Success (map GitLab.toPullRequest mrs).
Proof. intro H. unfold GitLab.listPullRequests. run_op. now rewrite H. Qed.

Lemma gitlab_state_of_native state :
  (GitLab.mapMrState state = PullRequestState.merged <-> state = "merged") /\
  (GitLab.mapMrState state = PullRequestState.open <-> state = "opened").
Proof.
  unfold GitLab.mapMrState.
  destruct (String.eqb_spec state "merged") as [-> | M].
  - split; split; intro H; try reflexivity; discriminate.
  - destruct (String.eqb_spec state "opened") as [-> | O];
      split; split; intro H; try reflexivity; try discriminate; contradiction.
Qed.

Lemma azure_state_of_native status :
  (Azure.mapPrState status = PullRequestState.open <-> status = Some 1%Z) /\
  (Azure.mapPrState status = PullRequestState.merged <-> status = Some 3%Z).
Proof.
  unfold Azure.mapPrState.
  destruct status as [[| p | p] |]; try (split; split; intro H; discriminate).
  destruct p as [[p | p |] | p |];
    split; split; intro H; try reflexivity; discriminate.
Qed.

(** X19. A state that an adapter does not know ends as [closed]. A
    merge request read from GitLab, by [getPullRequest] or by
    [listPullRequests], is reported [merged] exactly when its native
    state is ["merged"] and [open] exactly when it is ["opened"]; with
    any other native state, ["locked"] among them, it is reported
    [closed]. A pull request read from Azure DevOps by [getPullRequest]
    is reported [open] exactly when its status is 1 and [merged]
    exactly when it is 3; without a status, or with any other one, it
    is reported [closed]. *)
Theorem unknown_states_are_closed :
  (forall w repo number mr,
     respond w []
       (GitLab.MergeRequests_show
          (GitLab.getProjectId (Repository.owner repo) (Repository.repo repo)) number)
     = Resolved mr ->
     exists r,
       fst (run (GitLab.getPullRequest repo number) w) = Success r /\
       (PullRequest.state r = PullRequestState.merged <-> GitLab.state mr = "merged") /\
       (PullRequest.state r = PullRequestState.open <-> GitLab.state mr = "opened") /\
       (GitLab.state mr <> "merged" -> GitLab.state mr <> "opened" ->
        PullRequest.state r = PullRequestState.closed)) /\
  (forall w repo options mrs,
     respond w []
       (GitLab.MergeRequests_all
          (GitLab.getProjectId (Repository.owner repo) (Repository.repo repo))
          match optionsState options with
          | Some filter_all => None
          | Some filter_closed => Some "closed"
          | _ => Some "opened"
          end
          (optionsLimit options ?? 30)) = Resolved mrs ->
     exists rs,
       fst (run (GitLab.listPullRequests repo options) w) = Success rs /\
       Forall2
         (fun mr r =>
            (PullRequest.state r = PullRequestState.merged <-> GitLab.state mr = "merged") /\
            (PullRequest.state r = PullRequestState.open <-> GitLab.state mr = "opened") /\
            (GitLab.state mr <> "merged" -> GitLab.state mr <> "opened" ->
             PullRequest.state r = PullRequestState.closed))
         mrs rs) /\
  (forall w orgUrl repo number project ready pr,
     Azure.getProject repo = Returned project ->
     respond w [] Azure.connection_getGitApi = Resolved ready ->
     respond w [request Azure.connection_getGitApi]
       (Azure.gitApi_getPullRequest (Repository.repo repo) number project)
     = Resolved (Some pr) ->
     exists r,
       fst (run (Azure.getPullRequest orgUrl repo number) w) = Success r /\
       (PullRequest.state r = PullRequestState.open <-> Azure.status pr = Some 1%Z) /\
       (PullRequest.state r = PullRequestState.merged <-> Azure.status pr = Some 3%Z) /\
       (Azure.status pr <> Some 1%Z -> Azure.status pr <> Some 3%Z ->
        PullRequest.state r = PullRequestState.closed)).
Proof.
  assert (G : forall mr,
            (PullRequest.state (GitLab.toPullRequest mr) = PullRequestState.merged
             <-> GitLab.state mr = "merged") /\
            (PullRequest.state (GitLab.toPullRequest mr) = PullRequestState.open
             <-> GitLab.state mr = "opened") /\
            (GitLab.state mr <> "merged" -> GitLab.state mr <> "opened" ->
             PullRequest.state (GitLab.toPullRequest mr) = PullRequestState.closed)).
  { intro mr. simpl. destruct (gitlab_state_of_native (GitLab.state mr)) as [M O].
    repeat split; try apply M; try apply O.
    intros NM NO. destruct (GitLab.mapMrState (GitLab.state mr)) eqn:E;
      [exfalso; apply NO; now apply O | reflexivity | exfalso; apply NM; now apply M]. }
  split; [| split].
  - intros w repo number mr H. exists (GitLab.toPullRequest mr).
    split; [now apply gitlab_getPullRequest_returns | apply G].
  - intros w repo options mrs H. exists (map GitLab.toPullRequest mrs).
    split; [now apply gitlab_listPullRequests_returns |].
    apply Forall2_map_right. intros mr _. apply G.
  - intros w orgUrl repo number project ready pr P A F.
    destruct (mapPullRequest_spec pr orgUrl w
                {| trace := [request Azure.connection_getGitApi;
                             request (Azure.gitApi_getPullRequest (Repository.repo repo)
                                        number project)];
                   reads := 0 |}) as (r & s' & R & _ & _ & S & _).
    exists r. split.
    + unfold Azure.getPullRequest. run_op. rewrite P. simpl. rewrite A. simpl.
      rewrite F. simpl. rewrite R. reflexivity.
    + rewrite S. destruct (azure_state_of_native (Azure.status pr)) as [O M].
      repeat split; try apply O; try apply M.
      intros NO NM. destruct (Azure.mapPrState (Azure.status pr)) eqn:E;
        [exfalso; apply NO; now apply O | reflexivity | exfalso; apply NM; now apply M].
Qed.

Lemma unknown_states_are_closed_witness :
  exists r,
    fst (run (GitLab.getPullRequest Fixture.acme_widgets 8) Fixture.gitlab_world)
    = Success r /\
    PullRequest.state r = PullRequestState.open.
Proof.
  destruct (proj1 unknown_states_are_closed Fixture.gitlab_world Fixture.acme_widgets 8
              (Fixture.gitlab_mr "Fix typo" (Some false) (Some true)) eq_refl)
    as (r & R & _ & O & _).
  exists r. split; [exact R | apply O; reflexivity].
Defined.
